(** * CustomDatasetMapper (src/mmovod/data/custom_dataset_mapper.py)

    A shallow embedding of [CustomDatasetMapper.__init__],
    [CustomDatasetMapper.from_config] and [CustomDatasetMapper.__call__].

    Python dictionaries are mutable objects: they live in a heap indexed by
    locations, and a value of a dictionary entry may be a reference to
    another dictionary (an annotation).  The call runs in a state monad over
    that heap with Python exceptions; a raised exception keeps the heap as
    it was at the raise, as in Python.  The state also carries a ghost trace
    of the calls made to the augmentation pipeline and to the detectron2
    annotation helpers, so that the pipeline applied and the annotations
    remapped can be stated.

    The detectron2 / fvcore helpers whose internals are out of scope
    (image decoding, augmentation application, coordinate remapping of
    boxes, masks and keypoints) are fields of the record [lib]; the helpers
    whose structure matters here ([check_image_size],
    [transform_instance_annotations], [annotations_to_instances],
    [filter_empty_instances], [transform_proposals]) are written out from
    their detectron2 definitions. *)

From Stdlib Require Import String List ZArith Bool Lia Sorted.
Import ListNotations.
Open Scope string_scope.
Open Scope Z_scope.
Set Warnings "-register-all".

(** ** Data model *)

Definition loc := nat.

(** A decoded image (numpy HWC array): height, width and its pixels. *)
Record image := mkImage { img_h : Z; img_w : Z; img_px : list Z }.

(** The concrete transform returned by an augmentation pipeline
    (fvcore [TransformList]): the sequence of sampled operations. *)
Definition transform := list nat.

(** [T.AugmentationList]: an ordered sequence of augmentations. *)
Inductive pipeline := AugmentationList (augs : list nat).

Definition box := list Z.
Definition mask := list (list Z).
Definition kps := list Z.

(** detectron2 [Instances], column by column; an optional column is a
    field that may be absent ([instances.gt_masks] raises when absent). *)
Record instances := mkInstances {
  inst_image_size : Z * Z;
  gt_boxes : list box;
  gt_classes : list Z;
  gt_masks : option (list mask);
  gt_keypoints : option (list kps)
}.

(** Python values stored in a record.  Lists are immutable values here:
    the mapper never mutates a list in place. *)
Inductive value :=
| VNone
| VInt (z : Z)
| VStr (s : string)
| VList (vs : list value)
| VRef (l : loc)                 (* reference to a dict object *)
| VArr (a : list Z)              (* 1-d numpy array *)
| VArr2 (a : list (list Z))      (* 2-d numpy array / polygon list *)
| VTensor (im : image)           (* torch tensor of the CHW image *)
| VSemSeg (im : image)           (* torch long tensor of the label map *)
| VInstances (i : instances)
| VProposals (p : list box)
| VOpaque (n : nat).

(** A Python dict, in insertion order. *)
Definition dict := list (string * value).

Fixpoint dict_get (d : dict) (k : string) : option value :=
  match d with
  | [] => None
  | (k', v) :: d' => if String.eqb k k' then Some v else dict_get d' k
  end.

Definition has_key (d : dict) (k : string) : bool :=
  match dict_get d k with Some _ => true | None => false end.

(** [d[k] = v]: an existing key keeps its position, a new key goes last. *)
Fixpoint dict_upd (d : dict) (k : string) (v : value) : option dict :=
  match d with
  | [] => None
  | (k', v') :: d' =>
      if String.eqb k k' then Some ((k', v) :: d')
      else option_map (cons (k', v')) (dict_upd d' k v)
  end.

Definition dict_set (d : dict) (k : string) (v : value) : dict :=
  match dict_upd d k v with Some d' => d' | None => app d [(k, v)] end.

(** [del d[k]]: the keys of a Python dict are unique, so removing every
    entry with key [k] removes that entry. *)
Definition dict_del (d : dict) (k : string) : dict :=
  filter (fun kv => negb (String.eqb k (fst kv))) d.

(** Python exceptions raised on the paths of the mapper. *)
Inductive exn :=
| KeyError | IndexError | TypeError | AttributeError
| NotImplementedError | AssertionError | SizeMismatchError | IOError.

Inductive result (A : Type) := Ok (a : A) | Err (e : exn).
Arguments Ok {A} a.
Arguments Err {A} e.

(** Python indexing [xs[v]] of a list by a value: negative indices count
    from the end, a non-integer index is a [TypeError]. *)
Definition py_index {A} (xs : list A) (v : value) : result A :=
  match v with
  | VInt z =>
      let n := Z.of_nat (length xs) in
      let i := if z <? 0 then n + z else z in
      if (0 <=? i) && (i <? n) then
        match nth_error xs (Z.to_nat i) with
        | Some x => Ok x
        | None => Err IndexError
        end
      else Err IndexError
  | _ => Err TypeError
  end.

(** ** Ghost trace and state *)

Inductive event :=
| EvAugment (p : pipeline)                 (* [p(aug_input)] *)
| EvRemap (l : loc)                        (* [transform_instance_annotations] on dict [l] *)
| EvBuild (ls : list loc) (ds : list dict). (* [annotations_to_instances] on those dicts *)

Record state := mkState {
  heap : loc -> option dict;
  next : loc;               (* every location from [next] on is free *)
  trace : list event
}.

Definition M (A : Type) := state -> result A * state.

Definition ret {A} (a : A) : M A := fun s => (Ok a, s).
Definition throw {A} (e : exn) : M A := fun s => (Err e, s).
Definition bind {A B} (m : M A) (k : A -> M B) : M B :=
  fun s => match m s with
           | (Ok a, s') => k a s'
           | (Err e, s') => (Err e, s')
           end.
Definition lift {A} (r : result A) : M A :=
  match r with Ok a => ret a | Err e => throw e end.

Notation "x <- m ;; k" := (bind m (fun x => k))
  (at level 61, m at next level, right associativity).
Notation "' p <- m ;; k" := (bind m (fun x => match x with p => k end))
  (at level 61, p pattern, m at next level, right associativity).
Notation "m ;;; k" := (bind m (fun _ => k)) (at level 61, right associativity).

(** ** Heap primitives (Python dict operations on a dict object) *)

Definition upd_heap (h : loc -> option dict) (l : loc) (d : dict) :=
  fun x => if Nat.eqb x l then Some d else h x.

Definition load (l : loc) : M dict :=
  fun s => match heap s l with
           | Some d => (Ok d, s)
           | None => (Err TypeError, s)
           end.

Definition store (l : loc) (d : dict) : M unit :=
  fun s => (Ok tt, mkState (upd_heap (heap s) l d) (next s) (trace s)).

Definition log (e : event) : M unit :=
  fun s => (Ok tt, mkState (heap s) (next s) (app (trace s) [e])).

(** [d[k]] *)
Definition getitem (l : loc) (k : string) : M value :=
  d <- load l ;;
  match dict_get d k with Some v => ret v | None => throw KeyError end.

(** [d[k] = v] *)
Definition setitem (l : loc) (k : string) (v : value) : M unit :=
  d <- load l ;; store l (dict_set d k v).

(** [k in d] *)
Definition contains (l : loc) (k : string) : M bool :=
  d <- load l ;; ret (has_key d k).

(** [d.pop(k)] *)
Definition pop (l : loc) (k : string) : M value :=
  d <- load l ;;
  match dict_get d k with
  | Some v => store l (dict_del d k) ;;; ret v
  | None => throw KeyError
  end.

(** [d.pop(k, default)] *)
Definition pop_default (l : loc) (k : string) (dflt : value) : M value :=
  d <- load l ;;
  match dict_get d k with
  | Some v => store l (dict_del d k) ;;; ret v
  | None => ret dflt
  end.

(** [d.get(k, default)] *)
Definition get_default (l : loc) (k : string) (dflt : value) : M value :=
  d <- load l ;;
  match dict_get d k with Some v => ret v | None => ret dflt end.

Definition as_ref (e : exn) (v : value) : M loc :=
  match v with VRef l => ret l | _ => throw e end.

Definition as_str (v : value) : M string :=
  match v with VStr s => ret s | _ => throw TypeError end.

Definition as_list (v : value) : M (list value) :=
  match v with VList vs => ret vs | _ => throw TypeError end.

Fixpoint mapM {A B} (f : A -> M B) (xs : list A) : M (list B) :=
  match xs with
  | [] => ret []
  | x :: xs' => y <- f x ;; ys <- mapM f xs' ;; ret (y :: ys)
  end.

Fixpoint mapM_ {A} (f : A -> M unit) (xs : list A) : M unit :=
  match xs with
  | [] => ret tt
  | x :: xs' => f x ;;; mapM_ f xs'
  end.

(** [copy.deepcopy]: every object gets a fresh copy at [l + next]; the
    references inside the copies are renamed the same way, so sharing
    between objects is kept, as with deepcopy's memo. *)
Fixpoint shift_value (o : nat) (v : value) : value :=
  match v with
  | VRef l => VRef (l + o)%nat
  | VList vs => VList (map (shift_value o) vs)
  | _ => v
  end.

Definition shift_dict (o : nat) (d : dict) : dict :=
  map (fun kv => (fst kv, shift_value o (snd kv))) d.

Definition copy_heap (o : nat) (h : loc -> option dict) : loc -> option dict :=
  fun x => if (x <? o)%nat then h x else option_map (shift_dict o) (h (x - o)%nat).

Definition deepcopy (r : loc) : M loc :=
  fun s => (Ok (r + next s)%nat,
            mkState (copy_heap (next s) (heap s)) (next s + next s)%nat (trace s)).

(** ** External helpers *)

(** Image decoding, augmentation application and coordinate remapping,
    whose internals are out of the scope of this module. *)
Record lib := mkLib {
  read_image : string -> string -> option image;   (* None: unreadable *)
  augment : pipeline -> image -> option image -> transform * image * option image;
  apply_box : value -> value -> transform -> Z * Z -> box;
  apply_segmentation : value -> transform -> Z * Z -> list (list Z);
  apply_keypoints : value -> transform -> Z * Z -> option (list Z) -> kps;
  anno_box : dict -> box;
  anno_class : dict -> Z;
  anno_mask : string -> dict -> mask;
  anno_keypoints : dict -> kps;
  box_nonempty : box -> bool;
  mask_nonempty : mask -> bool;
  mask_bbox : mask -> box;
  proposal_boxes : value -> value -> value -> Z * Z -> transform -> nat -> list box
}.

Section Detectron2.
Variable L : lib.

Definition value_is_int (v : value) (z : Z) : bool :=
  match v with VInt z' => Z.eqb z' z | _ => false end.

(** [utils.check_image_size] *)
Definition check_image_size (d : loc) (im : image) : M unit :=
  hw <- contains d "width" ;;
  hh <- contains d "height" ;;
  (if hw || hh then
     w <- getitem d "width" ;;
     h <- getitem d "height" ;;
     if value_is_int w (img_w im) && value_is_int h (img_h im) then ret tt
     else throw SizeMismatchError
   else ret tt) ;;;
  hw' <- contains d "width" ;;
  (if hw' then ret tt else setitem d "width" (VInt (img_w im))) ;;;
  hh' <- contains d "height" ;;
  (if hh' then ret tt else setitem d "height" (VInt (img_h im))).

(** [utils.transform_instance_annotations] on the contents of the dict. *)
Definition transform_annotation_dict (tr : transform) (shape : Z * Z)
    (hflip : option (list Z)) (a : dict) : result dict :=
  match dict_get a "bbox", dict_get a "bbox_mode" with
  | Some bb, Some mode =>
      let a1 := dict_set (dict_set a "bbox" (VArr (apply_box L bb mode tr shape)))
                         "bbox_mode" (VInt 0) in
      let a2 := match dict_get a1 "segmentation" with
                | Some sg => dict_set a1 "segmentation"
                               (VArr2 (apply_segmentation L sg tr shape))
                | None => a1
                end in
      let a3 := match dict_get a2 "keypoints" with
                | Some kp => dict_set a2 "keypoints"
                               (VArr (apply_keypoints L kp tr shape hflip))
                | None => a2
                end in
      Ok a3
  | _, _ => Err KeyError
  end.

(** It mutates the annotation dict in place and returns it. *)
Definition transform_instance_annotations (l : loc) (tr : transform)
    (shape : Z * Z) (hflip : option (list Z)) : M unit :=
  log (EvRemap l) ;;;
  a <- load l ;;
  a' <- lift (transform_annotation_dict tr shape hflip a) ;;
  store l a'.

(** [utils.annotations_to_instances] *)
Definition annotations_to_instances (annos : list dict) (shape : Z * Z)
    (mask_format : string) : instances :=
  mkInstances shape
    (map (anno_box L) annos)
    (map (anno_class L) annos)
    (match annos with
     | a0 :: _ => if has_key a0 "segmentation"
                  then Some (map (anno_mask L mask_format) annos) else None
     | [] => None
     end)
    (match annos with
     | a0 :: _ => if has_key a0 "keypoints"
                  then Some (map (anno_keypoints L) annos) else None
     | [] => None
     end).

(** [instances.gt_boxes = instances.gt_masks.get_bounding_boxes()] *)
Definition recompute_boxes_from_masks (i : instances) : result instances :=
  match gt_masks i with
  | Some ms => Ok (mkInstances (inst_image_size i) (map (mask_bbox L) ms)
                     (gt_classes i) (gt_masks i) (gt_keypoints i))
  | None => Err AttributeError
  end.

(** [instances[m]] for a boolean mask [m]. *)
Fixpoint select {A} (keep : list bool) (xs : list A) : list A :=
  match keep, xs with
  | b :: keep', x :: xs' => if b then x :: select keep' xs' else select keep' xs'
  | _, _ => []
  end.

Fixpoint and_masks (m1 m2 : list bool) : list bool :=
  match m1, m2 with
  | a :: m1', b :: m2' => (a && b) :: and_masks m1' m2'
  | _, _ => []
  end.

(** [utils.filter_empty_instances] with [by_box] and [by_mask]. *)
Definition filter_empty_instances (i : instances) : instances :=
  let keep := match gt_masks i with
              | Some ms => and_masks (map (box_nonempty L) (gt_boxes i))
                                     (map (mask_nonempty L) ms)
              | None => map (box_nonempty L) (gt_boxes i)
              end in
  mkInstances (inst_image_size i) (select keep (gt_boxes i))
    (select keep (gt_classes i)) (option_map (select keep) (gt_masks i))
    (option_map (select keep) (gt_keypoints i)).

(** [utils.transform_proposals] *)
Definition transform_proposals (d : loc) (shape : Z * Z) (tr : transform)
    (topk : nat) : M unit :=
  b <- contains d "proposal_boxes" ;;
  if b then
    pb <- pop d "proposal_boxes" ;;
    pm <- pop d "proposal_bbox_mode" ;;
    pl <- pop d "proposal_objectness_logits" ;;
    setitem d "proposals" (VProposals (proposal_boxes L pb pm pl shape tr topk))
  else ret tt.

End Detectron2.

(** [sorted(set(xs))] on integers. *)
Fixpoint insert_uniq (x : Z) (ys : list Z) : list Z :=
  match ys with
  | [] => [x]
  | y :: ys' =>
      if x <? y then x :: ys
      else if x =? y then ys
      else y :: insert_uniq x ys'
  end.

Definition sorted_set (xs : list Z) : list Z := fold_right insert_uniq [] xs.

(** ** The mapper object *)

(** The attributes of a [CustomDatasetMapper]; those of detectron2's
    [DatasetMapper] come last.  [dataset_augs] is [None] when the attribute
    was never assigned. *)
Record mapper := mkMapper {
  with_ann_type : bool;
  dataset_ann : list string;
  use_diff_bs_size : bool;
  dataset_augs : option (list pipeline);
  is_debug : bool;
  use_tar_dataset : bool;
  is_train : bool;
  augmentations : pipeline;
  image_format : string;
  use_instance_mask : bool;
  use_keypoint : bool;
  instance_mask_format : string;
  keypoint_hflip_indices : option (list Z);
  proposal_topk : option nat;
  recompute_boxes : bool
}.

(** The keyword arguments forwarded to [DatasetMapper.__init__]. *)
Record base_kwargs := mkBaseKwargs {
  kw_augmentations : list nat;
  kw_image_format : string;
  kw_use_instance_mask : bool;
  kw_use_keypoint : bool;
  kw_instance_mask_format : string;
  kw_keypoint_hflip_indices : option (list Z);
  kw_precomputed_proposal_topk : option nat;
  kw_recompute_boxes : bool
}.

(** [CustomDatasetMapper.__init__], then [DatasetMapper.__init__]. *)
Definition init (is_train0 with_ann_type0 : bool) (dataset_ann0 : list string)
    (use_diff_bs_size0 : bool) (dataset_augs0 : list (list nat))
    (is_debug0 use_tar_dataset0 : bool) (tarfile_path tar_index_dir : string)
    (kw : base_kwargs) : result mapper :=
  let augs := if use_diff_bs_size0 && is_train0
              then Some (map AugmentationList dataset_augs0) else None in
  if use_tar_dataset0 then Err NotImplementedError
  else if kw_recompute_boxes kw && negb (kw_use_instance_mask kw)
  then Err AssertionError
  else Ok (mkMapper with_ann_type0 dataset_ann0 use_diff_bs_size0 augs
             is_debug0 use_tar_dataset0 is_train0
             (AugmentationList (kw_augmentations kw)) (kw_image_format kw)
             (kw_use_instance_mask kw) (kw_use_keypoint kw)
             (kw_instance_mask_format kw) (kw_keypoint_hflip_indices kw)
             (kw_precomputed_proposal_topk kw) (kw_recompute_boxes kw)).

(** ** [CustomDatasetMapper.from_config] and construction from a config *)

Section FromConfig.
(** The element types of the per-source size lists; the mapper passes them
    to [build_custom_augmentation] without looking at them. *)
Variables Scale Size MinSize MaxSize : Type.

(** The config entries read by [from_config]: [cfg.WITH_IMAGE_LABELS],
    [cfg.IS_DEBUG], [cfg.INPUT.CUSTOM_AUG] and the [cfg.DATALOADER] ones. *)
Record config := mkConfig {
  WITH_IMAGE_LABELS : bool;
  DATASET_ANN : list string;
  USE_DIFF_BS_SIZE : bool;
  IS_DEBUG : bool;
  USE_TAR_DATASET : bool;
  TARFILE_PATH : string;
  TAR_INDEX_DIR : string;
  CUSTOM_AUG : string;
  DATASET_INPUT_SCALE : list Scale;
  DATASET_INPUT_SIZE : list Size;
  DATASET_MIN_SIZES : list MinSize;
  DATASET_MAX_SIZES : list MaxSize
}.

(** The two ways [from_config] calls [build_custom_augmentation]: with
    [scale, size] positionally, or with [min_size=mi, max_size=ma]. *)
Inductive aug_args :=
| ScaleSize (scale : Scale) (size : Size)
| MinMaxSize (min_size : MinSize) (max_size : MaxSize).

(** [DatasetMapper.from_config] and [build_custom_augmentation]
    (custom_build_augmentation.py), whose internals are out of scope. *)
Variable base_from_config : config -> bool -> base_kwargs.
Variable build_custom_augmentation : config -> bool -> aug_args -> list nat.

(** The dict [ret] that [from_config] returns: the keyword arguments of
    [__init__]. *)
Record mapper_kwargs := mkMapperKwargs {
  kw_is_train : bool;
  kw_with_ann_type : bool;
  kw_dataset_ann : list string;
  kw_use_diff_bs_size : bool;
  kw_dataset_augs : list (list nat);
  kw_is_debug : bool;
  kw_use_tar_dataset : bool;
  kw_tarfile_path : string;
  kw_tar_index_dir : string;
  kw_base : base_kwargs
}.

(** Lines 50-79; [zip] stops at the shorter list, as [combine] does. *)
Definition from_config (cfg : config) (is_train0 : bool) : result mapper_kwargs :=
  let augs :=
    if USE_DIFF_BS_SIZE cfg && is_train0 then
      if String.eqb (CUSTOM_AUG cfg) "EfficientDetResizeCrop" then
        Ok (map (fun p => build_custom_augmentation cfg true (ScaleSize (fst p) (snd p)))
                (combine (DATASET_INPUT_SCALE cfg) (DATASET_INPUT_SIZE cfg)))
      else if String.eqb (CUSTOM_AUG cfg) "ResizeShortestEdge" then
        Ok (map (fun p => build_custom_augmentation cfg true (MinMaxSize (fst p) (snd p)))
                (combine (DATASET_MIN_SIZES cfg) (DATASET_MAX_SIZES cfg)))
      else Err AssertionError
    else Ok [] in
  match augs with
  | Ok a =>
      Ok (mkMapperKwargs is_train0 (WITH_IMAGE_LABELS cfg) (DATASET_ANN cfg)
            (USE_DIFF_BS_SIZE cfg) a (IS_DEBUG cfg) (USE_TAR_DATASET cfg)
            (TARFILE_PATH cfg) (TAR_INDEX_DIR cfg) (base_from_config cfg is_train0))
  | Err e => Err e
  end.

(** [CustomDatasetMapper(cfg, is_train)]: [@configurable] calls
    [from_config], then [__init__] with its result. *)
Definition from_cfg (cfg : config) (is_train0 : bool) : result mapper :=
  match from_config cfg is_train0 with
  | Ok kw =>
      init (kw_is_train kw) (kw_with_ann_type kw) (kw_dataset_ann kw)
        (kw_use_diff_bs_size kw) (kw_dataset_augs kw) (kw_is_debug kw)
        (kw_use_tar_dataset kw) (kw_tarfile_path kw) (kw_tar_index_dir kw) (kw_base kw)
  | Err e => Err e
  end.

End FromConfig.

Arguments WITH_IMAGE_LABELS {Scale Size MinSize MaxSize} c.
Arguments DATASET_ANN {Scale Size MinSize MaxSize} c.
Arguments USE_DIFF_BS_SIZE {Scale Size MinSize MaxSize} c.
Arguments IS_DEBUG {Scale Size MinSize MaxSize} c.
Arguments USE_TAR_DATASET {Scale Size MinSize MaxSize} c.
Arguments TARFILE_PATH {Scale Size MinSize MaxSize} c.
Arguments TAR_INDEX_DIR {Scale Size MinSize MaxSize} c.
Arguments CUSTOM_AUG {Scale Size MinSize MaxSize} c.
Arguments DATASET_INPUT_SCALE {Scale Size MinSize MaxSize} c.
Arguments DATASET_INPUT_SIZE {Scale Size MinSize MaxSize} c.
Arguments DATASET_MIN_SIZES {Scale Size MinSize MaxSize} c.
Arguments DATASET_MAX_SIZES {Scale Size MinSize MaxSize} c.
Arguments ScaleSize {Scale Size MinSize MaxSize} scale size.
Arguments MinMaxSize {Scale Size MinSize MaxSize} min_size max_size.
Arguments from_config {Scale Size MinSize MaxSize} base_from_config
  build_custom_augmentation cfg is_train0.
Arguments from_cfg {Scale Size MinSize MaxSize} base_from_config
  build_custom_augmentation cfg is_train0.

(** ** [CustomDatasetMapper.__call__], section by section *)

Section Call.
Variable m : mapper.
Variable L : lib.

(** Lines 87-94.  The [else] branch reads [self.tar_dataset], an attribute
    that neither this class nor [DatasetMapper] ever assigns. *)
Definition load_image (d : loc) : M image :=
  b <- contains d "file_name" ;;
  im <- (if b then
           f <- getitem d "file_name" ;;
           fname <- as_str f ;;
           match read_image L fname (image_format m) with
           | Some im => ret im
           | None => throw IOError
           end
         else throw AttributeError) ;;
  check_image_size d im ;;;
  ret im.

(** Lines 97-101. *)
Definition read_sem_seg (d : loc) : M (option image) :=
  b <- contains d "sem_seg_file_name" ;;
  if b then
    v <- pop d "sem_seg_file_name" ;;
    f <- as_str v ;;
    match read_image L f "L" with
    | Some s => ret (Some s)
    | None => throw IOError
    end
  else ret None.

(** Lines 103-104. *)
Definition force_debug_source (d : loc) : M unit :=
  if is_debug m then setitem d "dataset_source" (VInt 0) else ret tt.

(** Lines 106-108; the value is computed and never used. *)
Definition not_full_labeled (d : loc) : M bool :=
  b <- contains d "dataset_source" ;;
  if b then
    if with_ann_type m then
      v <- getitem d "dataset_source" ;;
      a <- lift (py_index (dataset_ann m) v) ;;
      ret (negb (String.eqb a "box"))
    else ret false
  else ret false.

(** Lines 111-115: the pipeline that is applied. *)
Definition select_augmentation (d : loc) : M pipeline :=
  if use_diff_bs_size m && is_train m then
    augs <- match dataset_augs m with
            | Some a => ret a
            | None => throw AttributeError
            end ;;
    v <- getitem d "dataset_source" ;;
    lift (py_index augs v)
  else ret (augmentations m).

(** [transforms = p(aug_input)] *)
Definition apply_augmentation (p : pipeline) (ori : image) (sem : option image)
    : M (transform * image * option image) :=
  log (EvAugment p) ;;; ret (augment L p ori sem).

(** Lines 118-123. *)
Definition store_image (d : loc) (img : image) (sem : option image) : M unit :=
  setitem d "image" (VTensor img) ;;;
  match sem with
  | Some s => setitem d "sem_seg" (VSemSeg s)
  | None => ret tt
  end.

(** Lines 127-131. *)
Definition proposals_step (d : loc) (shape : Z * Z) (tr : transform) : M unit :=
  match proposal_topk m with
  | Some k => transform_proposals L d shape tr k
  | None => ret tt
  end.

(** Lines 141-145, for one annotation. *)
Definition strip_annotation (v : value) : M unit :=
  (if negb (use_instance_mask m) then
     l <- as_ref AttributeError v ;; pop_default l "segmentation" VNone ;;; ret tt
   else ret tt) ;;;
  (if negb (use_keypoint m) then
     l <- as_ref AttributeError v ;; pop_default l "keypoints" VNone ;;; ret tt
   else ret tt).

(** One element of [all_annos], lines 149-152. *)
Definition remap_annotation (tr : transform) (shape : Z * Z) (v : value)
    : M (loc * value) :=
  l <- as_ref TypeError v ;;
  transform_instance_annotations L l tr shape (keypoint_hflip_indices m) ;;;
  c <- get_default l "iscrowd" (VInt 0) ;;
  ret (l, c).

(** [ann[1] == 0] *)
Definition is_zero (v : value) : bool :=
  match v with VInt z => Z.eqb z 0 | _ => false end.

(** Lines 141-163. *)
Definition process_annotations (d : loc) (tr : transform) (shape : Z * Z) : M unit :=
  v <- getitem d "annotations" ;;
  vs <- as_list v ;;
  mapM_ strip_annotation vs ;;;
  v' <- pop d "annotations" ;;
  vs' <- as_list v' ;;
  all_annos <- mapM (remap_annotation tr shape) vs' ;;
  let ls := map fst (filter (fun a => is_zero (snd a)) all_annos) in
  annos <- mapM load ls ;;
  log (EvBuild ls annos) ;;;
  let inst := annotations_to_instances L annos shape (instance_mask_format m) in
  inst' <- (if recompute_boxes m then lift (recompute_boxes_from_masks L inst)
            else ret inst) ;;
  setitem d "instances" (VInstances (filter_empty_instances L inst')).

(** Lines 164-168. *)
Definition attach_ann_type (d : loc) : M unit :=
  if with_ann_type m then
    pos <- get_default d "pos_category_ids" (VList []) ;;
    setitem d "pos_category_ids" pos ;;;
    v <- getitem d "dataset_source" ;;
    a <- lift (py_index (dataset_ann m) v) ;;
    setitem d "ann_type" (VStr a)
  else ret tt.

(** [x == []] *)
Definition is_empty_list (v : value) : bool :=
  match v with VList [] => true | _ => false end.

(** Lines 169-173. *)
Definition debug_pos_category_ids (d : loc) : M unit :=
  if is_debug m then
    b <- contains d "pos_category_ids" ;;
    c <- (if negb b then ret true
          else p <- getitem d "pos_category_ids" ;; ret (is_empty_list p)) ;;
    if c then
      v <- getitem d "instances" ;;
      match v with
      | VInstances i =>
          setitem d "pos_category_ids" (VList (map VInt (sorted_set (gt_classes i))))
      | _ => throw AttributeError
      end
    else ret tt
  else ret tt.

(** Lines 116-174: everything after the pipeline has been applied. *)
Definition finish (d : loc) (tr : transform) (img : image) (sem' : option image)
    : M loc :=
  let shape := (img_h img, img_w img) in
  store_image d img sem' ;;;
  proposals_step d shape tr ;;;
  if negb (is_train m) then
    pop_default d "annotations" VNone ;;;
    pop_default d "sem_seg_file_name" VNone ;;;
    ret d
  else
    b <- contains d "annotations" ;;
    (if b then process_annotations d tr shape else ret tt) ;;;
    attach_ann_type d ;;;
    debug_pos_category_ids d ;;;
    ret d.

(** [CustomDatasetMapper.__call__]: returns the location of the output
    record. *)
Definition call (r : loc) : M loc :=
  d <- deepcopy r ;;
  ori <- load_image d ;;
  sem <- read_sem_seg d ;;
  force_debug_source d ;;;
  not_full_labeled d ;;;
  p <- select_augmentation d ;;
  '(tr, img, sem') <- apply_augmentation p ori sem ;;
  finish d tr img sem'.

End Call.

(** ** Vocabulary of the proofs *)

(** [heap[l][k]], [None] when either is missing. *)
Definition lookup (s : state) (l : loc) (k : string) : option value :=
  match heap s l with Some d => dict_get d k | None => None end.

(** The keys of an annotation that [transform_instance_annotations] rewrites. *)
Definition anno_keys : list string := ["bbox"; "bbox_mode"; "segmentation"; "keypoints"].

(** [frame W c]: [c] changes no entry outside [W]. *)
Definition frame {A} (W : loc -> string -> Prop) (c : M A) : Prop :=
  forall s l k, ~ W l k -> lookup (snd (c s)) l k = lookup s l k.

(** [quiet c]: [c] records no event. *)
Definition quiet {A} (c : M A) : Prop := forall s, trace (snd (c s)) = trace s.

(** [logs P c]: every event [c] records satisfies [P]. *)
Definition logs {A} (P : event -> Prop) (c : M A) : Prop :=
  forall s, exists evs, trace (snd (c s)) = app (trace s) evs /\ Forall P evs.

(** An event other than the application of a pipeline. *)
Definition not_augment (e : event) : Prop :=
  match e with EvAugment _ => False | _ => True end.

(** The state after [copy.deepcopy] of any object of [s]. *)
Definition copied (s : state) : state :=
  mkState (copy_heap (next s) (heap s)) (next s + next s)%nat (trace s).

(** [refs_ge n v]: every reference in [v] points at [n] or above. *)
Fixpoint refs_ge (n : nat) (v : value) : Prop :=
  match v with
  | VRef l => (n <= l)%nat
  | VList vs =>
      (fix go (vs : list value) : Prop :=
         match vs with [] => True | v :: vs' => refs_ge n v /\ go vs' end) vs
  | _ => True
  end.

Definition dict_refs_ge (n : nat) (d : dict) : Prop :=
  forall k v, In (k, v) d -> refs_ge n v.

(** The objects below [n0] are those of [s0], and the objects from [n0] on
    only refer to objects from [n0] on. *)
Definition untouched (n0 : nat) (s0 : state) (s : state) : Prop :=
  (forall l, (l < n0)%nat -> heap s l = heap s0 l) /\
  (forall l d, (n0 <= l)%nat -> heap s l = Some d -> dict_refs_ge n0 d).

(** [c] keeps [untouched n0 s0], and its result satisfies [Q]. *)
Definition inv {A} (n0 : nat) (s0 : state) (c : M A) (Q : A -> Prop) : Prop :=
  forall s, untouched n0 s0 s ->
    untouched n0 s0 (snd (c s)) /\ (forall a, fst (c s) = Ok a -> Q a).

(** [pure c]: [c] leaves the state as it is, whatever its outcome. *)
Definition pure {A} (c : M A) : Prop := forall s, snd (c s) = s.

(** The keys of the working record that [__call__] writes before the
    annotations are processed. *)
Definition pre_keys : list string :=
  ["width"; "height"; "sem_seg_file_name"; "dataset_source"; "image"; "sem_seg";
   "proposal_boxes"; "proposal_bbox_mode"; "proposal_objectness_logits"; "proposals"].

(** [obj.get("iscrowd", 0)] *)
Definition iscrowd_of (s : state) (l : loc) : value :=
  match lookup s l "iscrowd" with Some c => c | None => VInt 0 end.

(** Every key of the working record that [__call__] may write, add or
    remove. *)
Definition written_keys : list string :=
  app pre_keys ["annotations"; "instances"; "pos_category_ids"; "ann_type"].

(** The non-crowd annotations among [ls], in order. *)
Definition kept_annotations (s : state) (ls : list loc) : list loc :=
  map fst (filter (fun a => is_zero (snd a)) (map (fun l => (l, iscrowd_of s l)) ls)).

(** The instances built from the dicts [annos], boxes recomputed if asked. *)
Definition built_instances m L (annos : list dict) (shape : Z * Z) (inst' : instances)
    : Prop :=
  let inst := annotations_to_instances L annos shape (instance_mask_format m) in
  if recompute_boxes m then recompute_boxes_from_masks L inst = Ok inst'
  else inst' = inst.

(** Where [deepcopy] puts the copy of the object at [l]. *)
Definition copy_loc (s : state) (l : loc) : loc := (l + next s)%nat.

(** The mapper [m] with [dataset_ann] replaced by [a]. *)
Definition with_dataset_ann (m : mapper) (a : list string) : mapper :=
  mkMapper (with_ann_type m) a (use_diff_bs_size m) (dataset_augs m) (is_debug m)
    (use_tar_dataset m) (is_train m) (augmentations m) (image_format m)
    (use_instance_mask m) (use_keypoint m) (instance_mask_format m)
    (keypoint_hflip_indices m) (proposal_topk m) (recompute_boxes m).

(** Columns of equal length, as [Instances] requires. *)
Definition aligned (i : instances) : Prop :=
  length (gt_classes i) = length (gt_boxes i) /\
  (forall ms, gt_masks i = Some ms -> length ms = length (gt_boxes i)) /\
  (forall ks, gt_keypoints i = Some ks -> length ks = length (gt_boxes i)).

(** ** Sample inputs

    A library whose images are 2 x 3, whose pipelines return their own
    content as the transform, and whose box remapping sends every box to
    [[0; 0; 1; 1]]; records with a non-crowd annotation of class 7 (at 1) and
    a crowd annotation of class 5 (at 2). *)

Definition lib0 : lib := mkLib
  (fun _ _ => Some (mkImage 2 3 []))
  (fun p im sem => (match p with AugmentationList a => a end, im, sem))
  (fun _ _ _ _ => [0; 0; 1; 1]) (fun _ _ _ => []) (fun _ _ _ _ => [])
  (fun d => match dict_get d "bbox" with Some (VArr b) => b | _ => [] end)
  (fun d => match dict_get d "category_id" with Some (VInt c) => c | _ => 0 end)
  (fun _ _ => []) (fun _ => []) (fun _ => true) (fun _ => true)
  (fun _ => [0; 0; 3; 2]) (fun _ _ _ _ _ _ => []).

Definition an1 : dict :=
  [("bbox", VArr [1; 1; 2; 2]); ("bbox_mode", VInt 1); ("category_id", VInt 7);
   ("iscrowd", VInt 0)].

Definition an2 : dict :=
  [("bbox", VArr [1; 1; 2; 2]); ("bbox_mode", VInt 1); ("category_id", VInt 5);
   ("iscrowd", VInt 1)].

Definition an1_seg : dict := app an1 [("segmentation", VList [])].

Definition rec0 : dict :=
  [("file_name", VStr "a.jpg"); ("dataset_source", VInt 1);
   ("annotations", VList [VRef 1%nat; VRef 2%nat]); ("sem_seg_file_name", VStr "s.png")].

(** A state whose objects are [rec] at 0, [a1] at 1 and [an2] at 2. *)
Definition sample_state (rec a1 : dict) : state :=
  mkState (fun l => match l with
                    | 0%nat => Some rec | 1%nat => Some a1 | 2%nat => Some an2
                    | _ => None end) 3%nat [].

Definition st0 : state := sample_state rec0 an1.

Definition st_masks : state := sample_state rec0 an1_seg.

Definition rec_no_source : dict :=
  [("file_name", VStr "a.jpg"); ("width", VInt 3); ("height", VInt 2);
   ("sem_seg_file_name", VStr "s.png");
   ("annotations", VList [VRef 1%nat; VRef 2%nat])].

Definition st_no_source : state := sample_state rec_no_source an1.

Definition st_no_ann : state :=
  sample_state [("file_name", VStr "a.jpg"); ("dataset_source", VInt 0)] an1.

Definition st_no_file : state := sample_state [("tar_index", VInt 0)] an1.

Definition st_instances : state :=
  sample_state (app rec0 [("instances", VInstances (mkInstances (2, 3) [] [] None None))]) an1.

(** Training with [is_debug], [with_ann_type] and per-source pipelines. *)
Definition m_debug : mapper :=
  mkMapper true ["box"; "image"] true
    (Some [AugmentationList [1%nat]; AugmentationList [2%nat]]) true false true
    (AugmentationList [0%nat]) "BGR" false false "polygon" None None false.

(** The same without [is_debug]. *)
Definition m_plain : mapper :=
  mkMapper true ["box"; "image"] true
    (Some [AugmentationList [1%nat]; AugmentationList [2%nat]]) false false true
    (AugmentationList [0%nat]) "BGR" false false "polygon" None None false.

(** Inference with [is_debug] and [with_ann_type]. *)
Definition m_infer : mapper :=
  mkMapper true ["box"; "image"] true None true false false
    (AugmentationList [0%nat]) "BGR" false false "polygon" None None false.

(** Training with instance masks and [recompute_boxes]. *)
Definition m_masks : mapper :=
  mkMapper false [] false None false false true
    (AugmentationList [0%nat]) "BGR" true false "polygon" None None true.

(** The config side: a builder that returns the size it is given, and
    two configs with per-source sizes. *)
Definition build0 (cfg : config Z Z Z Z) (is_train0 : bool) (a : aug_args Z Z Z Z)
    : list nat :=
  match a with ScaleSize _ sz => [Z.to_nat sz] | MinMaxSize _ ma => [Z.to_nat ma] end.

Definition base0 (cfg : config Z Z Z Z) (is_train0 : bool) : base_kwargs :=
  mkBaseKwargs [0%nat] "BGR" false false "polygon" None None false.

Definition cfg_eff : config Z Z Z Z :=
  mkConfig Z Z Z Z false ["box"; "image"] true false false "p" "i"
    "EfficientDetResizeCrop" [1; 2] [640; 896; 1024] [] [].

Definition cfg_rse : config Z Z Z Z :=
  mkConfig Z Z Z Z false ["box"; "image"] true false false "p" "i"
    "ResizeShortestEdge" [] [] [640; 800; 1024] [1333; 1333].

Definition st_bad_size : state :=
  sample_state [("file_name", VStr "a.jpg"); ("width", VInt 4); ("height", VInt 2)] an1.

Definition st_width_only : state :=
  sample_state [("file_name", VStr "a.jpg"); ("width", VInt 3)] an1.

Definition st_bad_source : state :=
  sample_state [("file_name", VStr "a.jpg"); ("dataset_source", VInt (-3))] an1.

Definition st_last_source : state :=
  sample_state [("file_name", VStr "a.jpg"); ("dataset_source", VInt (-1));
                ("annotations", VList [VRef 1%nat])] an1.

Definition m_proposals : mapper :=
  mkMapper false [] false None false false true
    (AugmentationList [0%nat]) "BGR" false false "polygon" None (Some 5%nat) false.

Definition st_proposals : state :=
  sample_state [("file_name", VStr "a.jpg"); ("proposal_boxes", VArr [0; 0; 1; 1]);
                ("proposal_bbox_mode", VInt 0); ("proposal_objectness_logits", VArr [1])] an1.

(** * Proofs *)

(** ** Dictionaries *)

Lemma dict_upd_get_eq d k v d' :
  dict_upd d k v = Some d' -> dict_get d' k = Some v.
Proof.
  revert d'; induction d as [|[k0 v0] d IH]; intros d' H; simpl in H.
  - discriminate.
  - destruct (String.eqb k k0) eqn:E.
    + inversion H; subst; simpl. rewrite E. reflexivity.
    + destruct (dict_upd d k v) eqn:E2; simpl in H; inversion H; subst.
      simpl. rewrite E. apply IH. reflexivity.
Qed.

Lemma dict_upd_get_neq d k k' v d' :
  k <> k' -> dict_upd d k' v = Some d' -> dict_get d' k = dict_get d k.
Proof.
  intro Hne; revert d'; induction d as [|[k0 v0] d IH]; intros d' H; simpl in H.
  - discriminate.
  - destruct (String.eqb k' k0) eqn:E.
    + apply String.eqb_eq in E; subst. inversion H; subst; simpl.
      destruct (String.eqb k k0) eqn:E3; [|reflexivity].
      apply String.eqb_eq in E3; contradiction.
    + destruct (dict_upd d k' v) eqn:E2; simpl in H; inversion H; subst.
      simpl. destruct (String.eqb k k0); [reflexivity|]. apply IH. reflexivity.
Qed.

Lemma dict_upd_none_get d k v : dict_upd d k v = None -> dict_get d k = None.
Proof.
  induction d as [|[k0 v0] d IH]; simpl; intros H; [reflexivity|].
  destruct (String.eqb k k0); [discriminate|].
  destruct (dict_upd d k v); [discriminate|]. apply IH; reflexivity.
Qed.

Lemma dict_get_app d1 d2 k :
  dict_get (app d1 d2) k =
  match dict_get d1 k with Some v => Some v | None => dict_get d2 k end.
Proof.
  induction d1 as [|[k0 v0] d1 IH]; simpl; [reflexivity|].
  destruct (String.eqb k k0); [reflexivity|exact IH].
Qed.

Lemma dict_get_set_eq d k v : dict_get (dict_set d k v) k = Some v.
Proof.
  unfold dict_set. destruct (dict_upd d k v) eqn:E.
  - eapply dict_upd_get_eq; eassumption.
  - rewrite dict_get_app, (dict_upd_none_get _ _ _ E). simpl.
    rewrite String.eqb_refl. reflexivity.
Qed.

Lemma dict_get_set_neq d k k' v :
  k <> k' -> dict_get (dict_set d k' v) k = dict_get d k.
Proof.
  intro Hne. unfold dict_set. destruct (dict_upd d k' v) eqn:E.
  - eapply dict_upd_get_neq; eassumption.
  - rewrite dict_get_app. destruct (dict_get d k); [reflexivity|]. simpl.
    destruct (String.eqb k k') eqn:E2; [|reflexivity].
    apply String.eqb_eq in E2. contradiction.
Qed.

Lemma dict_get_del_eq d k : dict_get (dict_del d k) k = None.
Proof.
  induction d as [|[k0 v0] d IH]; simpl; [reflexivity|].
  destruct (String.eqb k k0) eqn:E; simpl; [exact IH|].
  rewrite E. exact IH.
Qed.

Lemma dict_get_del_neq d k k' :
  k <> k' -> dict_get (dict_del d k') k = dict_get d k.
Proof.
  intro Hne. induction d as [|[k0 v0] d IH]; simpl; [reflexivity|].
  destruct (String.eqb k' k0) eqn:E; simpl.
  - apply String.eqb_eq in E; subst.
    destruct (String.eqb k k0) eqn:E2; [apply String.eqb_eq in E2; contradiction|].
    exact IH.
  - destruct (String.eqb k k0); [reflexivity|exact IH].
Qed.

Lemma dict_get_shift o d k :
  dict_get (shift_dict o d) k = option_map (shift_value o) (dict_get d k).
Proof.
  induction d as [|[k0 v0] d IH]; simpl; [reflexivity|].
  destruct (String.eqb k k0); [reflexivity|exact IH].
Qed.

Lemma transform_annotation_dict_frame L tr shape hf a a' k :
  transform_annotation_dict L tr shape hf a = Ok a' -> ~ In k anno_keys ->
  dict_get a' k = dict_get a k.
Proof.
  unfold transform_annotation_dict, anno_keys; intros H Hk.
  destruct (dict_get a "bbox"), (dict_get a "bbox_mode"); try discriminate.
  inversion H; subst; clear H.
  assert (N1 : k <> "bbox") by (intro E; subst; apply Hk; simpl; tauto).
  assert (N2 : k <> "bbox_mode") by (intro E; subst; apply Hk; simpl; tauto).
  assert (N3 : k <> "segmentation") by (intro E; subst; apply Hk; simpl; tauto).
  assert (N4 : k <> "keypoints") by (intro E; subst; apply Hk; simpl; tauto).
  repeat match goal with
         | |- context [match ?x with Some _ => _ | None => _ end] =>
             destruct x
         end;
  repeat rewrite dict_get_set_neq by assumption; reflexivity.
Qed.

(** ** Footprints of computations

    [frame W c]: [c] changes the value of key [k] of object [l] only when
    [W l k]; [quiet c]: [c] adds no event to the trace; [logs P c]: every
    event [c] adds satisfies [P].  All three hold whatever the outcome. *)

Lemma lookup_store s l d l' k :
  lookup (snd (store l d s)) l' k =
  if Nat.eqb l' l then dict_get d k else lookup s l' k.
Proof. unfold lookup, store, upd_heap; simpl. destruct (Nat.eqb l' l); reflexivity. Qed.

Lemma frame_bind {A B} W (c : M A) (k : A -> M B) :
  frame W c -> (forall a, frame W (k a)) -> frame W (bind c k).
Proof.
  intros Hc Hk s l key Hn. unfold bind. specialize (Hc s l key Hn).
  destruct (c s) as [[a|e] s']; simpl in *; [rewrite Hk by exact Hn|]; exact Hc.
Qed.

Lemma quiet_bind {A B} (c : M A) (k : A -> M B) :
  quiet c -> (forall a, quiet (k a)) -> quiet (bind c k).
Proof.
  intros Hc Hk s. unfold bind. specialize (Hc s).
  destruct (c s) as [[a|e] s']; simpl in *; [rewrite Hk|]; exact Hc.
Qed.

Lemma logs_bind {A B} P (c : M A) (k : A -> M B) :
  logs P c -> (forall a, logs P (k a)) -> logs P (bind c k).
Proof.
  intros Hc Hk s. unfold bind. destruct (Hc s) as (evs & He & Hf).
  destruct (c s) as [[a|e] s']; simpl in *.
  - destruct (Hk a s') as (evs' & He' & Hf'). exists (app evs evs'). split.
    + rewrite He', He, app_assoc. reflexivity.
    + apply Forall_app; split; assumption.
  - exists evs; split; assumption.
Qed.

Lemma quiet_logs {A} P (c : M A) : quiet c -> logs P c.
Proof. intros H s. exists []. rewrite H, app_nil_r. split; [reflexivity|constructor]. Qed.

Lemma frame_weaken {A} (W W' : loc -> string -> Prop) (c : M A) :
  frame W c -> (forall l k, W l k -> W' l k) -> frame W' c.
Proof. intros H Hw s l k Hn. apply H. intro Hw'. apply Hn, Hw, Hw'. Qed.

Lemma frame_ret {A} W (a : A) : frame W (ret a).
Proof. intros s l k _. reflexivity. Qed.

Lemma frame_throw {A} W e : frame W (@throw A e).
Proof. intros s l k _. reflexivity. Qed.

Lemma frame_lift {A} W (r : result A) : frame W (lift r).
Proof. destruct r; [apply frame_ret|apply frame_throw]. Qed.

Lemma frame_load W l : frame W (load l).
Proof. intros s l' k _. unfold load. destruct (heap s l); reflexivity. Qed.

Lemma frame_log W e : frame W (log e).
Proof. intros s l k _. reflexivity. Qed.

Lemma frame_setitem (W : loc -> string -> Prop) l k v :
  W l k -> frame W (setitem l k v).
Proof.
  intros Hw s l' k' Hn. unfold setitem, bind, load.
  destruct (heap s l) as [d|] eqn:E; [|reflexivity].
  rewrite lookup_store. destruct (Nat.eqb l' l) eqn:El; [|reflexivity].
  apply Nat.eqb_eq in El; subst. unfold lookup. rewrite E.
  apply dict_get_set_neq. intro; subst. contradiction.
Qed.

Lemma frame_del (W : loc -> string -> Prop) l k s d :
  W l k -> heap s l = Some d ->
  forall l' k', ~ W l' k' ->
  lookup (snd (store l (dict_del d k) s)) l' k' = lookup s l' k'.
Proof.
  intros Hw E l' k' Hn. rewrite lookup_store.
  destruct (Nat.eqb l' l) eqn:El; [|reflexivity].
  apply Nat.eqb_eq in El; subst. unfold lookup. rewrite E.
  apply dict_get_del_neq. intro; subst. contradiction.
Qed.

Lemma frame_pop (W : loc -> string -> Prop) l k : W l k -> frame W (pop l k).
Proof.
  intros Hw s l' k' Hn. unfold pop, bind, load.
  destruct (heap s l) as [d|] eqn:E; [|reflexivity].
  destruct (dict_get d k); [|reflexivity]. simpl.
  exact (frame_del W l k s d Hw E l' k' Hn).
Qed.

Lemma frame_pop_default (W : loc -> string -> Prop) l k v :
  W l k -> frame W (pop_default l k v).
Proof.
  intros Hw s l' k' Hn. unfold pop_default, bind, load.
  destruct (heap s l) as [d|] eqn:E; [|reflexivity].
  destruct (dict_get d k); [|reflexivity]. simpl.
  exact (frame_del W l k s d Hw E l' k' Hn).
Qed.

Lemma frame_transform (W : loc -> string -> Prop) L l tr shape hf :
  (forall k, In k anno_keys -> W l k) ->
  frame W (transform_instance_annotations L l tr shape hf).
Proof.
  intros Hw s l' k' Hn. unfold transform_instance_annotations, bind, log, load, lift.
  simpl. destruct (heap s l) as [d|] eqn:E; [|reflexivity].
  destruct (transform_annotation_dict L tr shape hf d) as [d'|e] eqn:Et;
    [|reflexivity].
  simpl. unfold store, lookup; simpl. unfold upd_heap.
  destruct (Nat.eqb l' l) eqn:El; [|reflexivity].
  apply Nat.eqb_eq in El; subst. rewrite E.
  apply (transform_annotation_dict_frame L tr shape hf d d' k' Et).
  intro Hin. apply Hn, Hw, Hin.
Qed.

Lemma frame_mapM {A B} W (f : A -> M B) xs :
  (forall x, frame W (f x)) -> frame W (mapM f xs).
Proof.
  intros Hf; induction xs as [|x xs IH]; simpl.
  - apply frame_ret.
  - apply frame_bind; [apply Hf|intros y].
    apply frame_bind; [apply IH|intros ys]. apply frame_ret.
Qed.

Lemma frame_mapM_ {A} W (f : A -> M unit) xs :
  (forall x, frame W (f x)) -> frame W (mapM_ f xs).
Proof.
  intros Hf; induction xs as [|x xs IH]; simpl.
  - apply frame_ret.
  - apply frame_bind; [apply Hf|intros; apply IH].
Qed.

Lemma quiet_ret {A} (a : A) : quiet (ret a).
Proof. intros s; reflexivity. Qed.

Lemma quiet_throw {A} e : quiet (@throw A e).
Proof. intros s; reflexivity. Qed.

Lemma quiet_lift {A} (r : result A) : quiet (lift r).
Proof. destruct r; [apply quiet_ret|apply quiet_throw]. Qed.

Lemma quiet_load l : quiet (load l).
Proof. intros s; unfold load; destruct (heap s l); reflexivity. Qed.

Lemma quiet_store l d : quiet (store l d).
Proof. intros s; reflexivity. Qed.

Lemma quiet_mapM {A B} (f : A -> M B) xs :
  (forall x, quiet (f x)) -> quiet (mapM f xs).
Proof.
  intros Hf; induction xs as [|x xs IH]; simpl.
  - apply quiet_ret.
  - apply quiet_bind; [apply Hf|intros y].
    apply quiet_bind; [apply IH|intros ys]. apply quiet_ret.
Qed.

Lemma quiet_mapM_ {A} (f : A -> M unit) xs :
  (forall x, quiet (f x)) -> quiet (mapM_ f xs).
Proof.
  intros Hf; induction xs as [|x xs IH]; simpl.
  - apply quiet_ret.
  - apply quiet_bind; [apply Hf|intros; apply IH].
Qed.

Lemma logs_log (P : event -> Prop) e : P e -> logs P (log e).
Proof. intros He s. exists [e]. split; [reflexivity|constructor; [exact He|constructor]]. Qed.

Lemma logs_mapM {A B} P (f : A -> M B) xs :
  (forall x, logs P (f x)) -> logs P (mapM f xs).
Proof.
  intros Hf; induction xs as [|x xs IH]; simpl.
  - apply quiet_logs, quiet_ret.
  - apply logs_bind; [apply Hf|intros y].
    apply logs_bind; [apply IH|intros ys]. apply quiet_logs, quiet_ret.
Qed.

Ltac unfold_ops :=
  unfold getitem, setitem, contains, pop, pop_default, get_default,
    as_ref, as_str, as_list, check_image_size, transform_proposals,
    load_image, read_sem_seg, force_debug_source, not_full_labeled,
    select_augmentation, apply_augmentation, store_image, proposals_step,
    strip_annotation, remap_annotation, attach_ann_type,
    debug_pos_category_ids.

Ltac side_W := solve [cbn beta; simpl; intuition (auto; congruence)].

Ltac frame_tac :=
  repeat match goal with
  | |- frame _ (bind _ _) => apply frame_bind; intros
  | |- frame _ (ret _) => apply frame_ret
  | |- frame _ (throw _) => apply frame_throw
  | |- frame _ (lift _) => apply frame_lift
  | |- frame _ (load _) => apply frame_load
  | |- frame _ (log _) => apply frame_log
  | |- frame _ (setitem _ _ _) => apply frame_setitem; side_W
  | |- frame _ (pop _ _) => apply frame_pop; side_W
  | |- frame _ (pop_default _ _ _) => apply frame_pop_default; side_W
  | |- frame _ (transform_instance_annotations _ _ _ _ _) =>
      apply frame_transform; intros; side_W
  | |- frame _ (mapM _ _) => apply frame_mapM; intros
  | |- frame _ (mapM_ _ _) => apply frame_mapM_; intros
  | |- frame _ (if ?b then _ else _) => destruct b
  | |- frame _ (match ?x with _ => _ end) => destruct x
  | |- frame _ _ => progress unfold_ops
  end.

Ltac quiet_tac :=
  repeat match goal with
  | |- quiet (bind _ _) => apply quiet_bind; intros
  | |- quiet (ret _) => apply quiet_ret
  | |- quiet (throw _) => apply quiet_throw
  | |- quiet (lift _) => apply quiet_lift
  | |- quiet (load _) => apply quiet_load
  | |- quiet (store _ _) => apply quiet_store
  | |- quiet (mapM _ _) => apply quiet_mapM; intros
  | |- quiet (mapM_ _ _) => apply quiet_mapM_; intros
  | |- quiet (if ?b then _ else _) => destruct b
  | |- quiet (match ?x with _ => _ end) => destruct x
  | |- quiet _ => progress unfold_ops
  end.

(** ** Footprint of each section of [__call__] *)

Section Footprints.
Variable m : mapper.
Variable L : lib.
Variable d : loc.

Lemma load_image_frame :
  frame (fun l k => l = d /\ In k ["width"; "height"]) (load_image m L d).
Proof. frame_tac. Qed.

Lemma read_sem_seg_frame :
  frame (fun l k => l = d /\ k = "sem_seg_file_name") (read_sem_seg L d).
Proof. frame_tac. Qed.

Lemma force_debug_source_frame :
  frame (fun l k => l = d /\ k = "dataset_source") (force_debug_source m d).
Proof. frame_tac. Qed.

Lemma not_full_labeled_frame W : frame W (not_full_labeled m d).
Proof. frame_tac. Qed.

Lemma select_augmentation_frame W : frame W (select_augmentation m d).
Proof. frame_tac. Qed.

Lemma apply_augmentation_frame W p ori sem :
  frame W (apply_augmentation L p ori sem).
Proof. frame_tac. Qed.

Lemma store_image_frame img sem :
  frame (fun l k => l = d /\ In k ["image"; "sem_seg"]) (store_image d img sem).
Proof. frame_tac. Qed.

Lemma proposals_step_frame shape tr :
  frame (fun l k => l = d /\ In k ["proposal_boxes"; "proposal_bbox_mode";
                                   "proposal_objectness_logits"; "proposals"])
        (proposals_step m L d shape tr).
Proof. frame_tac. Qed.

Lemma process_annotations_frame tr shape :
  frame (fun l k => (l = d /\ In k ["annotations"; "instances"]) \/ In k anno_keys)
        (process_annotations m L d tr shape).
Proof. unfold process_annotations; frame_tac. Qed.

Lemma attach_ann_type_frame :
  frame (fun l k => l = d /\ In k ["pos_category_ids"; "ann_type"])
        (attach_ann_type m d).
Proof. frame_tac. Qed.

Lemma debug_pos_frame :
  frame (fun l k => l = d /\ k = "pos_category_ids") (debug_pos_category_ids m d).
Proof. frame_tac. Qed.

Lemma load_image_quiet : quiet (load_image m L d).
Proof. quiet_tac. Qed.

Lemma read_sem_seg_quiet : quiet (read_sem_seg L d).
Proof. quiet_tac. Qed.

Lemma force_debug_source_quiet : quiet (force_debug_source m d).
Proof. quiet_tac. Qed.

Lemma not_full_labeled_quiet : quiet (not_full_labeled m d).
Proof. quiet_tac. Qed.

Lemma select_augmentation_quiet : quiet (select_augmentation m d).
Proof. quiet_tac. Qed.

Lemma store_image_quiet img sem : quiet (store_image d img sem).
Proof. quiet_tac. Qed.

Lemma proposals_step_quiet shape tr : quiet (proposals_step m L d shape tr).
Proof. quiet_tac. Qed.

Lemma attach_ann_type_quiet : quiet (attach_ann_type m d).
Proof. quiet_tac. Qed.

Lemma debug_pos_quiet : quiet (debug_pos_category_ids m d).
Proof. quiet_tac. Qed.

Lemma apply_augmentation_trace p ori sem s :
  trace (snd (apply_augmentation L p ori sem s)) = app (trace s) [EvAugment p].
Proof. reflexivity. Qed.

Lemma process_annotations_logs tr shape :
  logs not_augment (process_annotations m L d tr shape).
Proof.
  unfold process_annotations.
  repeat match goal with
  | |- logs _ (bind _ _) => apply logs_bind; intros
  | |- logs _ (log _) => apply logs_log; exact I
  | |- logs _ (mapM _ _) => apply logs_mapM; intros
  | |- logs _ (transform_instance_annotations _ _ _ _ _) =>
      unfold transform_instance_annotations
  | |- logs _ (remap_annotation _ _ _ _ _) => unfold remap_annotation
  | |- logs _ _ => apply quiet_logs; quiet_tac
  end.
Qed.

Lemma finish_logs tr img sem : logs not_augment (finish m L d tr img sem).
Proof.
  unfold finish.
  repeat match goal with
  | |- logs _ (bind _ _) => apply logs_bind; intros
  | |- logs _ (if ?b then _ else _) => destruct b
  | |- logs _ (process_annotations _ _ _ _ _) => apply process_annotations_logs
  | |- logs _ _ => apply quiet_logs; quiet_tac
  end.
Qed.

End Footprints.

(** ** Running a computation *)

Lemma bind_inv {A B} (c : M A) (k : A -> M B) s r s'' :
  bind c k s = (r, s'') ->
  (exists e, c s = (Err e, s'') /\ r = Err e) \/
  (exists a s', c s = (Ok a, s') /\ k a s' = (r, s'')).
Proof.
  unfold bind. destruct (c s) as [[a|e] s']; intros H.
  - right. exists a, s'. split; [reflexivity|exact H].
  - left. inversion H; subst. exists e. split; reflexivity.
Qed.

Lemma run_frame {A} W (c : M A) s r s' l k :
  frame W c -> c s = (r, s') -> ~ W l k -> lookup s' l k = lookup s l k.
Proof.
  intros Hf Hc Hn. specialize (Hf s l k Hn). rewrite Hc in Hf. exact Hf.
Qed.

Lemma run_quiet {A} (c : M A) s r s' :
  quiet c -> c s = (r, s') -> trace s' = trace s.
Proof. intros Hq Hc. specialize (Hq s). rewrite Hc in Hq. exact Hq. Qed.

Lemma run_logs {A} P (c : M A) s r s' :
  logs P c -> c s = (r, s') ->
  exists evs, trace s' = app (trace s) evs /\ Forall P evs.
Proof. intros Hl Hc. specialize (Hl s). rewrite Hc in Hl. exact Hl. Qed.

Lemma bind_deepcopy {B} r (k : loc -> M B) s :
  bind (deepcopy r) k s = k (r + next s)%nat (copied s).
Proof. reflexivity. Qed.

Lemma heap_copied s l :
  heap (copied s) (l + next s)%nat = option_map (shift_dict (next s)) (heap s l).
Proof.
  unfold copied, copy_heap; simpl.
  destruct (Nat.ltb_spec (l + next s) (next s)); [lia|].
  replace (l + next s - next s)%nat with l by lia. reflexivity.
Qed.

Lemma lookup_copied s r k :
  lookup (copied s) (r + next s)%nat k =
  option_map (shift_value (next s)) (lookup s r k).
Proof.
  unfold lookup. rewrite heap_copied.
  destruct (heap s r); simpl; [apply dict_get_shift|reflexivity].
Qed.

Lemma py_index_shift {A} (xs : list A) o v :
  py_index xs (shift_value o v) = py_index xs v.
Proof. destruct v; reflexivity. Qed.

Lemma select_augmentation_run m d s p s' :
  select_augmentation m d s = (Ok p, s') ->
  s' = s /\
  if use_diff_bs_size m && is_train m then
    exists augs v, dataset_augs m = Some augs /\
      lookup s d "dataset_source" = Some v /\ py_index augs v = Ok p
  else p = augmentations m.
Proof.
  unfold select_augmentation. intros H.
  destruct (use_diff_bs_size m && is_train m).
  - unfold getitem, load, lift, throw, ret in H; unfold bind in H; unfold lookup.
    destruct (dataset_augs m) as [augs|]; simpl in H; [|discriminate].
    destruct (heap s d) as [dd|]; simpl in H; [|discriminate].
    destruct (dict_get dd "dataset_source") as [v|]; simpl in H; [|discriminate].
    destruct (py_index augs v) eqn:E; inversion H; subst.
    split; [reflexivity|]. exists augs, v. auto.
  - inversion H; subst. auto.
Qed.

Lemma force_debug_source_run m d s s' u :
  force_debug_source m d s = (Ok u, s') -> is_debug m = true ->
  lookup s' d "dataset_source" = Some (VInt 0).
Proof.
  unfold force_debug_source. intros H Hd. rewrite Hd in H.
  unfold setitem, bind, load in H.
  destruct (heap s d) as [dd|] eqn:E; [|discriminate].
  inversion H; subst. unfold lookup, store, upd_heap; simpl.
  rewrite Nat.eqb_refl. apply dict_get_set_eq.
Qed.

Lemma bind_apply_augmentation {B} L p ori sem (k : _ -> M B) s :
  bind (apply_augmentation L p ori sem) k s =
  k (augment L p ori sem) (mkState (heap s) (next s) (app (trace s) [EvAugment p])).
Proof. reflexivity. Qed.

Lemma force_debug_source_off m d s r s' :
  is_debug m = false -> force_debug_source m d s = (r, s') -> s' = s.
Proof. unfold force_debug_source; intros -> H; inversion H; reflexivity. Qed.

(** The working record of [__call__] just before the pipeline is selected:
    its ["dataset_source"] is the input's, or 0 under [is_debug]. *)
Lemma dataset_source_at_selection m L r s ori s2 sem s3 u s4 b s5 :
  let d := (r + next s)%nat in
  load_image m L d (copied s) = (Ok ori, s2) ->
  read_sem_seg L d s2 = (Ok sem, s3) ->
  force_debug_source m d s3 = (Ok u, s4) ->
  not_full_labeled m d s4 = (Ok b, s5) ->
  lookup s5 d "dataset_source" =
  if is_debug m then Some (VInt 0)
  else option_map (shift_value (next s)) (lookup s r "dataset_source").
Proof.
  intros d H1 H2 H3 H4.
  rewrite (run_frame (fun _ _ => False) _ _ _ _ _ _
             (not_full_labeled_frame m d _) H4) by tauto.
  destruct (is_debug m) eqn:Hd.
  - eapply force_debug_source_run; eassumption.
  - rewrite (force_debug_source_off m d s3 _ _ Hd H3).
    rewrite (run_frame _ _ _ _ _ _ _ (read_sem_seg_frame L d) H2)
      by (intros [_ E]; discriminate E).
    rewrite (run_frame _ _ _ _ _ _ _ (load_image_frame m L d) H1)
      by (intros [_ E]; simpl in E; intuition discriminate).
    apply lookup_copied.
Qed.

Ltac trace_chain :=
  repeat match goal with
  | H : ?c ?s = (_, ?s') |- context [trace ?s'] =>
      rewrite (run_quiet c s _ s' ltac:(solve [quiet_tac]) H)
  end.

Ltac quiet_err :=
  exists []; split; [rewrite app_nil_r; trace_chain; reflexivity|intros ? []].

(** ** The working copy never reaches the caller's objects *)

Lemma refs_ge_shift o : forall v, refs_ge o (shift_value o v).
Proof.
  fix IH 1. intros v; destruct v as [| | | vs | l | | | | | | | ]; simpl; auto.
  - induction vs as [|v vs IHvs]; simpl; [exact I|split; [apply IH|exact IHvs]].
  - lia.
Qed.

Lemma refs_ge_list n vs : refs_ge n (VList vs) -> forall x, In x vs -> refs_ge n x.
Proof.
  simpl. induction vs as [|v vs IH]; simpl; [tauto|].
  intros [Hv Hvs] x [<-|Hx]; [exact Hv|exact (IH Hvs x Hx)].
Qed.

Lemma refs_ge_map_VInt n zs : refs_ge n (VList (map VInt zs)).
Proof. simpl. induction zs as [|z zs IH]; simpl; auto. Qed.

Lemma dict_refs_ge_shift o d : dict_refs_ge o (shift_dict o d).
Proof.
  intros k v Hin. unfold shift_dict in Hin. apply in_map_iff in Hin.
  destruct Hin as ([k' v'] & E & _). inversion E; subst. apply refs_ge_shift.
Qed.

Lemma dict_get_In d k v : dict_get d k = Some v -> In (k, v) d.
Proof.
  induction d as [|[k0 v0] d IH]; simpl; [discriminate|].
  destruct (String.eqb k k0) eqn:E; intros H.
  - apply String.eqb_eq in E; inversion H; subst. left; reflexivity.
  - right; apply IH, H.
Qed.

Lemma dict_upd_In d k v d' k' v' :
  dict_upd d k v = Some d' -> In (k', v') d' -> In (k', v') d \/ v' = v.
Proof.
  revert d'; induction d as [|[k0 v0] d IH]; intros d' H Hin; simpl in H.
  - discriminate.
  - destruct (String.eqb k k0).
    + inversion H; subst. destruct Hin as [E|Hin].
      * inversion E; subst. right; reflexivity.
      * left; right; exact Hin.
    + destruct (dict_upd d k v) as [d0|] eqn:E0; simpl in H; inversion H; subst.
      destruct Hin as [E|Hin]; [left; left; exact E|].
      destruct (IH d0 eq_refl Hin); [left; right|right]; assumption.
Qed.

Lemma dict_refs_ge_set n d k v :
  dict_refs_ge n d -> refs_ge n v -> dict_refs_ge n (dict_set d k v).
Proof.
  intros Hd Hv k' v' Hin. unfold dict_set in Hin.
  destruct (dict_upd d k v) eqn:E.
  - destruct (dict_upd_In _ _ _ _ _ _ E Hin) as [H| ->]; [exact (Hd _ _ H)|exact Hv].
  - apply in_app_iff in Hin. destruct Hin as [H|[H|[]]]; [exact (Hd _ _ H)|].
    inversion H; subst; exact Hv.
Qed.

Lemma dict_refs_ge_del n d k : dict_refs_ge n d -> dict_refs_ge n (dict_del d k).
Proof.
  intros Hd k' v' Hin. unfold dict_del in Hin. apply filter_In in Hin.
  exact (Hd _ _ (proj1 Hin)).
Qed.

Lemma dict_refs_ge_get n d k v : dict_refs_ge n d -> dict_get d k = Some v -> refs_ge n v.
Proof. intros Hd H. exact (Hd _ _ (dict_get_In _ _ _ H)). Qed.

Lemma transform_annotation_dict_refs n L tr shape hf a a' :
  dict_refs_ge n a -> transform_annotation_dict L tr shape hf a = Ok a' ->
  dict_refs_ge n a'.
Proof.
  unfold transform_annotation_dict. intros Ha H.
  destruct (dict_get a "bbox"), (dict_get a "bbox_mode"); try discriminate.
  inversion H; subst; clear H.
  repeat match goal with
         | |- context [match ?x with Some _ => _ | None => _ end] => destruct x
         end;
  repeat apply dict_refs_ge_set; simpl; auto.
Qed.

Section Untouched.
Variable n0 : nat.
Variable s0 : state.

Local Abbreviation untouched := (untouched n0 s0).
Local Abbreviation inv := (@inv _ n0 s0).

Lemma inv_bind {A B} (c : M A) (k : A -> M B) Q R :
  inv c Q -> (forall a, Q a -> inv (k a) R) -> inv (bind c k) R.
Proof.
  intros Hc Hk s Hs. unfold bind. destruct (Hc s Hs) as [H1 H2].
  destruct (c s) as [[a|e] s']; simpl in *.
  - apply Hk; [apply H2; reflexivity|exact H1].
  - split; [exact H1|discriminate].
Qed.

Lemma inv_ret {A} (a : A) (Q : A -> Prop) : Q a -> inv (ret a) Q.
Proof. intros Hq s Hs; split; [exact Hs|intros a' E; inversion E; subst; exact Hq]. Qed.

Lemma inv_throw {A} e (Q : A -> Prop) : inv (throw e) Q.
Proof. intros s Hs; split; [exact Hs|discriminate]. Qed.

Lemma inv_lift {A} (r : result A) : inv (lift r) (fun _ => True).
Proof. destruct r; [apply inv_ret; exact I|apply inv_throw]. Qed.

Lemma inv_log e : inv (log e) (fun _ => True).
Proof. intros s Hs; split; [exact Hs|auto]. Qed.

Lemma inv_load l : (n0 <= l)%nat -> inv (load l) (dict_refs_ge n0).
Proof.
  intros Hl s Hs. unfold load. destruct (heap s l) as [d|] eqn:E; simpl.
  - split; [exact Hs|intros a H; inversion H; subst; exact (proj2 Hs l a Hl E)].
  - split; [exact Hs|discriminate].
Qed.

Lemma inv_store l d :
  (n0 <= l)%nat -> dict_refs_ge n0 d -> inv (store l d) (fun _ => True).
Proof.
  intros Hl Hd s [Hlo Hhi]. split; [|auto]. unfold store, upd_heap; simpl. split.
  - intros l' Hl'. cbn. destruct (Nat.eqb_spec l' l); [lia|]. apply Hlo, Hl'.
  - intros l' d' Hl' E. cbn in E. destruct (Nat.eqb l' l).
    + inversion E; subst; exact Hd.
    + exact (Hhi l' d' Hl' E).
Qed.

Ltac inv_prim :=
  repeat match goal with
  | |- inv (bind (load _) _) _ =>
      eapply inv_bind; [apply inv_load; assumption|intros ? ?]
  | |- inv (bind _ _) _ => apply (inv_bind _ _ (fun _ => True)); [|intros ? _]
  | |- inv (store _ _) _ => apply inv_store; [assumption|]
  | |- inv (ret _) _ => apply inv_ret
  | |- inv (throw _) _ => apply inv_throw
  | |- inv (match ?x with _ => _ end) _ => destruct x eqn:?
  end.

Lemma inv_getitem l k : (n0 <= l)%nat -> inv (getitem l k) (refs_ge n0).
Proof. intros Hl; unfold getitem; inv_prim; eapply dict_refs_ge_get; eassumption. Qed.

Lemma inv_get_default l k v :
  (n0 <= l)%nat -> refs_ge n0 v -> inv (get_default l k v) (refs_ge n0).
Proof.
  intros Hl Hv; unfold get_default; inv_prim; [eapply dict_refs_ge_get|]; eassumption.
Qed.

Lemma inv_contains l k : (n0 <= l)%nat -> inv (contains l k) (fun _ => True).
Proof. intros Hl; unfold contains; inv_prim; exact I. Qed.

Lemma inv_setitem l k v :
  (n0 <= l)%nat -> refs_ge n0 v -> inv (setitem l k v) (fun _ => True).
Proof.
  intros Hl Hv; unfold setitem; inv_prim. apply dict_refs_ge_set; assumption.
Qed.

Lemma inv_pop l k : (n0 <= l)%nat -> inv (pop l k) (refs_ge n0).
Proof.
  intros Hl; unfold pop; inv_prim;
    [apply dict_refs_ge_del; assumption|eapply dict_refs_ge_get; eassumption].
Qed.

Lemma inv_pop_default l k v :
  (n0 <= l)%nat -> refs_ge n0 v -> inv (pop_default l k v) (refs_ge n0).
Proof.
  intros Hl Hv; unfold pop_default; inv_prim;
    [apply dict_refs_ge_del; assumption|eapply dict_refs_ge_get; eassumption|assumption].
Qed.

Lemma inv_as_ref e v : refs_ge n0 v -> inv (as_ref e v) (fun l => (n0 <= l)%nat).
Proof. intros Hv; destruct v; simpl; try apply inv_throw. apply inv_ret, Hv. Qed.

Lemma inv_as_str v : inv (as_str v) (fun _ => True).
Proof. destruct v; simpl; try apply inv_throw. apply inv_ret; exact I. Qed.

Lemma inv_as_list v :
  refs_ge n0 v -> inv (as_list v) (fun vs => forall x, In x vs -> refs_ge n0 x).
Proof.
  intros Hv; destruct v; simpl; try apply inv_throw.
  apply inv_ret, refs_ge_list, Hv.
Qed.

Lemma inv_transform L l tr shape hf :
  (n0 <= l)%nat -> inv (transform_instance_annotations L l tr shape hf) (fun _ => True).
Proof.
  intros Hl; unfold transform_instance_annotations.
  apply (inv_bind _ _ (fun _ => True)); [apply inv_log|intros _ _].
  eapply inv_bind; [apply inv_load; assumption|intros a Ha].
  destruct (transform_annotation_dict L tr shape hf a) as [a'|e] eqn:E; simpl.
  - apply (inv_bind _ _ (fun x => x = a')); [apply inv_ret; reflexivity|intros ? ->].
    apply inv_store; [assumption|]. eapply transform_annotation_dict_refs; eassumption.
  - apply inv_throw.
Qed.

Lemma inv_mapM {A B} (f : A -> M B) (P : A -> Prop) (Q : B -> Prop) xs :
  (forall x, In x xs -> P x) -> (forall x, P x -> inv (f x) Q) ->
  inv (mapM f xs) (fun ys => forall y, In y ys -> Q y).
Proof.
  intros Hxs Hf; induction xs as [|x xs IH]; simpl.
  - apply inv_ret. intros y [].
  - eapply inv_bind; [apply Hf, Hxs; left; reflexivity|intros y Hy].
    eapply inv_bind; [apply IH; intros; apply Hxs; right; assumption|intros ys Hys].
    apply inv_ret. intros y' [<-|H]; [exact Hy|exact (Hys _ H)].
Qed.

Lemma inv_mapM_ {A} (f : A -> M unit) (P : A -> Prop) xs :
  (forall x, In x xs -> P x) -> (forall x, P x -> inv (f x) (fun _ => True)) ->
  inv (mapM_ f xs) (fun _ => True).
Proof.
  intros Hxs Hf; induction xs as [|x xs IH]; simpl.
  - apply inv_ret; exact I.
  - apply (inv_bind _ _ (fun _ => True)); [apply Hf, Hxs; left; reflexivity|intros _ _].
    apply IH. intros; apply Hxs; right; assumption.
Qed.

Lemma kept_locs_ge (all : list (loc * value)) :
  (forall y, In y all -> (n0 <= fst y)%nat) ->
  forall x, In x (map fst (filter (fun a => is_zero (snd a)) all)) -> (n0 <= x)%nat.
Proof.
  intros H x Hx. apply in_map_iff in Hx. destruct Hx as (y & <- & Hy).
  apply filter_In in Hy. exact (H _ (proj1 Hy)).
Qed.

Ltac inv_val :=
  first [exact I | assumption | apply refs_ge_map_VInt | simpl; auto].

Ltac inv_next := intros ? ?; cbv beta zeta.

Ltac inv_tac :=
  repeat match goal with
  | |- inv (bind (getitem _ _) _) _ =>
      eapply inv_bind; [apply inv_getitem; assumption|inv_next]
  | |- inv (bind (get_default _ _ _) _) _ =>
      eapply inv_bind; [apply inv_get_default; [assumption|inv_val]|inv_next]
  | |- inv (bind (pop _ _) _) _ =>
      eapply inv_bind; [apply inv_pop; assumption|inv_next]
  | |- inv (bind (pop_default _ _ _) _) _ =>
      eapply inv_bind; [apply inv_pop_default; [assumption|inv_val]|inv_next]
  | |- inv (bind (as_ref _ _) _) _ =>
      eapply inv_bind; [apply inv_as_ref; assumption|inv_next]
  | |- inv (bind (as_list _) _) _ =>
      eapply inv_bind; [apply inv_as_list; assumption|inv_next]
  | |- inv (bind (load _) _) _ =>
      eapply inv_bind; [apply inv_load; assumption|inv_next]
  | |- inv (bind (mapM_ _ _) _) _ =>
      apply (inv_bind _ _ (fun _ => True));
      [apply (inv_mapM_ _ (refs_ge n0)); [assumption|intros ? ?; inv_tac]|inv_next]
  | |- inv (bind (mapM (remap_annotation _ _ _ _) _) _) _ =>
      eapply inv_bind;
      [apply (inv_mapM _ (refs_ge n0) (fun p => (n0 <= fst p)%nat));
       [assumption|intros ? ?; unfold remap_annotation; inv_tac]|inv_next]
  | |- inv (bind (mapM load _) _) _ =>
      eapply inv_bind;
      [apply (inv_mapM _ (fun l => (n0 <= l)%nat) (dict_refs_ge n0));
       [apply kept_locs_ge; assumption|intros ? ?; apply inv_load; assumption]
      |inv_next]
  | |- inv (bind (transform_instance_annotations _ _ _ _ _) _) _ =>
      apply (inv_bind _ _ (fun _ => True)); [apply inv_transform; assumption|inv_next]
  | |- inv (bind (contains _ _) _) _ =>
      apply (inv_bind _ _ (fun _ => True)); [apply inv_contains; assumption|inv_next]
  | |- inv (bind (setitem _ _ _) _) _ =>
      apply (inv_bind _ _ (fun _ => True)); [apply inv_setitem; [assumption|inv_val]|inv_next]
  | |- inv (bind (log _) _) _ =>
      apply (inv_bind _ _ (fun _ => True)); [apply inv_log|inv_next]
  | |- inv (bind (lift _) _) _ =>
      apply (inv_bind _ _ (fun _ => True)); [apply inv_lift|inv_next]
  | |- inv (bind (as_str _) _) _ =>
      apply (inv_bind _ _ (fun _ => True)); [apply inv_as_str|inv_next]
  | |- inv (bind (ret _) _) _ =>
      apply (inv_bind _ _ (fun _ => True)); [apply inv_ret; exact I|inv_next]
  | |- inv (bind (throw _) _) _ =>
      apply (inv_bind _ _ (fun _ => True)); [apply inv_throw|inv_next]
  | |- inv (bind (match ?x with _ => _ end) _) _ => destruct x eqn:?
  | |- inv (match ?x with _ => _ end) _ => destruct x eqn:?
  | |- inv (bind (bind _ _) _) _ =>
      apply (inv_bind _ _ (fun _ => True)); [|inv_next]
  | |- inv (setitem _ _ _) _ => apply inv_setitem; [assumption|inv_val]
  | |- inv (pop_default _ _ _) _ => apply (inv_pop_default _ _ _ _); [assumption|inv_val]
  | |- inv (contains _ _) _ => apply inv_contains; assumption
  | |- inv (ret _) _ => apply inv_ret; first [exact I|reflexivity|simpl; assumption]
  | |- inv (throw _) _ => apply inv_throw
  | |- inv (lift _) _ => apply inv_lift
  | |- inv (log _) _ => apply inv_log
  end.

Section Phases.
Variable m : mapper.
Variable L : lib.
Variable d : loc.
Hypothesis Hd : (n0 <= d)%nat.

Lemma inv_finish tr img sem' : inv (finish m L d tr img sem') (fun x => x = d).
Proof.
  unfold finish, store_image, proposals_step, transform_proposals,
    process_annotations, attach_ann_type, debug_pos_category_ids, strip_annotation.
  inv_tac.
Qed.

Lemma inv_call_body :
  inv (ori <- load_image m L d ;;
       sem <- read_sem_seg L d ;;
       force_debug_source m d ;;;
       not_full_labeled m d ;;;
       p <- select_augmentation m d ;;
       '(tr, img, sem') <- apply_augmentation L p ori sem ;;
       finish m L d tr img sem') (fun x => x = d).
Proof.
  unfold load_image, check_image_size, read_sem_seg, force_debug_source,
    not_full_labeled, select_augmentation, apply_augmentation.
  inv_tac; apply inv_finish.
Qed.

End Phases.

End Untouched.

Lemma untouched_copied s : untouched (next s) s (copied s).
Proof.
  split.
  - intros l Hl. unfold copied, copy_heap; simpl.
    destruct (Nat.ltb_spec l (next s)); [reflexivity|lia].
  - intros l d Hl. unfold copied, copy_heap; simpl.
    destruct (Nat.ltb_spec l (next s)); [lia|].
    destruct (heap s (l - next s)%nat); simpl; [|discriminate].
    intros E; inversion E; subst. apply dict_refs_ge_shift.
Qed.

Lemma call_untouched m L r s :
  untouched (next s) s (snd (call m L r s)) /\
  (forall out, fst (call m L r s) = Ok out -> out = (r + next s)%nat).
Proof.
  unfold call. rewrite bind_deepcopy.
  apply inv_call_body; [lia|apply untouched_copied].
Qed.

(** ** Successful runs of the primitives *)

Lemma bind_ok {A B} (c : M A) (k : A -> M B) s b s'' :
  bind c k s = (Ok b, s'') -> exists a s', c s = (Ok a, s') /\ k a s' = (Ok b, s'').
Proof.
  intros H. destruct (bind_inv _ _ _ _ _ H) as [(e & _ & He)|H']; [discriminate|exact H'].
Qed.

Ltac ok_step H :=
  let H1 := fresh "R" in let H2 := fresh "K" in
  let a := fresh "a" in let s := fresh "s" in
  destruct (bind_ok _ _ _ _ _ H) as (a & s & H1 & H2); clear H.

Lemma getitem_run l k s v s' :
  getitem l k s = (Ok v, s') -> s' = s /\ lookup s l k = Some v.
Proof.
  unfold getitem, bind, load, lookup. destruct (heap s l); [|discriminate].
  destruct (dict_get d k); intros H; inversion H; subst; auto.
Qed.

Lemma contains_run l k s b s' :
  contains l k s = (Ok b, s') ->
  s' = s /\ b = match lookup s l k with Some _ => true | None => false end.
Proof.
  unfold contains, bind, load, lookup, ret, has_key. destruct (heap s l); [|discriminate].
  intros H; inversion H; subst; auto.
Qed.

Lemma get_default_run l k dflt s v s' :
  get_default l k dflt s = (Ok v, s') ->
  s' = s /\ v = match lookup s l k with Some v => v | None => dflt end.
Proof.
  unfold get_default, bind, load, lookup. destruct (heap s l); [|discriminate].
  destruct (dict_get d k); intros H; inversion H; subst; auto.
Qed.

Lemma as_list_run v s vs s' : as_list v s = (Ok vs, s') -> s' = s /\ v = VList vs.
Proof. destruct v; simpl; intros H; inversion H; subst; auto. Qed.

Lemma as_ref_run e v s l s' : as_ref e v s = (Ok l, s') -> s' = s /\ v = VRef l.
Proof. destruct v; simpl; intros H; inversion H; subst; auto. Qed.

Lemma lift_run {A} (x : result A) s a s' : lift x s = (Ok a, s') -> s' = s /\ x = Ok a.
Proof. destruct x; simpl; intros H; inversion H; subst; auto. Qed.

Lemma ret_run {A} (x : A) s a s' : ret x s = (Ok a, s') -> s' = s /\ a = x.
Proof. intros H; inversion H; subst; auto. Qed.

Lemma setitem_run l k v s u s' :
  setitem l k v s = (Ok u, s') ->
  lookup s' l k = Some v /\ trace s' = trace s /\
  (forall l' k', (l' <> l \/ k' <> k) -> lookup s' l' k' = lookup s l' k').
Proof.
  intros H. split; [|split].
  - revert H; unfold setitem, bind, load. destruct (heap s l) as [d|]; [|discriminate].
    intros H; inversion H; subst. unfold lookup, store, upd_heap; simpl.
    rewrite Nat.eqb_refl. apply dict_get_set_eq.
  - eapply run_quiet; [|exact H]; quiet_tac.
  - intros l' k' Hn. apply (run_frame (fun l0 k0 => l0 = l /\ k0 = k) _ _ _ _ _ _
      (frame_setitem _ l k v (conj eq_refl eq_refl)) H). tauto.
Qed.

Lemma pop_default_run l k dflt s v s' :
  pop_default l k dflt s = (Ok v, s') ->
  lookup s' l k = None /\ trace s' = trace s /\
  v = match lookup s l k with Some v => v | None => dflt end /\
  (forall l' k', (l' <> l \/ k' <> k) -> lookup s' l' k' = lookup s l' k').
Proof.
  intros H. split; [|split; [|split]].
  - revert H; unfold pop_default, bind, load, lookup.
    destruct (heap s l) as [d|] eqn:E; [|discriminate].
    destruct (dict_get d k) eqn:E2; intros H; inversion H; subst.
    + unfold store, upd_heap; simpl. rewrite Nat.eqb_refl. apply dict_get_del_eq.
    + rewrite E. exact E2.
  - eapply run_quiet; [|exact H]; quiet_tac.
  - revert H; unfold pop_default, bind, load, lookup.
    destruct (heap s l) as [d|] eqn:E; [|discriminate].
    destruct (dict_get d k) eqn:E2; intros H; inversion H; subst; reflexivity.
  - intros l' k' Hn. apply (run_frame (fun l0 k0 => l0 = l /\ k0 = k) _ _ _ _ _ _
      (frame_pop_default _ l k dflt (conj eq_refl eq_refl)) H). tauto.
Qed.

Lemma pop_run l k s v s' :
  pop l k s = (Ok v, s') ->
  lookup s l k = Some v /\ trace s' = trace s /\
  (forall l' k', (l' <> l \/ k' <> k) -> lookup s' l' k' = lookup s l' k').
Proof.
  intros H. split; [|split].
  - revert H; unfold pop, bind, load, lookup.
    destruct (heap s l) as [d|] eqn:E; [|discriminate].
    destruct (dict_get d k) eqn:E2; intros H; inversion H; subst; reflexivity.
  - eapply run_quiet; [|exact H]; quiet_tac.
  - intros l' k' Hn. apply (run_frame (fun l0 k0 => l0 = l /\ k0 = k) _ _ _ _ _ _
      (frame_pop _ l k (conj eq_refl eq_refl)) H). tauto.
Qed.

Lemma pure_bind {A B} (c : M A) (k : A -> M B) :
  pure c -> (forall a, pure (k a)) -> pure (bind c k).
Proof.
  intros Hc Hk s. unfold bind. specialize (Hc s).
  destruct (c s) as [[a|e] s']; simpl in *; [rewrite Hk|]; exact Hc.
Qed.

Ltac pure_tac :=
  repeat match goal with
  | |- pure (bind _ _) => apply pure_bind; intros
  | |- pure (if ?b then _ else _) => destruct b
  | |- pure (match ?x with _ => _ end) => destruct x
  | |- pure _ => progress unfold getitem, contains, lift
  | |- pure (load _) => let s := fresh in intros s; unfold load; destruct (heap s _); reflexivity
  | |- pure _ => let s := fresh in intros s; reflexivity
  end.

Lemma not_full_labeled_state m d s b s' :
  not_full_labeled m d s = (b, s') -> s' = s.
Proof.
  intros H. assert (P : pure (not_full_labeled m d)) by (unfold not_full_labeled; pure_tac).
  specialize (P s). rewrite H in P. exact P.
Qed.

(** ** A successful call, phase by phase *)

Lemma call_ok m L r s out s' :
  call m L r s = (Ok out, s') ->
  exists ori s2 sem s3 s4 p tr img sem',
    load_image m L (r + next s)%nat (copied s) = (Ok ori, s2) /\
    read_sem_seg L (r + next s)%nat s2 = (Ok sem, s3) /\
    force_debug_source m (r + next s)%nat s3 = (Ok tt, s4) /\
    select_augmentation m (r + next s)%nat s4 = (Ok p, s4) /\
    augment L p ori sem = (tr, img, sem') /\
    finish m L (r + next s)%nat tr img sem'
      (mkState (heap s4) (next s4) (app (trace s4) [EvAugment p])) = (Ok out, s').
Proof.
  unfold call. rewrite bind_deepcopy. intros H.
  destruct (bind_ok _ _ _ _ _ H) as (ori & s2 & H1 & H2); clear H.
  destruct (bind_ok _ _ _ _ _ H2) as (sem & s3 & H3 & H4); clear H2.
  destruct (bind_ok _ _ _ _ _ H4) as ([] & s4 & H5 & H6); clear H4.
  destruct (bind_ok _ _ _ _ _ H6) as (b & s5 & H7 & H8); clear H6.
  rewrite (not_full_labeled_state _ _ _ _ _ H7) in H8.
  destruct (bind_ok _ _ _ _ _ H8) as (p & s6 & H9 & H10); clear H8.
  destruct (select_augmentation_run _ _ _ _ _ H9) as [-> _].
  rewrite bind_apply_augmentation in H10.
  destruct (augment L p ori sem) as [[tr img] sem'] eqn:Ea.
  exists ori, s2, sem, s3, s4, p, tr, img, sem'. auto 7.
Qed.

Lemma finish_train m L d tr img sem' s out s' :
  is_train m = true -> finish m L d tr img sem' s = (Ok out, s') ->
  out = d /\ exists s6 s7 b s8 s9,
    store_image d img sem' s = (Ok tt, s6) /\
    proposals_step m L d (img_h img, img_w img) tr s6 = (Ok tt, s7) /\
    contains d "annotations" s7 = (Ok b, s7) /\
    (if b then process_annotations m L d tr (img_h img, img_w img) else ret tt) s7
      = (Ok tt, s8) /\
    attach_ann_type m d s8 = (Ok tt, s9) /\
    debug_pos_category_ids m d s9 = (Ok tt, s').
Proof.
  unfold finish. intros Ht H. rewrite Ht in H. simpl in H.
  destruct (bind_ok _ _ _ _ _ H) as ([] & s6 & H1 & H2); clear H.
  destruct (bind_ok _ _ _ _ _ H2) as ([] & s7 & H3 & H4); clear H2.
  destruct (bind_ok _ _ _ _ _ H4) as (b & s7' & H5 & H6); clear H4.
  destruct (contains_run _ _ _ _ _ H5) as [-> _].
  destruct (bind_ok _ _ _ _ _ H6) as ([] & s8 & H7 & H8); clear H6.
  destruct (bind_ok _ _ _ _ _ H8) as ([] & s9 & H9 & H10); clear H8.
  destruct (bind_ok _ _ _ _ _ H10) as ([] & s10 & H11 & H12); clear H10.
  inversion H12; subst.
  split; [reflexivity|]. exists s6, s7, b, s8, s9. auto 7.
Qed.

Lemma finish_infer m L d tr img sem' s out s' :
  is_train m = false -> finish m L d tr img sem' s = (Ok out, s') ->
  out = d /\ exists s6 s7 s8 v1 v2,
    store_image d img sem' s = (Ok tt, s6) /\
    proposals_step m L d (img_h img, img_w img) tr s6 = (Ok tt, s7) /\
    pop_default d "annotations" VNone s7 = (Ok v1, s8) /\
    pop_default d "sem_seg_file_name" VNone s8 = (Ok v2, s').
Proof.
  unfold finish. intros Ht H. rewrite Ht in H. simpl in H.
  destruct (bind_ok _ _ _ _ _ H) as ([] & s6 & H1 & H2); clear H.
  destruct (bind_ok _ _ _ _ _ H2) as ([] & s7 & H3 & H4); clear H2.
  destruct (bind_ok _ _ _ _ _ H4) as (v1 & s8 & H5 & H6); clear H4.
  destruct (bind_ok _ _ _ _ _ H6) as (v2 & s9 & H7 & H8); clear H6.
  inversion H8; subst.
  split; [reflexivity|]. exists s6, s7, s8, v1, v2. auto 7.
Qed.

Ltac notW :=
  let Hc := fresh in
  intro Hc; unfold anno_keys, pre_keys in *; simpl in *;
  intuition (first [discriminate | lia | congruence | subst; simpl in *; tauto]).

Ltac frame_at H F := rewrite (run_frame _ _ _ _ _ _ _ F H) by notW.

(** Up to the test for ["annotations"] in training mode. *)
Lemma call_train_ok m L r s out s' :
  is_train m = true -> call m L r s = (Ok out, s') ->
  out = (r + next s)%nat /\ exists p tr img s7 b s8 s9,
    trace s7 = app (trace s) [EvAugment p] /\
    (forall l k, ~ In k pre_keys -> lookup s7 l k = lookup (copied s) l k) /\
    lookup s7 (r + next s)%nat "dataset_source" =
      (if is_debug m then Some (VInt 0)
       else option_map (shift_value (next s)) (lookup s r "dataset_source")) /\
    contains (r + next s)%nat "annotations" s7 = (Ok b, s7) /\
    (if b then process_annotations m L (r + next s)%nat tr (img_h img, img_w img)
     else ret tt) s7 = (Ok tt, s8) /\
    attach_ann_type m (r + next s)%nat s8 = (Ok tt, s9) /\
    debug_pos_category_ids m (r + next s)%nat s9 = (Ok tt, s').
Proof.
  intros Ht H. set (d := (r + next s)%nat) in *.
  destruct (call_ok _ _ _ _ _ _ H)
    as (ori & s2 & sem & s3 & s4 & p & tr & img & sem' & H1 & H3 & H5 & H9 & Ea & H10).
  fold d in H1, H3, H5, H9, H10.
  destruct (finish_train _ _ _ _ _ _ _ _ _ Ht H10)
    as (Hout & s6 & s7 & b & s8 & s9 & F1 & F2 & F3 & F4 & F5 & F6).
  split; [exact Hout|]. exists p, tr, img, s7, b, s8, s9.
  split; [|split; [|split]]; [..|auto].
  - clear H9 F3 F4 F5 F6 H10. trace_chain. simpl. trace_chain. reflexivity.
  - intros l k Hk.
    frame_at F2 (proposals_step_frame m L d (img_h img, img_w img) tr).
    frame_at F1 (store_image_frame d img sem').
    change (lookup s4 l k = lookup (copied s) l k).
    frame_at H5 (force_debug_source_frame m d).
    frame_at H3 (read_sem_seg_frame L d).
    frame_at H1 (load_image_frame m L d).
    reflexivity.
  - frame_at F2 (proposals_step_frame m L d (img_h img, img_w img) tr).
    frame_at F1 (store_image_frame d img sem').
    change (lookup s4 d "dataset_source" =
            if is_debug m then Some (VInt 0)
            else option_map (shift_value (next s)) (lookup s r "dataset_source")).
    destruct (is_debug m) eqn:Hd.
    + eapply force_debug_source_run; eassumption.
    + rewrite (force_debug_source_off m d s3 _ _ Hd H5).
      frame_at H3 (read_sem_seg_frame L d).
      frame_at H1 (load_image_frame m L d).
      apply lookup_copied.
Qed.

(** ** The annotations, one by one *)

Lemma transform_instance_annotations_trace L l tr shape hf s :
  trace (snd (transform_instance_annotations L l tr shape hf s)) =
  app (trace s) [EvRemap l].
Proof.
  unfold transform_instance_annotations, bind, log, load, lift, store, ret, throw.
  simpl. destruct (heap s l); [|reflexivity].
  destruct (transform_annotation_dict L tr shape hf d); reflexivity.
Qed.

Lemma iscrowd_of_frame s s' l :
  lookup s' l "iscrowd" = lookup s l "iscrowd" -> iscrowd_of s' l = iscrowd_of s l.
Proof. intros H. unfold iscrowd_of. rewrite H. reflexivity. Qed.

Lemma remap_annotation_run m L tr shape v s l c s' :
  remap_annotation m L tr shape v s = (Ok (l, c), s') ->
  v = VRef l /\ c = iscrowd_of s l /\ trace s' = app (trace s) [EvRemap l] /\
  (forall l' k, ~ In k anno_keys -> lookup s' l' k = lookup s l' k).
Proof.
  unfold remap_annotation. intros H.
  destruct (bind_ok _ _ _ _ _ H) as (l0 & s1 & H1 & H2); clear H.
  destruct (as_ref_run _ _ _ _ _ H1) as [-> ->].
  destruct (bind_ok _ _ _ _ _ H2) as ([] & s2 & H3 & H4); clear H2.
  destruct (bind_ok _ _ _ _ _ H4) as (c0 & s3 & H5 & H6); clear H4.
  destruct (get_default_run _ _ _ _ _ _ H5) as [-> ->].
  inversion H6; subst; clear H6.
  assert (Fr : forall l' k, ~ In k anno_keys -> lookup s' l' k = lookup s l' k).
  { intros l' k Hk.
    apply (run_frame (fun _ k => In k anno_keys) _ _ _ _ _ _
             (frame_transform _ L l tr shape (keypoint_hflip_indices m)
                (fun k H => H)) H3 Hk). }
  split; [reflexivity|]. split; [|split; [|exact Fr]].
  - apply iscrowd_of_frame, Fr. notW.
  - pose proof (transform_instance_annotations_trace L l tr shape
                  (keypoint_hflip_indices m) s) as T. rewrite H3 in T. exact T.
Qed.

Lemma remap_all_run m L tr shape vs s all s' :
  mapM (remap_annotation m L tr shape) vs s = (Ok all, s') ->
  exists ls, vs = map VRef ls /\ all = map (fun l => (l, iscrowd_of s l)) ls /\
    trace s' = app (trace s) (map EvRemap ls) /\
    (forall l k, ~ In k anno_keys -> lookup s' l k = lookup s l k).
Proof.
  revert s all; induction vs as [|v vs IH]; intros s all H; simpl in H.
  - inversion H; subst. exists []. rewrite app_nil_r. auto.
  - destruct (bind_ok _ _ _ _ _ H) as ([l c] & s1 & H1 & H2); clear H.
    destruct (bind_ok _ _ _ _ _ H2) as (ys & s2 & H3 & H4); clear H2.
    inversion H4; subst; clear H4.
    destruct (remap_annotation_run _ _ _ _ _ _ _ _ _ H1) as (-> & -> & T1 & F1).
    destruct (IH _ _ H3) as (ls & -> & -> & T2 & F2).
    exists (l :: ls). split; [reflexivity|]. split; [|split].
    + simpl. f_equal. apply map_ext. intros l'. f_equal.
      apply iscrowd_of_frame, F1. notW.
    + rewrite T2, T1, <- app_assoc. reflexivity.
    + intros l' k Hk. rewrite F2, F1 by exact Hk. reflexivity.
Qed.

Lemma load_all_run ls s ds s' :
  mapM load ls s = (Ok ds, s') -> s' = s /\ length ds = length ls.
Proof.
  revert s ds; induction ls as [|l ls IH]; intros s ds H; simpl in H.
  - inversion H; subst. auto.
  - destruct (bind_ok _ _ _ _ _ H) as (a & s1 & H1 & H2); clear H.
    destruct (bind_ok _ _ _ _ _ H2) as (ys & s2 & H3 & H4); clear H2.
    inversion H4; subst; clear H4.
    unfold load in H1. destruct (heap s l); inversion H1; subst.
    destruct (IH _ _ H3) as [-> E]. simpl. rewrite E. auto.
Qed.

Lemma map_VRef_inj ls ls' : map VRef ls = map VRef ls' -> ls = ls'.
Proof.
  revert ls'; induction ls as [|l ls IH]; intros [|l' ls'] H; simpl in H;
    inversion H; subst; [reflexivity|]. f_equal. apply IH; assumption.
Qed.

Lemma strip_all_frame m vs :
  frame (fun _ k => k = "segmentation" \/ k = "keypoints")
        (mapM_ (strip_annotation m) vs).
Proof. apply frame_mapM_; intros; frame_tac. Qed.

Lemma strip_all_quiet m vs : quiet (mapM_ (strip_annotation m) vs).
Proof. apply quiet_mapM_; intros; quiet_tac. Qed.

Lemma process_annotations_run m L d tr shape s s' ls :
  lookup s d "annotations" = Some (VList (map VRef ls)) ->
  process_annotations m L d tr shape s = (Ok tt, s') ->
  exists annos inst',
    trace s' = app (trace s)
                 (app (map EvRemap ls) [EvBuild (kept_annotations s ls) annos]) /\
    length annos = length (kept_annotations s ls) /\
    built_instances m L annos shape inst' /\
    lookup s' d "instances" = Some (VInstances (filter_empty_instances L inst')).
Proof.
  intros Ha H. unfold process_annotations in H.
  destruct (bind_ok _ _ _ _ _ H) as (v & s0 & G1 & H2); clear H.
  destruct (getitem_run _ _ _ _ _ G1) as [-> Hv]. rewrite Ha in Hv.
  inversion Hv; subst v; clear Hv G1.
  destruct (bind_ok _ _ _ _ _ H2) as (vs & s0 & G2 & H3); clear H2.
  destruct (as_list_run _ _ _ _ G2) as [-> Hvs]. inversion Hvs; subst vs; clear Hvs G2.
  destruct (bind_ok _ _ _ _ _ H3) as ([] & s1 & G3 & H4); clear H3.
  destruct (bind_ok _ _ _ _ _ H4) as (v' & s2 & G4 & H5); clear H4.
  destruct (pop_run _ _ _ _ _ G4) as (Hv' & T4 & F4).
  rewrite (run_frame _ _ _ _ _ _ _ (strip_all_frame m (map VRef ls)) G3) in Hv'
    by notW.
  rewrite Ha in Hv'.
  inversion Hv'; subst v'; clear Hv'.
  destruct (bind_ok _ _ _ _ _ H5) as (vs' & s2' & G5 & H6); clear H5.
  destruct (as_list_run _ _ _ _ G5) as [-> Hvs]. inversion Hvs; subst vs'; clear Hvs G5.
  destruct (bind_ok _ _ _ _ _ H6) as (all & s3 & G6 & H7); clear H6.
  destruct (remap_all_run _ _ _ _ _ _ _ _ G6) as (ls' & E & -> & T6 & F6).
  apply map_VRef_inj in E. subst ls'.
  destruct (bind_ok _ _ _ _ _ H7) as (annos & s4 & G7 & H8); clear H7.
  destruct (load_all_run _ _ _ _ G7) as [-> Hlen].
  destruct (bind_ok _ _ _ _ _ H8) as ([] & s5 & G8 & H9); clear H8.
  unfold log in G8. inversion G8; subst s5; clear G8.
  destruct (bind_ok _ _ _ _ _ H9) as (inst' & s6 & G9 & H10); clear H9.
  assert (Cr : forall l, iscrowd_of s2 l = iscrowd_of s l).
  { intros l. apply iscrowd_of_frame.
    rewrite F4 by (right; discriminate). frame_at G3 (strip_all_frame m (map VRef ls)). reflexivity. }
  assert (Kp : map fst (filter (fun a => is_zero (snd a))
                 (map (fun l => (l, iscrowd_of s2 l)) ls)) = kept_annotations s ls).
  { unfold kept_annotations. f_equal. f_equal. apply map_ext. intros l.
    rewrite Cr. reflexivity. }
  rewrite Kp in *. exists annos, inst'.
  destruct (recompute_boxes m) eqn:Hr.
  - destruct (lift_run _ _ _ _ G9) as [-> Hi].
    destruct (setitem_run _ _ _ _ _ _ H10) as (Hs & Ts & _).
    split; [|split; [exact Hlen|split; [unfold built_instances; rewrite Hr; exact Hi|exact Hs]]].
    rewrite Ts. simpl. rewrite T6, T4.
    rewrite (run_quiet _ _ _ _ (strip_all_quiet m (map VRef ls)) G3).
    rewrite <- app_assoc. reflexivity.
  - destruct (ret_run _ _ _ _ G9) as [-> Hi].
    destruct (setitem_run _ _ _ _ _ _ H10) as (Hs & Ts & _).
    split; [|split; [exact Hlen|split; [unfold built_instances; rewrite Hr; exact Hi|exact Hs]]].
    rewrite Ts. simpl. rewrite T6, T4.
    rewrite (run_quiet _ _ _ _ (strip_all_quiet m (map VRef ls)) G3).
    rewrite <- app_assoc. reflexivity.
Qed.

(** ** The image-level labels *)

Lemma attach_ann_type_run m d s s' :
  attach_ann_type m d s = (Ok tt, s') ->
  if with_ann_type m then
    lookup s' d "pos_category_ids" =
      Some (match lookup s d "pos_category_ids" with Some v => v | None => VList [] end) /\
    exists v a, lookup s d "dataset_source" = Some v /\
      py_index (dataset_ann m) v = Ok a /\ lookup s' d "ann_type" = Some (VStr a)
  else s' = s.
Proof.
  unfold attach_ann_type. intros H. destruct (with_ann_type m).
  2:{ inversion H; reflexivity. }
  destruct (bind_ok _ _ _ _ _ H) as (pos & s0 & G1 & H2); clear H.
  destruct (get_default_run _ _ _ _ _ _ G1) as [-> ->]; clear G1.
  destruct (bind_ok _ _ _ _ _ H2) as ([] & s1 & G2 & H3); clear H2.
  destruct (setitem_run _ _ _ _ _ _ G2) as (P1 & _ & F1).
  destruct (bind_ok _ _ _ _ _ H3) as (v & s2 & G3 & H4); clear H3.
  destruct (getitem_run _ _ _ _ _ G3) as [-> Hv].
  destruct (bind_ok _ _ _ _ _ H4) as (a & s3 & G4 & H5); clear H4.
  destruct (lift_run _ _ _ _ G4) as [-> Ha].
  destruct (setitem_run _ _ _ _ _ _ H5) as (P2 & _ & F2).
  rewrite F1 in Hv by (right; discriminate).
  split.
  - rewrite F2 by (right; discriminate). exact P1.
  - exists v, a. auto.
Qed.

Lemma attach_ann_type_trace m d s s' :
  attach_ann_type m d s = (Ok tt, s') -> trace s' = trace s.
Proof. intros H. eapply run_quiet; [|exact H]. apply attach_ann_type_quiet. Qed.

Lemma debug_pos_run m d s s' :
  debug_pos_category_ids m d s = (Ok tt, s') ->
  if is_debug m then
    (match lookup s d "pos_category_ids" with
     | None => true | Some v => is_empty_list v end) = true ->
    exists i, lookup s d "instances" = Some (VInstances i) /\
      lookup s' d "pos_category_ids" =
        Some (VList (map VInt (sorted_set (gt_classes i))))
  else s' = s.
Proof.
  unfold debug_pos_category_ids. intros H. destruct (is_debug m).
  2:{ inversion H; reflexivity. }
  intros Hc.
  destruct (bind_ok _ _ _ _ _ H) as (b & s0 & G1 & H2); clear H.
  destruct (contains_run _ _ _ _ _ G1) as [-> ->]; clear G1.
  destruct (bind_ok _ _ _ _ _ H2) as (c & s1 & G2 & H3); clear H2.
  assert (Ec : s1 = s /\ c = true).
  { destruct (lookup s d "pos_category_ids") as [v|] eqn:Ep; simpl in G2.
    - destruct (bind_ok _ _ _ _ _ G2) as (p & s2 & G3 & G4).
      destruct (getitem_run _ _ _ _ _ G3) as [-> Hp].
      rewrite Ep in Hp. inversion Hp; subst p.
      destruct (ret_run _ _ _ _ G4) as [-> ->]. auto.
    - destruct (ret_run _ _ _ _ G2) as [-> ->]. auto. }
  destruct Ec as [-> ->].
  destruct (bind_ok _ _ _ _ _ H3) as (v & s2 & G3 & H4); clear H3.
  destruct (getitem_run _ _ _ _ _ G3) as [-> Hv].
  destruct v; try discriminate.
  destruct (setitem_run _ _ _ _ _ _ H4) as (P & _ & _).
  exists i. auto.
Qed.

Lemma debug_pos_trace m d s s' :
  debug_pos_category_ids m d s = (Ok tt, s') -> trace s' = trace s.
Proof. intros H. eapply run_quiet; [|exact H]. apply debug_pos_quiet. Qed.

(** ** The input's annotations in the working copy *)

Lemma is_zero_shift o v : is_zero (shift_value o v) = is_zero v.
Proof. destruct v; reflexivity. Qed.

Lemma kept_annotations_shift s s7 ls :
  (forall l, lookup s7 (l + next s)%nat "iscrowd" = lookup (copied s) (l + next s)%nat "iscrowd") ->
  kept_annotations s7 (map (copy_loc s) ls) =
  map (copy_loc s) (filter (fun l => is_zero (iscrowd_of s l)) ls).
Proof.
  intros H. unfold kept_annotations, copy_loc. induction ls as [|l ls IH]; simpl; [reflexivity|].
  assert (E : is_zero (iscrowd_of s7 (l + next s)%nat) = is_zero (iscrowd_of s l)).
  { unfold iscrowd_of. rewrite H, lookup_copied.
    destruct (lookup s l "iscrowd"); simpl; [apply is_zero_shift|reflexivity]. }
  rewrite E. destruct (is_zero (iscrowd_of s l)); simpl; [f_equal|]; exact IH.
Qed.

Lemma process_annotations_refs m L d tr shape s s' v :
  lookup s d "annotations" = Some v ->
  process_annotations m L d tr shape s = (Ok tt, s') ->
  exists ls, v = VList (map VRef ls).
Proof.
  intros Ha H. unfold process_annotations in H.
  destruct (bind_ok _ _ _ _ _ H) as (v0 & s0 & G1 & H2); clear H.
  destruct (getitem_run _ _ _ _ _ G1) as [-> Hv]. rewrite Ha in Hv.
  inversion Hv; subst v0; clear Hv G1.
  destruct (bind_ok _ _ _ _ _ H2) as (vs & s0 & G2 & H3); clear H2.
  destruct (as_list_run _ _ _ _ G2) as [-> ->]; clear G2.
  destruct (bind_ok _ _ _ _ _ H3) as ([] & s1 & G3 & H4); clear H3.
  destruct (bind_ok _ _ _ _ _ H4) as (v' & s2 & G4 & H5); clear H4.
  destruct (pop_run _ _ _ _ _ G4) as (Hv' & _ & _).
  rewrite (run_frame _ _ _ _ _ _ _ (strip_all_frame m vs) G3) in Hv' by notW.
  rewrite Ha in Hv'. inversion Hv'; subst v'; clear Hv'.
  destruct (bind_ok _ _ _ _ _ H5) as (vs' & s2' & G5 & H6); clear H5.
  destruct (as_list_run _ _ _ _ G5) as [-> Hvs]. inversion Hvs; subst vs'; clear Hvs G5.
  destruct (bind_ok _ _ _ _ _ H6) as (all & s3 & G6 & _).
  destruct (remap_all_run _ _ _ _ _ _ _ _ G6) as (ls & -> & _).
  exists ls. reflexivity.
Qed.

(** [instances[m]] keeps boxes and masks row by row. *)
Lemma select_map {A B} (f : A -> B) keep xs :
  select keep (map f xs) = map f (select keep xs).
Proof.
  revert xs; induction keep as [|b keep IH]; intros [|x xs]; simpl; auto.
  destruct b; simpl; rewrite IH; reflexivity.
Qed.

Lemma recomputed_boxes_filtered m L annos shape inst' :
  recompute_boxes m = true -> built_instances m L annos shape inst' ->
  exists ms, gt_masks (filter_empty_instances L inst') = Some ms /\
    gt_boxes (filter_empty_instances L inst') = map (mask_bbox L) ms.
Proof.
  unfold built_instances. intros -> H.
  unfold recompute_boxes_from_masks in H.
  destruct (gt_masks (annotations_to_instances L annos shape (instance_mask_format m)))
    as [ms|] eqn:Em; [|discriminate].
  inversion H; subst inst'; clear H.
  unfold filter_empty_instances; simpl.
  eexists; split; [reflexivity|]. apply select_map.
Qed.

(** ** Changing only the declared annotation types *)

Lemma annotations_step_frame m L d tr shape (b : bool) s s' l k :
  (if b then process_annotations m L d tr shape else ret tt) s = (Ok tt, s') ->
  ~ In k ("annotations" :: "instances" :: anno_keys) ->
  lookup s' l k = lookup s l k.
Proof.
  intros H Hk. destruct b.
  - apply (run_frame _ _ _ _ _ _ _ (process_annotations_frame m L d tr shape) H).
    intros [[_ Hin]|Hin]; apply Hk; simpl in *; tauto.
  - inversion H; reflexivity.
Qed.

(** Up to the labels, a training call does not depend on [dataset_ann]. *)
Lemma call_train_dataset_ann m a L r s out s' out' s'' :
  is_train m = true ->
  call m L r s = (Ok out, s') -> call (with_dataset_ann m a) L r s = (Ok out', s'') ->
  out' = out /\ exists s8 s9 s9',
    attach_ann_type m out s8 = (Ok tt, s9) /\
    debug_pos_category_ids m out s9 = (Ok tt, s') /\
    attach_ann_type (with_dataset_ann m a) out s8 = (Ok tt, s9') /\
    debug_pos_category_ids (with_dataset_ann m a) out s9' = (Ok tt, s'').
Proof.
  intros Ht H H'. set (m' := with_dataset_ann m a) in *.
  destruct (call_ok _ _ _ _ _ _ H)
    as (ori & s2 & sem & s3 & s4 & p & tr & img & sem' & H1 & H3 & H5 & H9 & Ea & H10).
  destruct (call_ok _ _ _ _ _ _ H')
    as (ori' & s2' & sem2 & s3' & s4' & p' & tr' & img' & sem2' & H1' & H3' & H5' & H9' & Ea' & H10').
  set (d := (r + next s)%nat) in *.
  change (load_image m L d (copied s) = (Ok ori', s2')) in H1'.
  rewrite H1 in H1'. inversion H1'; subst ori' s2'; clear H1'.
  rewrite H3 in H3'. inversion H3'; subst sem2 s3'; clear H3'.
  change (force_debug_source m d s3 = (Ok tt, s4')) in H5'.
  rewrite H5 in H5'. inversion H5'; subst s4'; clear H5'.
  change (select_augmentation m d s4 = (Ok p', s4)) in H9'.
  rewrite H9 in H9'. inversion H9'; subst p'; clear H9'.
  rewrite Ea in Ea'. inversion Ea'; subst tr' img' sem2'; clear Ea'.
  assert (Ht' : is_train m' = true) by exact Ht.
  destruct (finish_train _ _ _ _ _ _ _ _ _ Ht H10)
    as (-> & s6 & s7 & b & s8 & s9 & F1 & F2 & F3 & F4 & F5 & F6).
  destruct (finish_train _ _ _ _ _ _ _ _ _ Ht' H10')
    as (-> & s6' & s7' & b' & s8' & s9' & F1' & F2' & F3' & F4' & F5' & F6').
  rewrite F1 in F1'. inversion F1'; subst s6'; clear F1'.
  change (proposals_step m L d (img_h img, img_w img) tr s6 = (Ok tt, s7')) in F2'.
  rewrite F2 in F2'. inversion F2'; subst s7'; clear F2'.
  rewrite F3 in F3'. inversion F3'; subst b'; clear F3'.
  change ((if b then process_annotations m L d tr (img_h img, img_w img) else ret tt) s7
          = (Ok tt, s8')) in F4'.
  rewrite F4 in F4'. inversion F4'; subst s8'; clear F4'.
  split; [reflexivity|]. exists s8, s9, s9'. auto.
Qed.

Lemma is_empty_list_shift o v : is_empty_list (shift_value o v) = is_empty_list v.
Proof. destruct v as [| | |[|]| | | | | | | |]; reflexivity. Qed.

Lemma bind_Ok {A B} (c : M A) (k : A -> M B) s a s' :
  c s = (Ok a, s') -> bind c k s = k a s'.
Proof. intros H. unfold bind. rewrite H. reflexivity. Qed.

Lemma bind_Err {A B} (c : M A) (k : A -> M B) s e s' :
  c s = (Err e, s') -> bind c k s = (Err e, s').
Proof. intros H. unfold bind. rewrite H. reflexivity. Qed.

Lemma bind_assoc_s {A B C} (c : M A) (f : A -> M B) (k : B -> M C) s :
  bind (bind c f) k s = bind c (fun x => bind (f x) k) s.
Proof. unfold bind. destruct (c s) as [[a|e] s']; reflexivity. Qed.

Lemma contains_ok l k s dd :
  heap s l = Some dd -> contains l k s = (Ok (has_key dd k), s).
Proof. intros E. unfold contains, bind, load. rewrite E. reflexivity. Qed.

Lemma getitem_ok l k s dd v :
  heap s l = Some dd -> dict_get dd k = Some v -> getitem l k s = (Ok v, s).
Proof. intros E Hv. unfold getitem, bind, load. rewrite E, Hv. reflexivity. Qed.

Lemma getitem_missing l k s dd :
  heap s l = Some dd -> dict_get dd k = None -> getitem l k s = (Err KeyError, s).
Proof. intros E Hv. unfold getitem, bind, load. rewrite E, Hv. reflexivity. Qed.

Lemma setitem_ok l k v s dd :
  heap s l = Some dd ->
  setitem l k v s = (Ok tt, mkState (upd_heap (heap s) l (dict_set dd k v)) (next s) (trace s)).
Proof. intros E. unfold setitem, bind, load. rewrite E. reflexivity. Qed.

Lemma heap_upd_same h l dd n t : heap (mkState (upd_heap h l dd) n t) l = Some dd.
Proof. unfold upd_heap; simpl. rewrite Nat.eqb_refl. reflexivity. Qed.

Lemma has_key_false dd k : dict_get dd k = None -> has_key dd k = false.
Proof. unfold has_key. intros ->. reflexivity. Qed.

Lemma has_key_true dd k v : dict_get dd k = Some v -> has_key dd k = true.
Proof. unfold has_key. intros ->. reflexivity. Qed.

Ltac run_step H :=
  repeat rewrite bind_assoc_s; rewrite (bind_Ok _ _ _ _ _ H);
  cbv beta iota delta [orb andb negb].

Ltac run_ret :=
  repeat rewrite bind_assoc_s; erewrite bind_Ok by reflexivity;
  cbv beta iota delta [orb andb negb].

Lemma load_image_plain m L d s dd fn im :
  heap s d = Some dd -> dict_get dd "file_name" = Some (VStr fn) ->
  read_image L fn (image_format m) = Some im ->
  dict_get dd "width" = None -> dict_get dd "height" = None ->
  exists s2, load_image m L d s = (Ok im, s2).
Proof.
  intros E Hf Hr Hw Hh. unfold load_image.
  run_step (contains_ok _ "file_name" _ _ E). rewrite (has_key_true _ _ _ Hf).
  cbv beta iota.
  run_step (getitem_ok _ _ _ _ _ E Hf).
  unfold as_str at 1. run_ret. rewrite Hr. run_ret.
  unfold check_image_size.
  run_step (contains_ok _ "width" _ _ E). rewrite (has_key_false _ _ Hw).
  run_step (contains_ok _ "height" _ _ E). rewrite (has_key_false _ _ Hh).
  cbv beta iota delta [orb andb negb].
  run_ret.
  run_step (contains_ok _ "width" _ _ E). rewrite (has_key_false _ _ Hw). cbv beta iota.
  run_step (setitem_ok d "width" (VInt (img_w im)) _ _ E).
  run_step (contains_ok _ "height" _ _ (heap_upd_same (heap s) d (dict_set dd "width" (VInt (img_w im))) (next s) (trace s))).
  rewrite has_key_false by (rewrite dict_get_set_neq by discriminate; exact Hh).
  cbv beta iota.
  eexists. unfold setitem, bind, load. rewrite heap_upd_same. reflexivity.
Qed.

Lemma lookup_heap s l k v : lookup s l k = Some v -> heap s l <> None.
Proof. unfold lookup. destruct (heap s l); [discriminate|discriminate]. Qed.

Lemma contains_some_heap l k s :
  heap s l <> None ->
  contains l k s = (Ok (match lookup s l k with Some _ => true | None => false end), s).
Proof.
  unfold contains, bind, load, lookup, has_key. destruct (heap s l); [reflexivity|].
  intros H; exfalso; apply H; reflexivity.
Qed.

Lemma load_image_no_file m L d s :
  heap s d <> None -> lookup s d "file_name" = None ->
  load_image m L d s = (Err AttributeError, s).
Proof.
  intros Hh Hf. unfold load_image.
  run_step (contains_some_heap d "file_name" s Hh). rewrite Hf. reflexivity.
Qed.

Lemma read_sem_seg_none L d s :
  heap s d <> None -> lookup s d "sem_seg_file_name" = None ->
  read_sem_seg L d s = (Ok None, s).
Proof.
  intros Hh Hf. unfold read_sem_seg.
  run_step (contains_some_heap d "sem_seg_file_name" s Hh). rewrite Hf. reflexivity.
Qed.

Lemma not_full_labeled_none m d s :
  heap s d <> None -> lookup s d "dataset_source" = None ->
  not_full_labeled m d s = (Ok false, s).
Proof.
  intros Hh Hf. unfold not_full_labeled.
  run_step (contains_some_heap d "dataset_source" s Hh). rewrite Hf. reflexivity.
Qed.

Lemma select_augmentation_missing m d s augs :
  use_diff_bs_size m && is_train m = true -> dataset_augs m = Some augs ->
  heap s d <> None -> lookup s d "dataset_source" = None ->
  select_augmentation m d s = (Err KeyError, s).
Proof.
  intros Hc Ha Hh Hf. unfold select_augmentation. rewrite Hc, Ha.
  run_ret. unfold getitem, lookup in *. unfold bind, load.
  destruct (heap s d); [|exfalso; apply Hh; reflexivity].
  rewrite Hf. reflexivity.
Qed.

Lemma value_is_int_shift o v z : value_is_int (shift_value o v) z = value_is_int v z.
Proof. destruct v; reflexivity. Qed.

Lemma has_key_shift o d k : has_key (shift_dict o d) k = has_key d k.
Proof. unfold has_key. rewrite dict_get_shift. destruct (dict_get d k); reflexivity. Qed.

(** [load_image] on a readable image whose size fields are both missing or
    both present and equal to the image's size. *)
Lemma load_image_ok m L d s dd fn im :
  heap s d = Some dd -> dict_get dd "file_name" = Some (VStr fn) ->
  read_image L fn (image_format m) = Some im ->
  has_key dd "width" = has_key dd "height" ->
  (forall w h, dict_get dd "width" = Some w -> dict_get dd "height" = Some h ->
     (value_is_int w (img_w im) && value_is_int h (img_h im))%bool = true) ->
  exists s2, load_image m L d s = (Ok im, s2).
Proof.
  intros E Hf Hr Hk Hv.
  destruct (dict_get dd "width") as [w|] eqn:Hw;
    destruct (dict_get dd "height") as [h|] eqn:Hh;
    try (unfold has_key in Hk; rewrite Hw, Hh in Hk; discriminate).
  - exists s. specialize (Hv w h eq_refl eq_refl). unfold load_image.
    run_step (contains_ok _ "file_name" _ _ E). rewrite (has_key_true _ _ _ Hf).
    cbv beta iota.
    run_step (getitem_ok _ _ _ _ _ E Hf).
    unfold as_str at 1. run_ret. rewrite Hr. run_ret.
    unfold check_image_size.
    run_step (contains_ok _ "width" _ _ E). rewrite (has_key_true _ _ _ Hw).
    run_step (contains_ok _ "height" _ _ E). cbv beta iota.
    run_step (getitem_ok _ _ _ _ _ E Hw). run_step (getitem_ok _ _ _ _ _ E Hh).
    destruct (value_is_int w (img_w im)); [|discriminate]. simpl in Hv. rewrite Hv.
    run_ret.
    run_step (contains_ok _ "width" _ _ E). rewrite (has_key_true _ _ _ Hw). run_ret.
    run_step (contains_ok _ "height" _ _ E). rewrite (has_key_true _ _ _ Hh). run_ret.
    reflexivity.
  - exact (load_image_plain m L d s dd fn im E Hf Hr Hw Hh).
Qed.

(** [read_sem_seg] when the ["sem_seg_file_name"], if any, names a
    readable file. *)
Lemma read_sem_seg_ok L d s :
  heap s d <> None ->
  (forall v, lookup s d "sem_seg_file_name" = Some v ->
     exists f sg, v = VStr f /\ read_image L f "L" = Some sg) ->
  exists sem s3, read_sem_seg L d s = (Ok sem, s3).
Proof.
  intros Hh Hv. destruct (lookup s d "sem_seg_file_name") as [v|] eqn:E.
  - destruct (Hv v eq_refl) as (f & sg & -> & Hr).
    unfold read_sem_seg.
    run_step (contains_some_heap d "sem_seg_file_name" s Hh). rewrite E.
    revert E. unfold lookup. destruct (heap s d) as [dd|] eqn:Ed; [|contradiction].
    intros E. do 2 eexists.
    unfold pop, as_str, store, bind, load, ret. rewrite Ed, E. rewrite Hr. reflexivity.
  - exists None, s. exact (read_sem_seg_none L d s Hh E).
Qed.

(** * Claims *)

(** C1. Whatever the outcome of a call, the only pipeline applied is the
    shared [self.augmentations] unless [use_diff_bs_size] holds and the
    mapper is in training mode; then it is [dataset_augs[dataset_source]],
    the ["dataset_source"] of the working record (the input's, or 0 when
    [is_debug] forces it). *)
Theorem pipeline_selection m L r s res s' :
  call m L r s = (res, s') ->
  exists evs, trace s' = app (trace s) evs /\
    forall p, In (EvAugment p) evs ->
      if use_diff_bs_size m && is_train m then
        exists augs v, dataset_augs m = Some augs /\
          (if is_debug m then v = VInt 0
           else lookup s r "dataset_source" = Some v) /\
          py_index augs v = Ok p
      else p = augmentations m.
Proof.
  unfold call. rewrite bind_deepcopy. set (d := (r + next s)%nat). intros H.
  destruct (bind_inv _ _ _ _ _ H) as [(e & H1 & _) | (ori & s2 & H1 & H2)].
  { quiet_err. }
  destruct (bind_inv _ _ _ _ _ H2) as [(e & H3 & _) | (sem & s3 & H3 & H4)].
  { quiet_err. }
  destruct (bind_inv _ _ _ _ _ H4) as [(e & H5 & _) | (u & s4 & H5 & H6)].
  { quiet_err. }
  destruct (bind_inv _ _ _ _ _ H6) as [(e & H7 & _) | (b & s5 & H7 & H8)].
  { quiet_err. }
  assert (Tr5 : trace s5 = trace s) by (trace_chain; reflexivity).
  pose proof (dataset_source_at_selection m L r s ori s2 sem s3 u s4 b s5
                H1 H3 H5 H7) as Hds. fold d in Hds.
  destruct (bind_inv _ _ _ _ _ H8) as [(e & H9 & _) | (p & s6 & H9 & H10)].
  { rewrite <- Tr5. quiet_err. }
  destruct (select_augmentation_run m d s5 p s6 H9) as [-> Hsel].
  rewrite bind_apply_augmentation in H10.
  destruct (augment L p ori sem) as [[tr img] sem'].
  destruct (run_logs _ _ _ _ _ (finish_logs m L d tr img sem') H10)
    as (evs & Htr & Hna).
  exists (EvAugment p :: evs). split.
  { rewrite Htr; simpl. rewrite Tr5, <- app_assoc. reflexivity. }
  intros p' [E|Hin].
  - inversion E; subst p'. clear E.
    destruct (use_diff_bs_size m && is_train m); [|exact Hsel].
    destruct Hsel as (augs & v & Ha & Hv & Hp).
    rewrite Hds in Hv. destruct (is_debug m).
    + exists augs, v. inversion Hv; subst. auto.
    + destruct (lookup s r "dataset_source") as [v0|]; simpl in Hv; [|discriminate].
      inversion Hv; subst v. exists augs, v0.
      rewrite py_index_shift in Hp. auto.
  - rewrite Forall_forall in Hna. destruct (Hna _ Hin).
Qed.

(** C7. A call never changes an object the caller already had: every
    location below [next s] (the input record [r] and the annotation dicts
    it refers to among them) holds the same object after the call, whatever
    its outcome; the record returned is the deep copy, at [r + next s], a
    location the caller did not have. *)
Theorem input_not_mutated m L r s :
  (forall l, (l < next s)%nat -> heap (snd (call m L r s)) l = heap s l) /\
  (forall out, fst (call m L r s) = Ok out ->
     out = (r + next s)%nat /\ (next s <= out)%nat).
Proof.
  destruct (call_untouched m L r s) as [[Hlo _] Hout]. split; [exact Hlo|].
  intros out H. rewrite (Hout out H). split; [reflexivity|lia].
Qed.

(** C2. In training mode, when the input's ["annotations"] is a list of
    annotation dicts [ls], a successful call remaps every one of them (an
    [EvRemap] per annotation, crowd ones included, in order), then builds
    the instances from exactly the non-crowd ones: those whose ["iscrowd"]
    is 0 or absent, in order.  The output's ["instances"] is that
    collection, after the optional box recomputation and the empty-instance
    filter. *)
Theorem crowd_annotations_dropped m L r s out s' ls :
  is_train m = true ->
  call m L r s = (Ok out, s') ->
  lookup s r "annotations" = Some (VList (map VRef ls)) ->
  exists p annos shape inst',
    trace s' = app (trace s)
                 (EvAugment p :: app (map EvRemap (map (copy_loc s) ls))
                   [EvBuild (map (copy_loc s)
                              (filter (fun l => is_zero (iscrowd_of s l)) ls)) annos]) /\
    length annos = length (filter (fun l => is_zero (iscrowd_of s l)) ls) /\
    built_instances m L annos shape inst' /\
    lookup s' out "instances" = Some (VInstances (filter_empty_instances L inst')).
Proof.
  intros Ht H Ha.
  destruct (call_train_ok _ _ _ _ _ _ Ht H)
    as (-> & p & tr & img & s7 & b & s8 & s9 & T7 & F7 & D7 & C7 & P8 & A9 & D10).
  set (d := (r + next s)%nat) in *.
  assert (Ha7 : lookup s7 d "annotations" = Some (VList (map VRef (map (copy_loc s) ls)))).
  { rewrite F7 by notW. unfold d. rewrite lookup_copied, Ha. simpl.
    do 2 f_equal. rewrite !map_map. apply map_ext. reflexivity. }
  destruct (contains_run _ _ _ _ _ C7) as [_ Eb]. rewrite Ha7 in Eb. subst b.
  destruct (process_annotations_run _ _ _ _ _ _ _ _ Ha7 P8)
    as (annos & inst' & T8 & Hlen & Hb & Hi).
  rewrite kept_annotations_shift in T8, Hlen
    by (intros l; apply F7; notW).
  rewrite length_map in Hlen.
  exists p, annos, (img_h img, img_w img), inst'.
  split; [|split; [exact Hlen|split; [exact Hb|]]].
  - rewrite (debug_pos_trace _ _ _ _ D10), (attach_ann_type_trace _ _ _ _ A9), T8, T7.
    rewrite <- app_assoc. reflexivity.
  - frame_at D10 (debug_pos_frame m d). frame_at A9 (attach_ann_type_frame m d).
    exact Hi.
Qed.

(** C8. In training mode with [recompute_boxes], when the input record has
    ["annotations"], a successful call outputs instances that have masks,
    and the box of every instance is the bounding box of its mask: the
    boxes are recomputed before the empty-instance filter, which keeps or
    drops box and mask together. *)
Theorem recompute_boxes_tight m L r s out s' v :
  is_train m = true -> recompute_boxes m = true ->
  call m L r s = (Ok out, s') ->
  lookup s r "annotations" = Some v ->
  exists i ms, lookup s' out "instances" = Some (VInstances i) /\
    gt_masks i = Some ms /\ gt_boxes i = map (mask_bbox L) ms.
Proof.
  intros Ht Hr H Ha.
  destruct (call_train_ok _ _ _ _ _ _ Ht H)
    as (-> & p & tr & img & s7 & b & s8 & s9 & T7 & F7 & D7 & C7 & P8 & A9 & D10).
  set (d := (r + next s)%nat) in *.
  assert (Ha7 : lookup s7 d "annotations" = Some (shift_value (next s) v)).
  { rewrite F7 by notW. unfold d. rewrite lookup_copied, Ha. reflexivity. }
  destruct (contains_run _ _ _ _ _ C7) as [_ Eb]. rewrite Ha7 in Eb. subst b.
  destruct (process_annotations_refs _ _ _ _ _ _ _ _ Ha7 P8) as (ls & Hv).
  rewrite Hv in Ha7.
  destruct (process_annotations_run _ _ _ _ _ _ _ _ Ha7 P8)
    as (annos & inst' & _ & _ & Hb & Hi).
  destruct (recomputed_boxes_filtered _ _ _ _ _ Hr Hb) as (ms & Hm & Hbx).
  exists (filter_empty_instances L inst'), ms. split; [|auto].
  frame_at D10 (debug_pos_frame m d). frame_at A9 (attach_ann_type_frame m d).
  exact Hi.
Qed.

(** C3 (as amended).  In inference mode a successful call returns a record
    with neither ["annotations"] nor ["sem_seg_file_name"]; it has an
    ["instances"] key exactly when the input record had one, with the
    input's value (copied), since nothing is built; and the only event of
    the call is the application of the pipeline: no annotation is remapped
    and no instances are built. *)
Theorem inference_output m L r s out s' :
  is_train m = false -> call m L r s = (Ok out, s') ->
  lookup s' out "annotations" = None /\
  lookup s' out "sem_seg_file_name" = None /\
  lookup s' out "instances" =
    option_map (shift_value (next s)) (lookup s r "instances") /\
  exists p, trace s' = app (trace s) [EvAugment p].
Proof.
  intros Ht H.
  destruct (call_ok _ _ _ _ _ _ H)
    as (ori & s2 & sem & s3 & s4 & p & tr & img & sem' & H1 & H3 & H5 & H9 & Ea & H10).
  set (d := (r + next s)%nat) in *.
  destruct (finish_infer _ _ _ _ _ _ _ _ _ Ht H10)
    as (-> & s6 & s7 & s8 & v1 & v2 & F1 & F2 & F3 & F4).
  destruct (pop_default_run _ _ _ _ _ _ F3) as (N3 & T3 & _ & R3).
  destruct (pop_default_run _ _ _ _ _ _ F4) as (N4 & T4 & _ & R4).
  split; [rewrite R4 by (right; discriminate); exact N3|].
  split; [exact N4|]. split.
  - rewrite R4, R3 by (right; discriminate).
    frame_at F2 (proposals_step_frame m L d (img_h img, img_w img) tr).
    frame_at F1 (store_image_frame d img sem').
    change (lookup s4 d "instances" =
            option_map (shift_value (next s)) (lookup s r "instances")).
    frame_at H5 (force_debug_source_frame m d).
    frame_at H3 (read_sem_seg_frame L d).
    frame_at H1 (load_image_frame m L d).
    apply lookup_copied.
  - exists p. rewrite T4, T3. clear H9 F3 F4 H10. trace_chain. simpl. trace_chain.
    reflexivity.
Qed.

(** C5 (as amended: the labels are as stated when [is_debug] is off).  In
    training mode with [with_ann_type] and without [is_debug], a successful
    call outputs as ["pos_category_ids"] the input's (copied), or [[]] when
    the input has none, and as ["ann_type"] the entry [dataset_ann[v]] for
    the input's ["dataset_source"] [v].  And whatever the declared
    annotation types (['box'] or not), two successful calls that differ
    only in [dataset_ann] output the same ["instances"]. *)
Theorem ann_type_labels m L r s out s' :
  is_train m = true -> with_ann_type m = true ->
  call m L r s = (Ok out, s') ->
  (is_debug m = false ->
   lookup s' out "pos_category_ids" =
     Some (match lookup s r "pos_category_ids" with
           | Some v => shift_value (next s) v
           | None => VList []
           end) /\
   exists v a, lookup s r "dataset_source" = Some v /\
     py_index (dataset_ann m) v = Ok a /\
     lookup s' out "ann_type" = Some (VStr a)) /\
  (forall a out' s'', call (with_dataset_ann m a) L r s = (Ok out', s'') ->
     lookup s'' out' "instances" = lookup s' out "instances").
Proof.
  intros Ht Hw H. split.
  - intros Hd.
    destruct (call_train_ok _ _ _ _ _ _ Ht H)
      as (-> & p & tr & img & s7 & b & s8 & s9 & T7 & F7 & D7 & C7 & P8 & A9 & D10).
    set (d := (r + next s)%nat) in *.
    pose proof (debug_pos_run _ _ _ _ D10) as E10. rewrite Hd in E10. subst s'.
    pose proof (attach_ann_type_run _ _ _ _ A9) as E9. rewrite Hw in E9.
    destruct E9 as (Hp & v & a & Hv & Ha & Hat).
    rewrite (annotations_step_frame _ _ _ _ _ _ _ _ _ _ P8) in Hp by notW.
    rewrite (annotations_step_frame _ _ _ _ _ _ _ _ _ _ P8) in Hv by notW.
    split.
    + rewrite Hp, F7 by notW. unfold d. rewrite lookup_copied.
      destruct (lookup s r "pos_category_ids"); reflexivity.
    + rewrite D7, Hd in Hv.
      destruct (lookup s r "dataset_source") as [v0|]; simpl in Hv; [|discriminate].
      inversion Hv; subst v. rewrite py_index_shift in Ha.
      exists v0, a. auto.
  - intros a out' s'' H'.
    destruct (call_train_dataset_ann _ _ _ _ _ _ _ _ _ Ht H H')
      as (-> & s8 & s9 & s9' & A & D & A' & D').
    frame_at D' (debug_pos_frame (with_dataset_ann m a) out).
    frame_at A' (attach_ann_type_frame (with_dataset_ann m a) out).
    frame_at D (debug_pos_frame m out). frame_at A (attach_ann_type_frame m out).
    reflexivity.
Qed.

(** C6 (as amended: the backfill happens in training mode only).  Under
    [is_debug], a successful call, in either mode, outputs
    ["dataset_source"] = 0.  In training mode, when the input has no
    ["pos_category_ids"] or has [[]], the output's ["pos_category_ids"] is
    the sorted list of the distinct classes of the output's instances. *)
Theorem debug_labels m L r s out s' :
  is_debug m = true -> call m L r s = (Ok out, s') ->
  lookup s' out "dataset_source" = Some (VInt 0) /\
  (is_train m = true ->
   match lookup s r "pos_category_ids" with
   | None => true
   | Some v => is_empty_list v
   end = true ->
   exists i, lookup s' out "instances" = Some (VInstances i) /\
     lookup s' out "pos_category_ids" =
       Some (VList (map VInt (sorted_set (gt_classes i))))).
Proof.
  intros Hd H. destruct (is_train m) eqn:Ht.
  - destruct (call_train_ok _ _ _ _ _ _ Ht H)
      as (-> & p & tr & img & s7 & b & s8 & s9 & T7 & F7 & D7 & C7 & P8 & A9 & D10).
    set (d := (r + next s)%nat) in *. rewrite Hd in D7. split.
    + frame_at D10 (debug_pos_frame m d). frame_at A9 (attach_ann_type_frame m d).
      rewrite (annotations_step_frame _ _ _ _ _ _ _ _ _ _ P8) by notW. exact D7.
    + intros _ Hc. pose proof (debug_pos_run _ _ _ _ D10) as E10. rewrite Hd in E10.
      destruct E10 as (i & Hi & Hp).
      * assert (E8 : lookup s8 d "pos_category_ids" =
                     option_map (shift_value (next s)) (lookup s r "pos_category_ids")).
        { rewrite (annotations_step_frame _ _ _ _ _ _ _ _ _ _ P8) by notW.
          rewrite F7 by notW. apply lookup_copied. }
        pose proof (attach_ann_type_run _ _ _ _ A9) as E9.
        destruct (with_ann_type m).
        -- destruct E9 as (Hp & _). rewrite Hp, E8.
           destruct (lookup s r "pos_category_ids"); simpl;
             [rewrite is_empty_list_shift|]; exact Hc.
        -- subst s9. rewrite E8.
           destruct (lookup s r "pos_category_ids"); simpl;
             [rewrite is_empty_list_shift|]; exact Hc.
      * exists i. split; [|exact Hp].
        frame_at D10 (debug_pos_frame m d). exact Hi.
  - split; [|discriminate].
    destruct (call_ok _ _ _ _ _ _ H)
      as (ori & s2 & sem & s3 & s4 & p & tr & img & sem' & H1 & H3 & H5 & H9 & Ea & H10).
    set (d := (r + next s)%nat) in *.
    destruct (finish_infer _ _ _ _ _ _ _ _ _ Ht H10)
      as (-> & s6 & s7 & s8 & v1 & v2 & F1 & F2 & F3 & F4).
    destruct (pop_default_run _ _ _ _ _ _ F3) as (_ & _ & _ & R3).
    destruct (pop_default_run _ _ _ _ _ _ F4) as (_ & _ & _ & R4).
    rewrite R4, R3 by (right; discriminate).
    frame_at F2 (proposals_step_frame m L d (img_h img, img_w img) tr).
    frame_at F1 (store_image_frame d img sem').
    change (lookup s4 d "dataset_source" = Some (VInt 0)).
    eapply force_debug_source_run; eassumption.
Qed.

(** C9. A call on a record without ["file_name"] fails, with the
    [AttributeError] of reading [self.tar_dataset], an attribute that no
    constructed mapper has: no output is produced. *)
Theorem missing_file_name_fails m L r s d0 :
  heap s r = Some d0 -> dict_get d0 "file_name" = None ->
  fst (call m L r s) = Err AttributeError.
Proof.
  intros Hr Hf. unfold call. rewrite bind_deepcopy.
  assert (Hh : heap (copied s) (r + next s)%nat <> None)
    by (rewrite heap_copied, Hr; discriminate).
  assert (Hl : lookup (copied s) (r + next s)%nat "file_name" = None)
    by (rewrite lookup_copied; unfold lookup; rewrite Hr, Hf; reflexivity).
  rewrite (bind_Err _ _ _ _ _ (load_image_no_file m L _ _ Hh Hl)). reflexivity.
Qed.

(** C10. With [use_diff_bs_size] in training mode and without [is_debug],
    every call on a record without ["dataset_source"] fails, before any
    pipeline is applied (the trace is unchanged).  When the record gets
    that far (its image is read, its ["width"] and ["height"] are both
    missing or both match the image, its ["sem_seg_file_name"], if any,
    names a readable file, and [dataset_augs] was assigned) the failure is
    the [KeyError] of [dataset_dict['dataset_source']] at the pipeline
    selection. *)
Theorem dataset_source_required m L r s d0 :
  use_diff_bs_size m = true -> is_train m = true -> is_debug m = false ->
  heap s r = Some d0 -> dict_get d0 "dataset_source" = None ->
  (exists e, fst (call m L r s) = Err e) /\
  trace (snd (call m L r s)) = trace s /\
  (forall fn im augs,
     dict_get d0 "file_name" = Some (VStr fn) ->
     read_image L fn (image_format m) = Some im ->
     has_key d0 "width" = has_key d0 "height" ->
     (forall w h, dict_get d0 "width" = Some w -> dict_get d0 "height" = Some h ->
        (value_is_int w (img_w im) && value_is_int h (img_h im))%bool = true) ->
     (forall v, dict_get d0 "sem_seg_file_name" = Some v ->
        exists f sg, v = VStr f /\ read_image L f "L" = Some sg) ->
     dataset_augs m = Some augs ->
     fst (call m L r s) = Err KeyError).
Proof.
  intros Hu Ht Hd Hr Hds.
  assert (Hds0 : lookup s r "dataset_source" = None) by (unfold lookup; rewrite Hr; exact Hds).
  split; [|split].
  - destruct (call m L r s) as [res s'] eqn:H. simpl.
    destruct res as [out|e]; [|exists e; reflexivity]. exfalso.
    destruct (call_ok _ _ _ _ _ _ H)
      as (ori & s2 & sem & s3 & s4 & p & tr & img & sem' & H1 & H3 & H5 & H9 & Ea & H10).
    destruct (select_augmentation_run _ _ _ _ _ H9) as [_ Hsel].
    rewrite Hu, Ht in Hsel. destruct Hsel as (augs & v & _ & Hv & _).
    rewrite (force_debug_source_off _ _ _ _ _ Hd H5) in Hv.
    rewrite (run_frame _ _ _ _ _ _ _ (read_sem_seg_frame L _) H3) in Hv by notW.
    rewrite (run_frame _ _ _ _ _ _ _ (load_image_frame m L _) H1) in Hv by notW.
    rewrite lookup_copied, Hds0 in Hv. discriminate.
  - destruct (call m L r s) as [res s'] eqn:H. simpl.
    unfold call in H. rewrite bind_deepcopy in H. set (d := (r + next s)%nat) in *.
    destruct (bind_inv _ _ _ _ _ H) as [(e & H1 & _) | (ori & s2 & H1 & H2)].
    { trace_chain. reflexivity. }
    destruct (bind_inv _ _ _ _ _ H2) as [(e & H3 & _) | (sem & s3 & H3 & H4)].
    { trace_chain. reflexivity. }
    destruct (bind_inv _ _ _ _ _ H4) as [(e & H5 & _) | (u & s4 & H5 & H6)].
    { trace_chain. reflexivity. }
    destruct (bind_inv _ _ _ _ _ H6) as [(e & H7 & _) | (b & s5 & H7 & H8)].
    { trace_chain. reflexivity. }
    pose proof (dataset_source_at_selection m L r s ori s2 sem s3 u s4 b s5
                  H1 H3 H5 H7) as Hds5. fold d in Hds5.
    rewrite Hd, Hds0 in Hds5.
    destruct (bind_inv _ _ _ _ _ H8) as [(e & H9 & _) | (p & s6 & H9 & H10)].
    { trace_chain. reflexivity. }
    exfalso. destruct (select_augmentation_run _ _ _ _ _ H9) as [_ Hsel].
    rewrite Hu, Ht in Hsel. destruct Hsel as (augs & v & _ & Hv & _).
    rewrite Hds5 in Hv. discriminate.
  - intros fn im augs Hf Hi Hk Hv Hs Ha.
    unfold call. rewrite bind_deepcopy. set (d := (r + next s)%nat).
    assert (Hc : heap (copied s) d = Some (shift_dict (next s) d0))
      by (unfold d; rewrite heap_copied, Hr; reflexivity).
    destruct (load_image_ok m L d (copied s) _ fn im Hc) as (s2 & H1);
      [rewrite dict_get_shift, Hf; reflexivity|exact Hi
      |rewrite !has_key_shift; exact Hk|
      |].
    { intros w h Hw Hh. rewrite dict_get_shift in Hw, Hh.
      destruct (dict_get d0 "width") as [w0|] eqn:Hw0; [|discriminate].
      destruct (dict_get d0 "height") as [h0|] eqn:Hh0; [|discriminate].
      injection Hw as <-. injection Hh as <-. rewrite !value_is_int_shift.
      exact (Hv w0 h0 eq_refl eq_refl). }
    assert (L2 : forall k, ~ In k ["width"; "height"] ->
                 lookup s2 d k = option_map (shift_value (next s)) (dict_get d0 k)).
    { intros k Hk'. rewrite (run_frame _ _ _ _ _ _ _ (load_image_frame m L d) H1) by tauto.
      unfold d. rewrite lookup_copied. unfold lookup. rewrite Hr. reflexivity. }
    assert (Hh2 : heap s2 d <> None).
    { apply (lookup_heap _ _ "file_name" (VStr fn)). rewrite L2 by notW. rewrite Hf. reflexivity. }
    run_step H1.
    destruct (read_sem_seg_ok L d s2 Hh2) as (sem & s3 & H3).
    { intros v Ev. rewrite L2 in Ev by notW.
      destruct (dict_get d0 "sem_seg_file_name") as [v0|] eqn:Es; [|discriminate].
      injection Ev as <-. destruct (Hs v0 eq_refl) as (f & sg & -> & Hrs).
      exists f, sg. split; [reflexivity|exact Hrs]. }
    assert (L3 : forall k, ~ In k ["width"; "height"; "sem_seg_file_name"] ->
                 lookup s3 d k = option_map (shift_value (next s)) (dict_get d0 k)).
    { intros k Hk'.
      rewrite (run_frame _ _ _ _ _ _ _ (read_sem_seg_frame L d) H3)
        by (intros [_ E]; apply Hk'; subst; simpl; tauto).
      apply L2. intros Hin; apply Hk'; simpl in *; tauto. }
    assert (Hh3 : heap s3 d <> None).
    { apply (lookup_heap _ _ "file_name" (VStr fn)). rewrite L3 by notW. rewrite Hf. reflexivity. }
    run_step H3.
    assert (H5 : force_debug_source m d s3 = (Ok tt, s3))
      by (unfold force_debug_source; rewrite Hd; reflexivity).
    run_step H5.
    run_step (not_full_labeled_none m d s3 Hh3
                ltac:(rewrite L3 by notW; rewrite Hds; reflexivity)).
    rewrite (bind_Err _ _ _ _ _ (select_augmentation_missing m d s3 augs
               ltac:(rewrite Hu, Ht; reflexivity) Ha Hh3
               ltac:(rewrite L3 by notW; rewrite Hds; reflexivity))).
    reflexivity.
Qed.

(** C4. Construction with [use_tar_dataset] fails with
    [NotImplementedError], so no mapper (and no sample) comes out of it;
    without it that error is never raised, and construction succeeds
    whenever the base constructor's own check passes (no
    [recompute_boxes] without [use_instance_mask]), giving a mapper with
    [use_tar_dataset] false. *)
Theorem tar_dataset_rejected it wat da udb augs dbg tar tp ti kw :
  (tar = true -> init it wat da udb augs dbg tar tp ti kw = Err NotImplementedError) /\
  (tar = false ->
     init it wat da udb augs dbg tar tp ti kw <> Err NotImplementedError /\
     (kw_recompute_boxes kw = false \/ kw_use_instance_mask kw = true ->
      exists m, init it wat da udb augs dbg tar tp ti kw = Ok m /\
                use_tar_dataset m = false)).
Proof.
  split; intros ->; unfold init; [reflexivity|].
  split.
  - destruct (kw_recompute_boxes kw && negb (kw_use_instance_mask kw)); discriminate.
  - intros Hk. assert (E : kw_recompute_boxes kw && negb (kw_use_instance_mask kw) = false)
      by (destruct Hk as [-> | ->]; [reflexivity | apply andb_false_r]).
    rewrite E. eexists. split; reflexivity.
Qed.

(** * Sample runs *)

(** C1: with [is_debug], the pipeline applied is [dataset_augs[0]]. *)
Lemma pipeline_selection_witness :
  exists res s', call m_debug lib0 0%nat st0 = (res, s') /\
  exists evs, trace s' = app (trace st0) evs /\
    forall p, In (EvAugment p) evs ->
      exists augs v, dataset_augs m_debug = Some augs /\ v = VInt 0 /\
        py_index augs v = Ok p.
Proof.
  exists (fst (call m_debug lib0 0%nat st0)), (snd (call m_debug lib0 0%nat st0)).
  split; [apply surjective_pairing|].
  exact (pipeline_selection m_debug lib0 0%nat st0 _ _ (surjective_pairing _)).
Defined.

(** C2: both annotations are remapped, only the one at 1 is built. *)
Lemma crowd_annotations_dropped_witness :
  exists out s', is_train m_debug = true /\
  call m_debug lib0 0%nat st0 = (Ok out, s') /\
  lookup st0 0%nat "annotations" = Some (VList (map VRef [1%nat; 2%nat])) /\
  exists p annos shape inst',
    trace s' = app (trace st0)
                 (EvAugment p :: app (map EvRemap (map (copy_loc st0) [1%nat; 2%nat]))
                   [EvBuild (map (copy_loc st0)
                              (filter (fun l => is_zero (iscrowd_of st0 l)) [1%nat; 2%nat]))
                      annos]) /\
    length annos = length (filter (fun l => is_zero (iscrowd_of st0 l)) [1%nat; 2%nat]) /\
    built_instances m_debug lib0 annos shape inst' /\
    lookup s' out "instances" = Some (VInstances (filter_empty_instances lib0 inst')).
Proof.
  assert (H : call m_debug lib0 0%nat st0 =
              (Ok 3%nat, snd (call m_debug lib0 0%nat st0))) by (vm_compute; reflexivity).
  exists 3%nat, (snd (call m_debug lib0 0%nat st0)).
  split; [reflexivity|]. split; [exact H|]. split; [reflexivity|].
  exact (crowd_annotations_dropped m_debug lib0 0%nat st0 3%nat _ [1%nat; 2%nat]
           eq_refl H eq_refl).
Defined.

(** C8: with instance masks and [recompute_boxes]. *)
Lemma recompute_boxes_tight_witness :
  exists out s', is_train m_masks = true /\ recompute_boxes m_masks = true /\
  call m_masks lib0 0%nat st_masks = (Ok out, s') /\
  lookup st_masks 0%nat "annotations" = Some (VList [VRef 1%nat; VRef 2%nat]) /\
  exists i ms, lookup s' out "instances" = Some (VInstances i) /\
    gt_masks i = Some ms /\ gt_boxes i = map (mask_bbox lib0) ms.
Proof.
  assert (H : call m_masks lib0 0%nat st_masks =
              (Ok 3%nat, snd (call m_masks lib0 0%nat st_masks))) by (vm_compute; reflexivity).
  exists 3%nat, (snd (call m_masks lib0 0%nat st_masks)).
  split; [reflexivity|]. split; [reflexivity|]. split; [exact H|]. split; [reflexivity|].
  exact (recompute_boxes_tight m_masks lib0 0%nat st_masks 3%nat _ _ eq_refl eq_refl H eq_refl).
Defined.

(** C3: inference on a record with annotations and a segmentation file. *)
Lemma inference_output_witness :
  exists out s', is_train m_infer = false /\
  call m_infer lib0 0%nat st0 = (Ok out, s') /\
  lookup s' out "annotations" = None /\
  lookup s' out "sem_seg_file_name" = None /\
  lookup s' out "instances" =
    option_map (shift_value (next st0)) (lookup st0 0%nat "instances") /\
  exists p, trace s' = app (trace st0) [EvAugment p].
Proof.
  assert (H : call m_infer lib0 0%nat st0 =
              (Ok 3%nat, snd (call m_infer lib0 0%nat st0))) by (vm_compute; reflexivity).
  exists 3%nat, (snd (call m_infer lib0 0%nat st0)).
  split; [reflexivity|]. split; [exact H|].
  exact (inference_output m_infer lib0 0%nat st0 3%nat _ eq_refl H).
Defined.

(** C3: in inference mode an input's ["instances"] is kept. *)
Lemma inference_output_counterexample :
  is_train m_infer = false /\ lookup st_instances 0%nat "instances" <> None /\
  exists out s', call m_infer lib0 0%nat st_instances = (Ok out, s') /\
    lookup s' out "instances" <> None.
Proof.
  split; [reflexivity|]. split; [vm_compute; discriminate|].
  exists 3%nat, (snd (call m_infer lib0 0%nat st_instances)).
  split; [vm_compute; reflexivity | vm_compute; discriminate].
Qed.

(** C5: without [is_debug], the record from source 1 is labelled
    ['image'] and gets [pos_category_ids = []]. *)
Lemma ann_type_labels_witness :
  exists out s', is_train m_plain = true /\ with_ann_type m_plain = true /\
  call m_plain lib0 0%nat st0 = (Ok out, s') /\
  (is_debug m_plain = false ->
   lookup s' out "pos_category_ids" =
     Some (match lookup st0 0%nat "pos_category_ids" with
           | Some v => shift_value (next st0) v
           | None => VList []
           end) /\
   exists v a, lookup st0 0%nat "dataset_source" = Some v /\
     py_index (dataset_ann m_plain) v = Ok a /\
     lookup s' out "ann_type" = Some (VStr a)) /\
  (forall a out' s'', call (with_dataset_ann m_plain a) lib0 0%nat st0 = (Ok out', s'') ->
     lookup s'' out' "instances" = lookup s' out "instances").
Proof.
  assert (H : call m_plain lib0 0%nat st0 =
              (Ok 3%nat, snd (call m_plain lib0 0%nat st0))) by (vm_compute; reflexivity).
  exists 3%nat, (snd (call m_plain lib0 0%nat st0)).
  split; [reflexivity|]. split; [reflexivity|]. split; [exact H|].
  exact (ann_type_labels m_plain lib0 0%nat st0 3%nat _ eq_refl eq_refl H).
Defined.

(** C5: with [is_debug], the record from source 1 (declared ['image']) gets
    the label of source 0 and the classes of its instances as
    [pos_category_ids], though its input has none. *)
Lemma ann_type_labels_counterexample :
  is_train m_debug = true /\ with_ann_type m_debug = true /\
  lookup st0 0%nat "dataset_source" = Some (VInt 1) /\
  py_index (dataset_ann m_debug) (VInt 1) = Ok "image" /\
  lookup st0 0%nat "pos_category_ids" = None /\
  exists out s', call m_debug lib0 0%nat st0 = (Ok out, s') /\
    lookup s' out "pos_category_ids" = Some (VList [VInt 7]) /\
    lookup s' out "ann_type" = Some (VStr "box").
Proof.
  do 5 (split; [reflexivity|]).
  exists 3%nat, (snd (call m_debug lib0 0%nat st0)).
  split; [|split]; vm_compute; reflexivity.
Qed.

(** C6: training with [is_debug]: source 0 and [pos_category_ids = [7]]. *)
Lemma debug_labels_witness :
  exists out s', is_debug m_debug = true /\
  call m_debug lib0 0%nat st0 = (Ok out, s') /\
  lookup s' out "dataset_source" = Some (VInt 0) /\
  (is_train m_debug = true ->
   match lookup st0 0%nat "pos_category_ids" with
   | None => true
   | Some v => is_empty_list v
   end = true ->
   exists i, lookup s' out "instances" = Some (VInstances i) /\
     lookup s' out "pos_category_ids" =
       Some (VList (map VInt (sorted_set (gt_classes i))))).
Proof.
  assert (H : call m_debug lib0 0%nat st0 =
              (Ok 3%nat, snd (call m_debug lib0 0%nat st0))) by (vm_compute; reflexivity).
  exists 3%nat, (snd (call m_debug lib0 0%nat st0)).
  split; [reflexivity|]. split; [exact H|].
  exact (debug_labels m_debug lib0 0%nat st0 3%nat _ eq_refl H).
Defined.

(** C6: in inference mode with [is_debug], no [pos_category_ids] is
    derived for a record that has none. *)
Lemma debug_labels_counterexample :
  is_debug m_infer = true /\ is_train m_infer = false /\
  lookup st0 0%nat "pos_category_ids" = None /\
  exists out s', call m_infer lib0 0%nat st0 = (Ok out, s') /\
    lookup s' out "pos_category_ids" = None.
Proof.
  do 3 (split; [reflexivity|]).
  exists 3%nat, (snd (call m_infer lib0 0%nat st0)).
  split; vm_compute; reflexivity.
Qed.

(** C9: a record with only a ["tar_index"]. *)
Lemma missing_file_name_fails_witness :
  heap st_no_file 0%nat = Some [("tar_index", VInt 0)] /\
  dict_get [("tar_index", VInt 0)] "file_name" = None /\
  fst (call m_plain lib0 0%nat st_no_file) = Err AttributeError.
Proof.
  split; [reflexivity|]. split; [reflexivity|].
  exact (missing_file_name_fails m_plain lib0 0%nat st_no_file _ eq_refl eq_refl).
Defined.

(** C10: a record with matching size fields and a segmentation file, but
    without ["dataset_source"], under per-source pipelines. *)
Lemma dataset_source_required_witness :
  use_diff_bs_size m_plain = true /\ is_train m_plain = true /\
  is_debug m_plain = false /\ heap st_no_source 0%nat = Some rec_no_source /\
  dict_get rec_no_source "dataset_source" = None /\
  (exists e, fst (call m_plain lib0 0%nat st_no_source) = Err e) /\
  trace (snd (call m_plain lib0 0%nat st_no_source)) = trace st_no_source /\
  fst (call m_plain lib0 0%nat st_no_source) = Err KeyError.
Proof.
  do 5 (split; [reflexivity|]).
  destruct (dataset_source_required m_plain lib0 0%nat st_no_source rec_no_source
              eq_refl eq_refl eq_refl eq_refl eq_refl) as (He & Ht & Hk).
  split; [exact He|]. split; [exact Ht|].
  apply (Hk "a.jpg" (mkImage 2 3 []) [AugmentationList [1%nat]; AugmentationList [2%nat]]);
    try reflexivity.
  - intros w h Hw Hh. injection Hw as <-. injection Hh as <-. reflexivity.
  - intros v Hv. injection Hv as <-. exists "s.png", (mkImage 2 3 []).
    split; reflexivity.
Defined.

(** C4: the same arguments, with and without [use_tar_dataset]. *)
Lemma tar_dataset_rejected_witness :
  init true false [] false [] false true "p" "i"
    (mkBaseKwargs [0%nat] "BGR" false false "polygon" None None false)
    = Err NotImplementedError /\
  exists m, init true false [] false [] false false "p" "i"
              (mkBaseKwargs [0%nat] "BGR" false false "polygon" None None false) = Ok m /\
            use_tar_dataset m = false.
Proof.
  split.
  - apply (proj1 (tar_dataset_rejected true false [] false [] false true "p" "i"
                    (mkBaseKwargs [0%nat] "BGR" false false "polygon" None None false))).
    reflexivity.
  - apply (proj2 (proj2 (tar_dataset_rejected true false [] false [] false false "p" "i"
                    (mkBaseKwargs [0%nat] "BGR" false false "polygon" None None false))
                    eq_refl)).
    left; reflexivity.
Defined.

(** * Further properties of the module *)

(** ** Construction from a config *)

Lemma nth_error_map_combine {A B C} (f : A * B -> C) (xs : list A) (ys : list B) i :
  nth_error (map f (combine xs ys)) i =
  match nth_error xs i, nth_error ys i with
  | Some a, Some b => Some (f (a, b))
  | _, _ => None
  end.
Proof.
  revert ys i; induction xs as [|x xs IH]; intros [|y ys] [|i]; simpl; auto.
  - destruct (nth_error xs i); reflexivity.
Qed.

Lemma length_map_combine {A B C} (f : A * B -> C) (xs : list A) (ys : list B) :
  length (map f (combine xs ys)) = Nat.min (length xs) (length ys).
Proof. rewrite length_map. apply length_combine. Qed.

(** [from_config] with per-source sizes, training, and the
    ['EfficientDetResizeCrop'] augmentation: one augmentation list per pair
    of [DATASET_INPUT_SCALE] and [DATASET_INPUT_SIZE] entries at the same
    position, as many as the shorter list has entries. *)
Theorem from_config_efficientdet {Sc Sz Mi Ma} base build (cfg : config Sc Sz Mi Ma) :
  USE_DIFF_BS_SIZE cfg = true -> CUSTOM_AUG cfg = "EfficientDetResizeCrop" ->
  exists kw, from_config base build cfg true = Ok kw /\
    length (kw_dataset_augs kw) =
      Nat.min (length (DATASET_INPUT_SCALE cfg)) (length (DATASET_INPUT_SIZE cfg)) /\
    forall i, nth_error (kw_dataset_augs kw) i =
      match nth_error (DATASET_INPUT_SCALE cfg) i, nth_error (DATASET_INPUT_SIZE cfg) i with
      | Some sc, Some sz => Some (build cfg true (ScaleSize sc sz))
      | _, _ => None
      end.
Proof.
  intros Hu Ha. unfold from_config. rewrite Hu, Ha. simpl.
  eexists. split; [reflexivity|]. simpl. split.
  - apply length_map_combine.
  - intros i. rewrite nth_error_map_combine. reflexivity.
Qed.

(** The same with the ['ResizeShortestEdge'] augmentation, from
    [DATASET_MIN_SIZES] and [DATASET_MAX_SIZES]. *)
Theorem from_config_resize_shortest_edge {Sc Sz Mi Ma} base build
    (cfg : config Sc Sz Mi Ma) :
  USE_DIFF_BS_SIZE cfg = true -> CUSTOM_AUG cfg = "ResizeShortestEdge" ->
  exists kw, from_config base build cfg true = Ok kw /\
    length (kw_dataset_augs kw) =
      Nat.min (length (DATASET_MIN_SIZES cfg)) (length (DATASET_MAX_SIZES cfg)) /\
    forall i, nth_error (kw_dataset_augs kw) i =
      match nth_error (DATASET_MIN_SIZES cfg) i, nth_error (DATASET_MAX_SIZES cfg) i with
      | Some mi, Some ma => Some (build cfg true (MinMaxSize mi ma))
      | _, _ => None
      end.
Proof.
  intros Hu Ha. unfold from_config. rewrite Hu, Ha. simpl.
  eexists. split; [reflexivity|]. simpl. split.
  - apply length_map_combine.
  - intros i. rewrite nth_error_map_combine. reflexivity.
Qed.

(** [from_config] fails exactly when it builds per-source augmentations
    (per-source sizes in training mode) for a [CUSTOM_AUG] other than the
    two it knows, and then with the [AssertionError] of its [assert]. *)
Theorem from_config_fails {Sc Sz Mi Ma} base build (cfg : config Sc Sz Mi Ma) it e :
  from_config base build cfg it = Err e <->
  USE_DIFF_BS_SIZE cfg && it = true /\
  CUSTOM_AUG cfg <> "EfficientDetResizeCrop" /\ CUSTOM_AUG cfg <> "ResizeShortestEdge" /\
  e = AssertionError.
Proof.
  unfold from_config.
  destruct (USE_DIFF_BS_SIZE cfg && it) eqn:Hu; simpl.
  - destruct (String.eqb_spec (CUSTOM_AUG cfg) "EfficientDetResizeCrop") as [E1|E1].
    + split; [discriminate | intros (_ & C & _); contradiction].
    + destruct (String.eqb_spec (CUSTOM_AUG cfg) "ResizeShortestEdge") as [E2|E2].
      * split; [discriminate | intros (_ & _ & C & _); contradiction].
      * split; [intros H; inversion H; auto | intros (_ & _ & _ & ->); reflexivity].
  - split; [discriminate | intros (C & _); discriminate].
Qed.

(** A mapper built from a config ([CustomDatasetMapper(cfg, is_train)])
    never has [use_tar_dataset]; in training mode with per-source sizes it
    has one pipeline per pair of size entries, as many as the shorter list
    of the pair [CUSTOM_AUG] selects; otherwise it has no [dataset_augs]
    attribute. *)
Theorem from_cfg_dataset_augs {Sc Sz Mi Ma} base build (cfg : config Sc Sz Mi Ma) it m :
  from_cfg base build cfg it = Ok m ->
  USE_TAR_DATASET cfg = false /\ use_tar_dataset m = false /\
  (USE_DIFF_BS_SIZE cfg && it = true ->
   exists augs, dataset_augs m = Some augs /\
     length augs =
       (if String.eqb (CUSTOM_AUG cfg) "EfficientDetResizeCrop"
        then Nat.min (length (DATASET_INPUT_SCALE cfg)) (length (DATASET_INPUT_SIZE cfg))
        else Nat.min (length (DATASET_MIN_SIZES cfg)) (length (DATASET_MAX_SIZES cfg)))) /\
  (USE_DIFF_BS_SIZE cfg && it = false -> dataset_augs m = None).
Proof.
  unfold from_cfg, from_config.
  destruct (USE_DIFF_BS_SIZE cfg && it) eqn:Hu.
  - destruct (String.eqb (CUSTOM_AUG cfg) "EfficientDetResizeCrop") eqn:E1;
      [|destruct (String.eqb (CUSTOM_AUG cfg) "ResizeShortestEdge") eqn:E2;
        [|discriminate]];
      simpl; unfold init; simpl; rewrite Hu;
      destruct (USE_TAR_DATASET cfg); try discriminate;
      destruct (kw_recompute_boxes (base cfg it) && negb (kw_use_instance_mask (base cfg it)));
      try discriminate; intros H; inversion H; subst; simpl;
      (split; [reflexivity|split; [reflexivity|split; [|discriminate]]]);
      intros _; eexists; (split; [reflexivity|]); rewrite length_map;
      apply length_map_combine.
  - simpl. unfold init; simpl. rewrite Hu.
    destruct (USE_TAR_DATASET cfg); try discriminate.
    destruct (kw_recompute_boxes (base cfg it) && negb (kw_use_instance_mask (base cfg it)));
      try discriminate. intros H; inversion H; subst; simpl.
    split; [reflexivity|split; [reflexivity|split; [discriminate|reflexivity]]].
Qed.

(** ** Runs of the sections of [__call__] *)

Lemma value_is_int_eq v z : value_is_int v z = true -> v = VInt z.
Proof. destruct v; simpl; try discriminate. intros H; apply Z.eqb_eq in H; subst; reflexivity. Qed.

Lemma check_image_size_run d im s s' :
  check_image_size d im s = (Ok tt, s') ->
  lookup s' d "width" = Some (VInt (img_w im)) /\
  lookup s' d "height" = Some (VInt (img_h im)).
Proof.
  unfold check_image_size. intros H.
  destruct (bind_ok _ _ _ _ _ H) as (hw & s1 & R1 & H1); clear H.
  destruct (contains_run _ _ _ _ _ R1) as [-> ->]; clear R1.
  destruct (bind_ok _ _ _ _ _ H1) as (hh & s2 & R2 & H2); clear H1.
  destruct (contains_run _ _ _ _ _ R2) as [-> ->]; clear R2.
  destruct (bind_ok _ _ _ _ _ H2) as (u & s3 & R3 & H3); clear H2.
  assert (Hs : s3 = s /\
     ((match lookup s d "width" with Some _ => true | None => false end ||
       match lookup s d "height" with Some _ => true | None => false end)%bool = true ->
      lookup s d "width" = Some (VInt (img_w im)) /\
      lookup s d "height" = Some (VInt (img_h im)))).
  { destruct (_ || _)%bool.
    - destruct (bind_ok _ _ _ _ _ R3) as (w & s4 & R4 & H4).
      destruct (getitem_run _ _ _ _ _ R4) as [-> Hw].
      destruct (bind_ok _ _ _ _ _ H4) as (h & s5 & R5 & H5).
      destruct (getitem_run _ _ _ _ _ R5) as [-> Hh].
      destruct (value_is_int w (img_w im) && value_is_int h (img_h im))%bool eqn:E;
        [|discriminate].
      inversion H5; subst. apply andb_true_iff in E as [E1 E2].
      apply value_is_int_eq in E1, E2. subst. auto.
    - inversion R3; subst. split; [reflexivity|discriminate]. }
  destruct Hs as [-> Hs]. clear R3.
  destruct (bind_ok _ _ _ _ _ H3) as (hw' & s4 & R4 & H4); clear H3.
  destruct (contains_run _ _ _ _ _ R4) as [-> ->]; clear R4.
  destruct (bind_ok _ _ _ _ _ H4) as (u' & s5 & R5 & H5); clear H4.
  assert (Hw : lookup s5 d "width" = Some (VInt (img_w im)) /\
               lookup s5 d "height" = lookup s d "height").
  { destruct (lookup s d "width") eqn:Ew.
    - inversion R5; subst. split; [|reflexivity].
      rewrite Ew. exact (proj1 (Hs eq_refl)).
    - destruct (setitem_run _ _ _ _ _ _ R5) as (E1 & _ & E2).
      split; [exact E1|]. apply E2. right; discriminate. }
  clear R5. destruct Hw as [Hw1 Hw2].
  destruct (bind_ok _ _ _ _ _ H5) as (hh' & s6 & R6 & H6); clear H5.
  destruct (contains_run _ _ _ _ _ R6) as [-> ->]; clear R6.
  destruct (lookup s5 d "height") eqn:Eh.
  - inversion H6; subst. split; [exact Hw1|].
    rewrite Eh, Hw2. apply Hs. rewrite <- Hw2.
    destruct (lookup s d "width"); reflexivity.
  - destruct (setitem_run _ _ _ _ _ _ H6) as (E1 & _ & E2).
    split; [rewrite E2 by (right; discriminate); exact Hw1|exact E1].
Qed.

Lemma load_image_run m L d s ori s' :
  load_image m L d s = (Ok ori, s') ->
  exists fn, lookup s d "file_name" = Some (VStr fn) /\
    read_image L fn (image_format m) = Some ori /\
    lookup s' d "width" = Some (VInt (img_w ori)) /\
    lookup s' d "height" = Some (VInt (img_h ori)).
Proof.
  unfold load_image. intros H.
  destruct (bind_ok _ _ _ _ _ H) as (b & s1 & R1 & H1); clear H.
  destruct (contains_run _ _ _ _ _ R1) as [-> ->]; clear R1.
  destruct (bind_ok _ _ _ _ _ H1) as (im & s2 & R2 & H2); clear H1.
  destruct (lookup s d "file_name") eqn:Ef; [|discriminate].
  destruct (bind_ok _ _ _ _ _ R2) as (f & s3 & R3 & H3); clear R2.
  destruct (getitem_run _ _ _ _ _ R3) as [-> Hf]. rewrite Ef in Hf. inversion Hf; subst.
  destruct f as [| |fn| | | | | | | | |]; try discriminate. cbn in H3.
  unfold bind, ret, throw in H3.
  destruct (read_image L fn (image_format m)) eqn:Er; inversion H3; subst.
  destruct (bind_ok _ _ _ _ _ H2) as (u & s4 & R4 & H4); clear H2.
  destruct u. inversion H4; subst.
  exists fn. split; [reflexivity|]. split; [exact Er|].
  apply (check_image_size_run _ _ _ _ R4).
Qed.

Lemma pop_gone l k s v s' : pop l k s = (Ok v, s') -> lookup s' l k = None.
Proof.
  unfold pop, bind, load, ret, throw, store. intros H.
  destruct (heap s l) as [dd|] eqn:E; [|discriminate].
  destruct (dict_get dd k); inversion H; subst.
  unfold lookup; simpl. unfold upd_heap. rewrite Nat.eqb_refl. apply dict_get_del_eq.
Qed.

(** The segmentation [read_sem_seg] returns: none without a
    ["sem_seg_file_name"], otherwise the file it names, read in mode [L]. *)
Lemma read_sem_seg_value L d s sem s' :
  read_sem_seg L d s = (Ok sem, s') ->
  match lookup s d "sem_seg_file_name" with
  | None => sem = None
  | Some v => exists f, v = VStr f /\ read_image L f "L" = sem
  end.
Proof.
  unfold read_sem_seg. intros H.
  destruct (bind_ok _ _ _ _ _ H) as (b & s1 & R1 & H1); clear H.
  destruct (contains_run _ _ _ _ _ R1) as [-> ->]; clear R1.
  destruct (lookup s d "sem_seg_file_name") as [v|] eqn:E.
  - destruct (bind_ok _ _ _ _ _ H1) as (v' & s2 & R2 & H2); clear H1.
    destruct (pop_run _ _ _ _ _ R2) as (E2 & _). rewrite E in E2. injection E2 as <-.
    destruct (bind_ok _ _ _ _ _ H2) as (f & s3 & R3 & H3); clear H2.
    destruct v; try discriminate. injection R3 as -> _.
    exists f. split; [reflexivity|].
    destruct (read_image L f "L"); [|discriminate]. injection H3 as <- _. reflexivity.
  - injection H1 as <- _. reflexivity.
Qed.

Lemma read_sem_seg_run L d s sem s' :
  read_sem_seg L d s = (Ok sem, s') -> lookup s' d "sem_seg_file_name" = None.
Proof.
  unfold read_sem_seg. intros H.
  destruct (bind_ok _ _ _ _ _ H) as (b & s1 & R1 & H1); clear H.
  destruct (contains_run _ _ _ _ _ R1) as [-> Eb]; clear R1.
  destruct b.
  - destruct (bind_ok _ _ _ _ _ H1) as (v & s2 & R2 & H2).
    apply pop_gone in R2.
    unfold as_str, bind, ret, throw in H2.
    destruct v; try discriminate.
    destruct (read_image L s0 "L"); inversion H2; subst; exact R2.
  - inversion H1; subst. destruct (lookup s' d "sem_seg_file_name"); [discriminate|reflexivity].
Qed.

Lemma store_image_run d img sem s s' :
  store_image d img sem s = (Ok tt, s') -> lookup s' d "image" = Some (VTensor img).
Proof.
  unfold store_image. intros H.
  destruct (bind_ok _ _ _ _ _ H) as (u & s1 & R1 & H1); clear H.
  destruct (setitem_run _ _ _ _ _ _ R1) as (E1 & _ & _).
  destruct sem as [sm|].
  - destruct (setitem_run _ _ _ _ _ _ H1) as (_ & _ & E2).
    rewrite E2 by (right; discriminate). exact E1.
  - inversion H1; subst. exact E1.
Qed.

Lemma finish_run m L d tr img sem' s out s' :
  finish m L d tr img sem' s = (Ok out, s') ->
  out = d /\ exists s6 s7,
    store_image d img sem' s = (Ok tt, s6) /\
    proposals_step m L d (img_h img, img_w img) tr s6 = (Ok tt, s7) /\
    forall k, ~ In k ["annotations"; "sem_seg_file_name"; "instances";
                      "pos_category_ids"; "ann_type"] ->
      ~ In k anno_keys -> lookup s' d k = lookup s7 d k.
Proof.
  intros H. destruct (is_train m) eqn:Ht.
  - destruct (finish_train _ _ _ _ _ _ _ _ _ Ht H)
      as (-> & s6 & s7 & b & s8 & s9 & F1 & F2 & F3 & F4 & F5 & F6).
    split; [reflexivity|]. exists s6, s7. split; [exact F1|]. split; [exact F2|].
    intros k Hk Ha.
    frame_at F6 (debug_pos_frame m d).
    frame_at F5 (attach_ann_type_frame m d).
    apply (annotations_step_frame _ _ _ _ _ _ _ _ _ _ F4).
    simpl in *. unfold anno_keys in Ha. simpl in Ha. tauto.
  - destruct (finish_infer _ _ _ _ _ _ _ _ _ Ht H)
      as (-> & s6 & s7 & s8 & v1 & v2 & F1 & F2 & F3 & F4).
    split; [reflexivity|]. exists s6, s7. split; [exact F1|]. split; [exact F2|].
    intros k Hk Ha.
    destruct (pop_default_run _ _ _ _ _ _ F4) as (_ & _ & _ & G4).
    destruct (pop_default_run _ _ _ _ _ _ F3) as (_ & _ & _ & G3).
    rewrite G4 by (right; intro; subst; simpl in Hk; tauto).
    apply G3. right; intro; subst; simpl in Hk; tauto.
Qed.

(** A successful call, up to [finish]. *)
Lemma call_run m L r s out s' :
  call m L r s = (Ok out, s') ->
  out = (r + next s)%nat /\
  exists ori s2 sem s3 s4 b p tr img sem' s6 s7,
    load_image m L (r + next s)%nat (copied s) = (Ok ori, s2) /\
    read_sem_seg L (r + next s)%nat s2 = (Ok sem, s3) /\
    force_debug_source m (r + next s)%nat s3 = (Ok tt, s4) /\
    not_full_labeled m (r + next s)%nat s4 = (Ok b, s4) /\
    select_augmentation m (r + next s)%nat s4 = (Ok p, s4) /\
    augment L p ori sem = (tr, img, sem') /\
    store_image (r + next s)%nat img sem'
      (mkState (heap s4) (next s4) (app (trace s4) [EvAugment p])) = (Ok tt, s6) /\
    proposals_step m L (r + next s)%nat (img_h img, img_w img) tr s6 = (Ok tt, s7) /\
    (forall k, ~ In k ["annotations"; "sem_seg_file_name"; "instances";
                       "pos_category_ids"; "ann_type"] ->
      ~ In k anno_keys -> lookup s' (r + next s)%nat k = lookup s7 (r + next s)%nat k) /\
    exists evs, trace s' = app (trace s) (EvAugment p :: evs).
Proof.
  intros H.
  unfold call in H. rewrite bind_deepcopy in H. set (d := (r + next s)%nat) in *.
  destruct (bind_ok _ _ _ _ _ H) as (ori & s2 & H1 & H2); clear H.
  destruct (bind_ok _ _ _ _ _ H2) as (sem & s3 & H3 & H4); clear H2.
  destruct (bind_ok _ _ _ _ _ H4) as ([] & s4 & H5 & H6); clear H4.
  destruct (bind_ok _ _ _ _ _ H6) as (b & s5 & H7 & H8); clear H6.
  pose proof (not_full_labeled_state _ _ _ _ _ H7) as E5. subst s5.
  destruct (bind_ok _ _ _ _ _ H8) as (p & s6 & H9 & H10); clear H8.
  destruct (select_augmentation_run _ _ _ _ _ H9) as [E6 _]. subst s6.
  rewrite bind_apply_augmentation in H10.
  destruct (augment L p ori sem) as [[tr img] sem'] eqn:Ea.
  destruct (finish_run _ _ _ _ _ _ _ _ _ H10) as (Ho & s6 & s7 & F1 & F2 & F3).
  split; [exact Ho|].
  exists ori, s2, sem, s3, s4, b, p, tr, img, sem', s6, s7.
  do 9 (split; [assumption|]).
  destruct (run_logs _ _ _ _ _ (finish_logs m L d tr img sem') H10) as (evs & T & _).
  exists evs. rewrite T. simpl. trace_chain. rewrite <- app_assoc. reflexivity.
Qed.

Lemma check_size_mismatch d im s dd w h :
  heap s d = Some dd -> dict_get dd "width" = Some w -> dict_get dd "height" = Some h ->
  (value_is_int w (img_w im) && value_is_int h (img_h im))%bool = false ->
  check_image_size d im s = (Err SizeMismatchError, s).
Proof.
  intros E Hw Hh Hv. unfold check_image_size.
  run_step (contains_ok _ "width" _ _ E). rewrite (has_key_true _ _ _ Hw).
  run_step (contains_ok _ "height" _ _ E).
  cbv beta iota.
  run_step (getitem_ok _ _ _ _ _ E Hw). run_step (getitem_ok _ _ _ _ _ E Hh).
  destruct (value_is_int w (img_w im)); simpl in Hv; [rewrite Hv|]; reflexivity.
Qed.

Lemma check_size_partial d im s dd :
  heap s d = Some dd -> has_key dd "width" <> has_key dd "height" ->
  check_image_size d im s = (Err KeyError, s).
Proof.
  intros E Hk. unfold check_image_size.
  run_step (contains_ok _ "width" _ _ E). run_step (contains_ok _ "height" _ _ E).
  unfold has_key in *.
  destruct (dict_get dd "width") as [w|] eqn:Hw;
    destruct (dict_get dd "height") as [h|] eqn:Hh; try (exfalso; apply Hk; reflexivity);
    cbv beta iota delta [orb].
  - run_step (getitem_ok _ _ _ _ _ E Hw).
    repeat rewrite bind_assoc_s; rewrite (bind_Err _ _ _ _ _ (getitem_missing _ _ _ _ E Hh)). reflexivity.
  - repeat rewrite bind_assoc_s; rewrite (bind_Err _ _ _ _ _ (getitem_missing _ _ _ _ E Hw)). reflexivity.
Qed.

Lemma load_image_check_error m L d s dd fn im e :
  heap s d = Some dd -> dict_get dd "file_name" = Some (VStr fn) ->
  read_image L fn (image_format m) = Some im ->
  check_image_size d im s = (Err e, s) -> load_image m L d s = (Err e, s).
Proof.
  intros E Hf Hr Hc. unfold load_image.
  run_step (contains_ok _ "file_name" _ _ E). rewrite (has_key_true _ _ _ Hf).
  cbv beta iota.
  run_step (getitem_ok _ _ _ _ _ E Hf).
  unfold as_str at 1. run_ret. rewrite Hr. run_ret.
  rewrite (bind_Err _ _ _ _ _ Hc). reflexivity.
Qed.

Lemma not_full_labeled_index m d s b s' v :
  not_full_labeled m d s = (Ok b, s') -> with_ann_type m = true ->
  lookup s d "dataset_source" = Some v -> exists a, py_index (dataset_ann m) v = Ok a.
Proof.
  unfold not_full_labeled. intros H Hw Hv.
  destruct (bind_ok _ _ _ _ _ H) as (c & s1 & R1 & H1); clear H.
  destruct (contains_run _ _ _ _ _ R1) as [-> ->]. rewrite Hv, Hw in H1.
  destruct (bind_ok _ _ _ _ _ H1) as (v' & s2 & R2 & H2); clear H1.
  destruct (getitem_run _ _ _ _ _ R2) as [-> Hv']. rewrite Hv in Hv'. inversion Hv'; subst.
  destruct (bind_ok _ _ _ _ _ H2) as (a & s3 & R3 & _).
  unfold lift in R3. destruct (py_index (dataset_ann m) v') eqn:E.
  - exists a0. reflexivity.
  - discriminate.
Qed.

Lemma not_full_labeled_plain m d s :
  with_ann_type m = false -> heap s d <> None -> not_full_labeled m d s = (Ok false, s).
Proof.
  intros Hw Hh. unfold not_full_labeled.
  run_step (contains_some_heap d "dataset_source" s Hh). rewrite Hw.
  destruct (match lookup s d "dataset_source" with Some _ => true | None => false end);
    reflexivity.
Qed.

Lemma select_augmentation_error m d s augs dd v e :
  use_diff_bs_size m && is_train m = true -> dataset_augs m = Some augs ->
  heap s d = Some dd -> dict_get dd "dataset_source" = Some v ->
  py_index augs v = Err e -> select_augmentation m d s = (Err e, s).
Proof.
  intros Hc Ha E Hv Hp. unfold select_augmentation. rewrite Hc, Ha.
  run_ret. run_step (getitem_ok _ _ _ _ _ E Hv). rewrite Hp. reflexivity.
Qed.

Lemma transform_proposals_run L d shape tr k s s' pb :
  transform_proposals L d shape tr k s = (Ok tt, s') ->
  lookup s d "proposal_boxes" = Some pb ->
  exists pm pl, lookup s d "proposal_bbox_mode" = Some pm /\
    lookup s d "proposal_objectness_logits" = Some pl /\
    lookup s' d "proposals" = Some (VProposals (proposal_boxes L pb pm pl shape tr k)) /\
    lookup s' d "proposal_boxes" = None /\
    lookup s' d "proposal_bbox_mode" = None /\
    lookup s' d "proposal_objectness_logits" = None.
Proof.
  unfold transform_proposals. intros H Hb.
  destruct (bind_ok _ _ _ _ _ H) as (c & s1 & R1 & H1); clear H.
  destruct (contains_run _ _ _ _ _ R1) as [-> ->]. rewrite Hb in H1.
  destruct (bind_ok _ _ _ _ _ H1) as (pb' & s2 & R2 & H2); clear H1.
  destruct (pop_run _ _ _ _ _ R2) as (E2 & _ & F2). rewrite Hb in E2. inversion E2; subst pb'.
  apply pop_gone in R2.
  destruct (bind_ok _ _ _ _ _ H2) as (pm & s3 & R3 & H3); clear H2.
  destruct (pop_run _ _ _ _ _ R3) as (E3 & _ & F3). apply pop_gone in R3.
  destruct (bind_ok _ _ _ _ _ H3) as (pl & s4 & R4 & H4); clear H3.
  destruct (pop_run _ _ _ _ _ R4) as (E4 & _ & F4). apply pop_gone in R4.
  destruct (setitem_run _ _ _ _ _ _ H4) as (E5 & _ & F5).
  exists pm, pl.
  rewrite F2 in E3 by (right; discriminate).
  rewrite F3, F2 in E4 by (right; discriminate).
  split; [exact E3|]. split; [exact E4|]. split; [exact E5|].
  rewrite !F5 by (right; discriminate).
  split; [rewrite F4, F3 by (right; discriminate); exact R2|].
  split; [rewrite F4 by (right; discriminate); exact R3|exact R4].
Qed.

Lemma process_annotations_pops m L d tr shape s s' :
  process_annotations m L d tr shape s = (Ok tt, s') -> lookup s' d "annotations" = None.
Proof.
  unfold process_annotations. intros H.
  destruct (bind_ok _ _ _ _ _ H) as (v & s1 & R1 & H1); clear H.
  destruct (bind_ok _ _ _ _ _ H1) as (vs & s2 & R2 & H2); clear H1.
  destruct (bind_ok _ _ _ _ _ H2) as (u & s3 & R3 & H3); clear H2.
  destruct (bind_ok _ _ _ _ _ H3) as (v' & s4 & R4 & H4); clear H3.
  apply pop_gone in R4. rewrite <- R4.
  eapply run_frame; [|exact H4|].
  - instantiate (1 := fun l k => In k anno_keys \/ (l = d /\ k = "instances")).
    frame_tac.
  - unfold anno_keys. simpl. intuition discriminate.
Qed.

Lemma early_frame m L d s0 ori s2 sem s3 s4 k :
  load_image m L d s0 = (Ok ori, s2) -> read_sem_seg L d s2 = (Ok sem, s3) ->
  force_debug_source m d s3 = (Ok tt, s4) ->
  ~ In k ["width"; "height"; "sem_seg_file_name"; "dataset_source"] ->
  lookup s4 d k = lookup s0 d k.
Proof.
  intros H1 H2 H3 Hk.
  rewrite (run_frame _ _ _ _ _ _ _ (force_debug_source_frame m d) H3)
    by (intros [_ E]; apply Hk; subst; simpl; tauto).
  rewrite (run_frame _ _ _ _ _ _ _ (read_sem_seg_frame L d) H2)
    by (intros [_ E]; apply Hk; subst; simpl; tauto).
  apply (run_frame _ _ _ _ _ _ _ (load_image_frame m L d) H1).
  intros [_ E]; apply Hk; simpl in *; tauto.
Qed.

Lemma mid_frame m L d img sem' tr s4 s6 s7 k :
  store_image d img sem' s4 = (Ok tt, s6) ->
  proposals_step m L d (img_h img, img_w img) tr s6 = (Ok tt, s7) ->
  ~ In k ["image"; "sem_seg"; "proposal_boxes"; "proposal_bbox_mode";
          "proposal_objectness_logits"; "proposals"] ->
  lookup s7 d k = lookup s4 d k.
Proof.
  intros H1 H2 Hk.
  rewrite (run_frame _ _ _ _ _ _ _ (proposals_step_frame m L d _ tr) H2)
    by (intros [_ E]; apply Hk; simpl in *; tauto).
  apply (run_frame _ _ _ _ _ _ _ (store_image_frame d img sem') H1).
  intros [_ E]; apply Hk; simpl in *; tauto.
Qed.

Lemma shift_value_str o v fn : shift_value o v = VStr fn -> v = VStr fn.
Proof. destruct v; simpl; congruence. Qed.

Lemma getitem_lookup l k s v : lookup s l k = Some v -> getitem l k s = (Ok v, s).
Proof.
  unfold lookup, getitem, bind, load. destruct (heap s l); [|discriminate].
  intros ->. reflexivity.
Qed.

Lemma py_index_int_error {A} (xs : list A) z e : py_index xs (VInt z) = Err e -> e = IndexError.
Proof.
  unfold py_index. cbv zeta.
  destruct ((0 <=? _) && (_ <? _)); [destruct (nth_error _ _)|]; congruence.
Qed.

Lemma py_index_out {A} (xs : list A) z :
  (z < - Z.of_nat (length xs) \/ Z.of_nat (length xs) <= z) ->
  py_index xs (VInt z) = Err IndexError.
Proof.
  intros Hz. unfold py_index. cbv zeta.
  destruct (Z.ltb_spec z 0);
    match goal with |- context [(0 <=? ?i) && (?i <? ?n)] =>
      destruct (Z.leb_spec 0 i); destruct (Z.ltb_spec i n) end;
    simpl; try reflexivity; lia.
Qed.

Lemma py_index_int_ok {A} (xs : list A) z x :
  py_index xs (VInt z) = Ok x ->
  - Z.of_nat (length xs) <= z < Z.of_nat (length xs) /\
  nth_error xs (Z.to_nat (if z <? 0 then Z.of_nat (length xs) + z else z)) = Some x.
Proof.
  unfold py_index. cbv zeta.
  destruct (Z.ltb_spec z 0);
    match goal with |- context [(0 <=? ?i) && (?i <? ?n)] =>
      destruct (Z.leb_spec 0 i); destruct (Z.ltb_spec i n) end;
    simpl; try discriminate;
    (destruct (nth_error _ _) eqn:E; intros Hx; inversion Hx; subst;
     split; [lia|reflexivity]).
Qed.

Lemma not_full_labeled_int m d s z :
  lookup s d "dataset_source" = Some (VInt z) ->
  (exists b, not_full_labeled m d s = (Ok b, s)) \/
  not_full_labeled m d s = (Err IndexError, s).
Proof.
  intros Hv. unfold not_full_labeled.
  run_step (contains_some_heap d "dataset_source" s (lookup_heap _ _ _ _ Hv)).
  rewrite Hv. destruct (with_ann_type m); [|left; eexists; reflexivity].
  run_step (getitem_lookup _ _ _ _ Hv).
  destruct (py_index (dataset_ann m) (VInt z)) as [a|e] eqn:E.
  - left. eexists. run_ret. reflexivity.
  - right. apply py_index_int_error in E. subst e. reflexivity.
Qed.

Lemma select_augmentation_index_error m d s augs v e :
  use_diff_bs_size m && is_train m = true -> dataset_augs m = Some augs ->
  lookup s d "dataset_source" = Some v ->
  py_index augs v = Err e -> select_augmentation m d s = (Err e, s).
Proof.
  intros Hc Ha Hv Hp. unfold select_augmentation. rewrite Hc, Ha.
  run_ret. run_step (getitem_lookup _ _ _ _ Hv). rewrite Hp. reflexivity.
Qed.

Lemma insert_uniq_In x ys y : In y (insert_uniq x ys) <-> x = y \/ In y ys.
Proof.
  induction ys as [|y0 ys IH]; simpl; [tauto|].
  destruct (Z.ltb_spec x y0); [simpl; tauto|].
  destruct (Z.eqb_spec x y0); [subst; simpl; tauto|].
  simpl. rewrite IH. tauto.
Qed.

Lemma insert_uniq_HdRel a x ys :
  a < x -> HdRel Z.lt a ys -> HdRel Z.lt a (insert_uniq x ys).
Proof.
  intros Hax Ha. destruct ys as [|y0 ys]; simpl; [constructor; exact Hax|].
  destruct (x <? y0); [constructor; exact Hax|].
  destruct (x =? y0); [exact Ha|].
  inversion Ha; subst. constructor. assumption.
Qed.

Lemma insert_uniq_sorted x ys : Sorted Z.lt ys -> Sorted Z.lt (insert_uniq x ys).
Proof.
  induction ys as [|y0 ys IH]; simpl; intros Hs.
  - constructor; constructor.
  - destruct (Z.ltb_spec x y0).
    + constructor; [exact Hs|constructor; assumption].
    + destruct (Z.eqb_spec x y0); [exact Hs|].
      apply Sorted_inv in Hs as [Hs Hh].
      constructor; [apply IH, Hs|]. apply insert_uniq_HdRel; [lia|exact Hh].
Qed.

Lemma select_length {A B} keep (xs : list A) (ys : list B) :
  length xs = length ys -> length (select keep xs) = length (select keep ys).
Proof.
  revert xs ys; induction keep as [|k keep IH]; intros xs ys E; [reflexivity|].
  destruct xs as [|x xs], ys as [|y ys]; simpl in *; try discriminate; [reflexivity|].
  injection E as E. destruct k; simpl; [f_equal|]; apply IH, E.
Qed.

Lemma select_map_true {A} (f : A -> bool) xs :
  Forall (fun x => f x = true) (select (map f xs) xs).
Proof.
  induction xs as [|x xs IH]; simpl; [constructor|].
  destruct (f x) eqn:E; [constructor|]; assumption.
Qed.

Lemma select_and_masks {A B} (f : A -> bool) (g : B -> bool) xs ys :
  length xs = length ys ->
  Forall (fun x => f x = true) (select (and_masks (map f xs) (map g ys)) xs) /\
  Forall (fun y => g y = true) (select (and_masks (map f xs) (map g ys)) ys).
Proof.
  revert ys; induction xs as [|x xs IH]; intros [|y ys] E; simpl in *;
    try discriminate; [split; constructor|].
  injection E as E. destruct (IH ys E) as [H1 H2].
  destruct (f x) eqn:Ef, (g y) eqn:Eg; simpl; split; try constructor; assumption.
Qed.

Lemma built_aligned m L annos shape inst' :
  built_instances m L annos shape inst' -> aligned inst'.
Proof.
  unfold built_instances, annotations_to_instances, recompute_boxes_from_masks.
  destruct annos as [|a0 annos]; simpl.
  - destruct (recompute_boxes m); intros H; [discriminate|subst].
    unfold aligned; simpl. repeat split; intros ? E; discriminate.
  - destruct (has_key a0 "segmentation"), (has_key a0 "keypoints");
      destruct (recompute_boxes m); intros H; try discriminate;
      try (injection H as <-); try subst inst'; unfold aligned; simpl;
      repeat split; try (intros ? E; try discriminate; injection E as <-);
      simpl; rewrite ?length_map; reflexivity.
Qed.

Lemma filter_empty_instances_ok L i :
  aligned i ->
  let i' := filter_empty_instances L i in
  Forall (fun b => box_nonempty L b = true) (gt_boxes i') /\ aligned i' /\
  (forall ms, gt_masks i' = Some ms -> Forall (fun mk => mask_nonempty L mk = true) ms).
Proof.
  intros (Hc & Hm & Hk). unfold filter_empty_instances; simpl.
  destruct (gt_masks i) as [ms|] eqn:Em.
  - specialize (Hm ms eq_refl).
    destruct (select_and_masks (box_nonempty L) (mask_nonempty L) _ _ (eq_sym Hm))
      as [H1 H2].
    split; [exact H1|]. split; [|intros ms' E; injection E as <-; exact H2].
    split; [apply select_length, Hc|]. split.
    + intros ms' E; injection E as <-. apply select_length, Hm.
    + intros ks E. destruct (gt_keypoints i) as [ks0|]; [|discriminate].
      injection E as <-. apply select_length, Hk. reflexivity.
  - split; [apply select_map_true|]. split; [|discriminate].
    split; [apply select_length, Hc|]. split; [discriminate|].
    intros ks E. destruct (gt_keypoints i) as [ks0|]; [|discriminate].
    injection E as <-. apply select_length, Hk. reflexivity.
Qed.

(** ** Properties of [__call__] *)

(** A successful call keeps every key of the input record that the mapper
    does not write (neither one of [written_keys] nor an annotation key):
    the output has it with the input's value, as [copy.deepcopy] copied it. *)
Theorem call_keeps_other_keys m L r s out s' k :
  call m L r s = (Ok out, s') -> ~ In k written_keys -> ~ In k anno_keys ->
  lookup s' out k = option_map (shift_value (next s)) (lookup s r k).
Proof.
  intros H Hk Ha.
  destruct (call_run _ _ _ _ _ _ H)
    as (-> & ori & s2 & sem & s3 & s4 & b & p & tr & img & sem' & s6 & s7
        & H1 & H3 & H5 & _ & _ & _ & F1 & F2 & F3 & _).
  unfold written_keys, pre_keys in Hk; simpl in Hk.
  rewrite F3; [| simpl; tauto | exact Ha].
  rewrite (mid_frame _ _ _ _ _ _ _ _ _ _ F1 F2) by (simpl; tauto).
  change (lookup (mkState (heap s4) (next s4) (trace s4 ++ [EvAugment p]))
            (r + next s)%nat k) with (lookup s4 (r + next s)%nat k).
  rewrite (early_frame _ _ _ _ _ _ _ _ _ _ H1 H3 H5) by (simpl; tauto).
  apply lookup_copied.
Qed.

(** A successful call reads the image named by the input's ["file_name"],
    applies one pipeline [p] to it (the first pipeline event of the call),
    and returns the augmented image as ["image"]; ["width"] and ["height"]
    are those of the image as read, before augmentation
    ([check_image_size] sets them when they are missing). *)
Theorem call_image_and_size m L r s out s' :
  call m L r s = (Ok out, s') ->
  exists fn ori p sem tr img sem',
    lookup s r "file_name" = Some (VStr fn) /\
    read_image L fn (image_format m) = Some ori /\
    augment L p ori sem = (tr, img, sem') /\
    (exists evs, trace s' = app (trace s) (EvAugment p :: evs)) /\
    lookup s' out "image" = Some (VTensor img) /\
    lookup s' out "width" = Some (VInt (img_w ori)) /\
    lookup s' out "height" = Some (VInt (img_h ori)).
Proof.
  intros H.
  destruct (call_run _ _ _ _ _ _ H)
    as (-> & ori & s2 & sem & s3 & s4 & b & p & tr & img & sem' & s6 & s7
        & H1 & H3 & H5 & _ & _ & Ea & F1 & F2 & F3 & T).
  destruct (load_image_run _ _ _ _ _ _ H1) as (fn & Hf & Hr & Hw & Hh).
  rewrite lookup_copied in Hf.
  destruct (lookup s r "file_name") as [v|] eqn:Ef; [|discriminate].
  simpl in Hf. inversion Hf as [Hf']. apply shift_value_str in Hf'. subst v.
  exists fn, ori, p, sem, tr, img, sem'.
  split; [reflexivity|]. split; [exact Hr|]. split; [exact Ea|]. split; [exact T|].
  assert (Hs : forall k, In k ["width"; "height"] ->
            lookup s' (r + next s)%nat k = lookup s2 (r + next s)%nat k).
  { intros k Hk. destruct Hk as [<-|[<-|[]]];
    (rewrite F3; [| simpl; intuition discriminate | simpl; intuition discriminate]).
    all: rewrite (mid_frame _ _ _ _ _ _ _ _ _ _ F1 F2) by (simpl; intuition discriminate).
    all: change (lookup (mkState (heap s4) (next s4) (trace s4 ++ [EvAugment p]))
              (r + next s)%nat ?k) with (lookup s4 (r + next s)%nat k).
    all: rewrite (run_frame _ _ _ _ _ _ _ (force_debug_source_frame m _) H5)
      by (intros [_ E]; discriminate).
    all: apply (run_frame _ _ _ _ _ _ _ (read_sem_seg_frame L _) H3).
    all: intros [_ E]; discriminate. }
  split.
  - rewrite F3; [| simpl; intuition discriminate | simpl; intuition discriminate].
    rewrite (run_frame _ _ _ _ _ _ _ (proposals_step_frame m L _ _ tr) F2)
      by (intros [_ E]; simpl in E; intuition discriminate).
    exact (store_image_run _ _ _ _ _ F1).
  - rewrite !Hs by (simpl; tauto). split; assumption.
Qed.

(** With [with_ann_type], a successful call needs [dataset_ann] to be
    indexable by the record's source: by [0] under [is_debug], otherwise by
    the input's ["dataset_source"] when it has one ([dataset_ann[...]] at
    lines 106-108 raises). *)
Theorem call_dataset_ann_index m L r s out s' :
  with_ann_type m = true -> call m L r s = (Ok out, s') ->
  if is_debug m then exists a, py_index (dataset_ann m) (VInt 0) = Ok a
  else forall v, lookup s r "dataset_source" = Some v ->
       exists a, py_index (dataset_ann m) v = Ok a.
Proof.
  intros Hw H.
  destruct (call_run _ _ _ _ _ _ H)
    as (_ & ori & s2 & sem & s3 & s4 & b & p & tr & img & sem' & s6 & s7
        & H1 & H3 & H5 & H7 & _).
  pose proof (dataset_source_at_selection _ _ _ _ _ _ _ _ _ _ _ _ H1 H3 H5 H7) as Ed.
  simpl in Ed.
  destruct (is_debug m).
  - exact (not_full_labeled_index _ _ _ _ _ _ H7 Hw Ed).
  - intros v Hv. rewrite Hv in Ed. simpl in Ed.
    destruct (not_full_labeled_index _ _ _ _ _ _ H7 Hw Ed) as [a Ea].
    rewrite py_index_shift in Ea. exists a; exact Ea.
Qed.

(** [check_image_size] on a readable image: a record with exactly one of
    ["width"] and ["height"] makes the call fail with [KeyError], and a
    record with both that differ from the image's size with
    [SizeMismatchError]. *)
Theorem call_size_errors m L r s d0 fn im :
  heap s r = Some d0 -> dict_get d0 "file_name" = Some (VStr fn) ->
  read_image L fn (image_format m) = Some im ->
  (has_key d0 "width" <> has_key d0 "height" -> fst (call m L r s) = Err KeyError) /\
  (forall w h, dict_get d0 "width" = Some w -> dict_get d0 "height" = Some h ->
     (value_is_int w (img_w im) && value_is_int h (img_h im))%bool = false ->
     fst (call m L r s) = Err SizeMismatchError).
Proof.
  intros Hr Hf Hi. unfold call. rewrite bind_deepcopy. set (d := (r + next s)%nat).
  assert (Hc : heap (copied s) d = Some (shift_dict (next s) d0))
    by (unfold d; rewrite heap_copied, Hr; reflexivity).
  assert (Hf' : dict_get (shift_dict (next s) d0) "file_name" = Some (VStr fn))
    by (rewrite dict_get_shift, Hf; reflexivity).
  split.
  - intros Hk.
    rewrite (bind_Err _ _ _ _ _ (load_image_check_error m L d _ _ fn im _ Hc Hf' Hi
               (check_size_partial d im _ _ Hc ltac:(rewrite !has_key_shift; exact Hk)))).
    reflexivity.
  - intros w h Hw Hh Hv.
    rewrite (bind_Err _ _ _ _ _ (load_image_check_error m L d _ _ fn im _ Hc Hf' Hi
               (check_size_mismatch d im _ _ (shift_value (next s) w) (shift_value (next s) h)
                  Hc ltac:(rewrite dict_get_shift, Hw; reflexivity)
                  ltac:(rewrite dict_get_shift, Hh; reflexivity)
                  ltac:(rewrite !value_is_int_shift; exact Hv)))).
    reflexivity.
Qed.

(** With per-source pipelines in training mode and without [is_debug], a
    record that reaches the pipeline selection with an integer
    ["dataset_source"] outside [-len(dataset_augs), len(dataset_augs))] makes
    the call fail with [IndexError] (from [dataset_ann] or from
    [dataset_augs]). *)
Theorem call_source_out_of_range m L r s d0 fn im augs z :
  use_diff_bs_size m = true -> is_train m = true -> is_debug m = false ->
  dataset_augs m = Some augs ->
  heap s r = Some d0 -> dict_get d0 "file_name" = Some (VStr fn) ->
  read_image L fn (image_format m) = Some im ->
  dict_get d0 "width" = None -> dict_get d0 "height" = None ->
  dict_get d0 "sem_seg_file_name" = None ->
  dict_get d0 "dataset_source" = Some (VInt z) ->
  (z < - Z.of_nat (length augs) \/ Z.of_nat (length augs) <= z) ->
  fst (call m L r s) = Err IndexError.
Proof.
  intros Hu Ht Hd Ha Hr Hf Hi Hw Hh Hs Hds Hz.
  unfold call. rewrite bind_deepcopy. set (d := (r + next s)%nat).
  assert (Hc : heap (copied s) d = Some (shift_dict (next s) d0))
    by (unfold d; rewrite heap_copied, Hr; reflexivity).
  destruct (load_image_plain m L d (copied s) _ fn im Hc) as (s2 & H1);
    [rewrite dict_get_shift, Hf; reflexivity|exact Hi
    |rewrite dict_get_shift, Hw; reflexivity|rewrite dict_get_shift, Hh; reflexivity|].
  assert (L2 : forall k, ~ In k ["width"; "height"] ->
               lookup s2 d k = option_map (shift_value (next s)) (dict_get d0 k)).
  { intros k Hk. rewrite (run_frame _ _ _ _ _ _ _ (load_image_frame m L d) H1) by tauto.
    unfold d. rewrite lookup_copied. unfold lookup. rewrite Hr. reflexivity. }
  assert (Hh2 : heap s2 d <> None).
  { apply (lookup_heap _ _ "file_name" (VStr fn)). rewrite L2 by notW. rewrite Hf. reflexivity. }
  assert (Hds2 : lookup s2 d "dataset_source" = Some (VInt z))
    by (rewrite L2 by notW; rewrite Hds; reflexivity).
  run_step H1.
  run_step (read_sem_seg_none L d s2 Hh2 ltac:(rewrite L2 by notW; rewrite Hs; reflexivity)).
  assert (H5 : force_debug_source m d s2 = (Ok tt, s2))
    by (unfold force_debug_source; rewrite Hd; reflexivity).
  run_step H5.
  destruct (not_full_labeled_int m d s2 z Hds2) as [[b H7]|H7].
  - run_step H7.
    rewrite (bind_Err _ _ _ _ _ (select_augmentation_index_error m d s2 augs _ _
               ltac:(rewrite Hu, Ht; reflexivity) Ha Hds2 (py_index_out augs z Hz))).
    reflexivity.
  - repeat rewrite bind_assoc_s. rewrite (bind_Err _ _ _ _ _ H7). reflexivity.
Qed.

(** With per-source pipelines in training mode and without [is_debug], a
    successful call on an integer ["dataset_source"] [z] has
    [-len(dataset_augs) <= z < len(dataset_augs)], and the pipeline it applies
    is the entry at [z], counted from the end when [z] is negative, as
    Python's indexing does. *)
Theorem call_source_index m L r s out s' augs z :
  use_diff_bs_size m = true -> is_train m = true -> is_debug m = false ->
  dataset_augs m = Some augs ->
  lookup s r "dataset_source" = Some (VInt z) ->
  call m L r s = (Ok out, s') ->
  - Z.of_nat (length augs) <= z < Z.of_nat (length augs) /\
  exists p, nth_error augs
              (Z.to_nat (if z <? 0 then Z.of_nat (length augs) + z else z)) = Some p /\
    exists evs, trace s' = app (trace s) (EvAugment p :: evs).
Proof.
  intros Hu Ht Hd Ha Hz H.
  destruct (call_run _ _ _ _ _ _ H)
    as (_ & ori & s2 & sem & s3 & s4 & b & p & tr & img & sem' & s6 & s7
        & H1 & H3 & H5 & H7 & H9 & _ & _ & _ & _ & T).
  pose proof (dataset_source_at_selection _ _ _ _ _ _ _ _ _ _ _ _ H1 H3 H5 H7) as Ed.
  simpl in Ed. rewrite Hd, Hz in Ed. simpl in Ed.
  destruct (select_augmentation_run _ _ _ _ _ H9) as [_ Hsel].
  rewrite Hu, Ht in Hsel. destruct Hsel as (augs' & v & Ha' & Hv & Hp).
  rewrite Ha in Ha'. injection Ha' as <-. rewrite Ed in Hv. injection Hv as <-.
  destruct (py_index_int_ok _ _ _ Hp) as [Hr Hn].
  split; [exact Hr|]. exists p. split; [exact Hn|exact T].
Qed.

(** Under [is_debug] in training mode, a record without ["annotations"] and
    without ["instances"], whose ["pos_category_ids"] is missing or empty,
    never maps successfully: lines 171-173 read [dataset_dict['instances']]. *)
Theorem debug_requires_instances m L r s d0 :
  is_train m = true -> is_debug m = true -> heap s r = Some d0 ->
  dict_get d0 "annotations" = None -> dict_get d0 "instances" = None ->
  match dict_get d0 "pos_category_ids" with
  | None => true | Some v => is_empty_list v end = true ->
  forall out s', call m L r s <> (Ok out, s').
Proof.
  intros Ht Hd Hr Ha Hi Hp out s' H.
  destruct (call_train_ok _ _ _ _ _ _ Ht H)
    as (_ & p & tr & img & s7 & b & s8 & s9 & _ & F7 & _ & C7 & P8 & A9 & D10).
  set (d := (r + next s)%nat) in *.
  assert (Hin : forall k, ~ In k pre_keys ->
            lookup s7 d k = option_map (shift_value (next s)) (dict_get d0 k)).
  { intros k Hk. rewrite F7 by exact Hk. unfold d. rewrite lookup_copied.
    unfold lookup. rewrite Hr. reflexivity. }
  destruct (contains_run _ _ _ _ _ C7) as [_ Eb].
  rewrite Hin, Ha in Eb by notW. simpl in Eb. subst b.
  injection P8 as <-.
  pose proof (debug_pos_run _ _ _ _ D10) as Hdp. rewrite Hd in Hdp.
  destruct Hdp as (i & Hi9 & _).
  - pose proof (attach_ann_type_run _ _ _ _ A9) as Hat.
    destruct (with_ann_type m).
    + destruct Hat as [-> _]. rewrite Hin by notW.
      destruct (dict_get d0 "pos_category_ids"); simpl; [|reflexivity].
      rewrite is_empty_list_shift. exact Hp.
    + subst s9. rewrite Hin by notW.
      destruct (dict_get d0 "pos_category_ids"); simpl; [|reflexivity].
      rewrite is_empty_list_shift. exact Hp.
  - rewrite (run_frame _ _ _ _ _ _ _ (attach_ann_type_frame m d) A9) in Hi9 by notW.
    rewrite Hin, Hi in Hi9 by notW. discriminate.
Qed.

(** With [proposal_topk] set, a successful call on a record with
    ["proposal_boxes"] needs ["proposal_bbox_mode"] and
    ["proposal_objectness_logits"] too.  The output has ["proposals"] built
    from the three, the size of the output image and the transform [tr]
    that the call's pipeline [p] (its first pipeline event) returned on the
    image read from ["file_name"] and the segmentation read from
    ["sem_seg_file_name"]; it has none of the three raw keys. *)
Theorem call_proposals m L r s out s' k pb :
  proposal_topk m = Some k -> call m L r s = (Ok out, s') ->
  lookup s r "proposal_boxes" = Some pb ->
  exists pm pl fn ori p sem tr img sem',
    lookup s r "proposal_bbox_mode" = Some pm /\
    lookup s r "proposal_objectness_logits" = Some pl /\
    lookup s r "file_name" = Some (VStr fn) /\
    read_image L fn (image_format m) = Some ori /\
    match lookup s r "sem_seg_file_name" with
    | None => sem = None
    | Some v => exists f, v = VStr f /\ read_image L f "L" = sem
    end /\
    augment L p ori sem = (tr, img, sem') /\
    (exists evs, trace s' = app (trace s) (EvAugment p :: evs)) /\
    lookup s' out "image" = Some (VTensor img) /\
    lookup s' out "proposals" =
      Some (VProposals (proposal_boxes L (shift_value (next s) pb)
                          (shift_value (next s) pm) (shift_value (next s) pl)
                          (img_h img, img_w img) tr k)) /\
    lookup s' out "proposal_boxes" = None /\
    lookup s' out "proposal_bbox_mode" = None /\
    lookup s' out "proposal_objectness_logits" = None.
Proof.
  intros Hk H Hb.
  destruct (call_run _ _ _ _ _ _ H)
    as (-> & ori & s2 & sem & s3 & s4 & b & p & tr & img & sem' & s6 & s7
        & H1 & H3 & H5 & _ & _ & Ea & F1 & F2 & F3 & T).
  destruct (load_image_run _ _ _ _ _ _ H1) as (fn & Hf & Hr & _).
  rewrite lookup_copied in Hf.
  destruct (lookup s r "file_name") as [vf|] eqn:Ef; [|discriminate].
  simpl in Hf. injection Hf as Hf. apply shift_value_str in Hf. subst vf.
  pose proof (read_sem_seg_value _ _ _ _ _ H3) as Hsem.
  rewrite (run_frame _ _ _ _ _ _ _ (load_image_frame m L (r + next s)%nat) H1) in Hsem
    by notW.
  rewrite lookup_copied in Hsem.
  assert (Hsem' : match lookup s r "sem_seg_file_name" with
                  | None => sem = None
                  | Some v => exists f, v = VStr f /\ read_image L f "L" = sem
                  end).
  { destruct (lookup s r "sem_seg_file_name") as [v|]; simpl in Hsem; [|exact Hsem].
    destruct Hsem as (f & Hv & Hrs). apply shift_value_str in Hv.
    exists f. split; assumption. }
  clear Hsem.
  set (d := (r + next s)%nat) in *.
  assert (L6 : forall k', In k' ["proposal_boxes"; "proposal_bbox_mode";
                                 "proposal_objectness_logits"] ->
            lookup s6 d k' = option_map (shift_value (next s)) (lookup s r k')).
  { intros k' Hk'.
    rewrite (run_frame _ _ _ _ _ _ _ (store_image_frame d img sem') F1)
      by (intros [_ E]; simpl in *; intuition congruence).
    change (lookup (mkState (heap s4) (next s4) (trace s4 ++ [EvAugment p])) d k')
      with (lookup s4 d k').
    rewrite (early_frame _ _ _ _ _ _ _ _ _ _ H1 H3 H5)
      by (simpl in *; intuition congruence).
    apply lookup_copied. }
  pose proof F2 as F2p. unfold proposals_step in F2. rewrite Hk in F2.
  destruct (transform_proposals_run _ _ _ _ _ _ _ _ F2
              ltac:(rewrite L6 by (simpl; tauto); rewrite Hb; reflexivity))
    as (pm' & pl' & Em & El & Ep & Gb & Gm & Gl).
  rewrite L6 in Em, El by (simpl; tauto).
  destruct (lookup s r "proposal_bbox_mode") as [pm|]; [|discriminate].
  destruct (lookup s r "proposal_objectness_logits") as [pl|]; [|discriminate].
  injection Em as <-. injection El as <-.
  exists pm, pl, fn, ori, p, sem, tr, img, sem'.
  split; [reflexivity|]. split; [reflexivity|]. split; [reflexivity|].
  split; [exact Hr|]. split; [exact Hsem'|]. split; [exact Ea|]. split; [exact T|].
  assert (Hl : forall k', In k' ["image"; "proposals"; "proposal_boxes";
                                 "proposal_bbox_mode"; "proposal_objectness_logits"] ->
            lookup s' d k' = lookup s7 d k').
  { intros k' Hk'. apply F3; simpl in *; intuition congruence. }
  rewrite !Hl by (simpl; tauto).
  split; [|split; [exact Ep|split; [exact Gb|split; [exact Gm|exact Gl]]]].
  rewrite (run_frame _ _ _ _ _ _ _ (proposals_step_frame m L d _ tr) F2p)
    by (intros [_ E]; simpl in E; intuition discriminate).
  exact (store_image_run _ _ _ _ _ F1).
Qed.

(** In both modes, the output of a successful call has neither
    ["annotations"] nor ["sem_seg_file_name"]. *)
Theorem call_drops_raw_fields m L r s out s' :
  call m L r s = (Ok out, s') ->
  lookup s' out "annotations" = None /\ lookup s' out "sem_seg_file_name" = None.
Proof.
  intros H.
  destruct (call_ok _ _ _ _ _ _ H)
    as (ori & s2 & sem & s3 & s4 & p & tr & img & sem' & H1 & H3 & H5 & H9 & Ea & H10).
  set (d := (r + next s)%nat) in *.
  pose proof (read_sem_seg_run _ _ _ _ _ H3) as S3.
  rewrite <- (run_frame _ _ _ _ _ _ _ (force_debug_source_frame m d) H5) in S3 by notW.
  destruct (is_train m) eqn:Ht.
  - destruct (finish_train _ _ _ _ _ _ _ _ _ Ht H10)
      as (-> & s6 & s7 & b & s8 & s9 & F1 & F2 & F3 & F4 & F5 & F6).
    destruct (contains_run _ _ _ _ _ F3) as [_ Eb].
    split;
      (frame_at F6 (debug_pos_frame m d); frame_at F5 (attach_ann_type_frame m d)).
    + destruct b.
      * exact (process_annotations_pops _ _ _ _ _ _ _ F4).
      * injection F4 as <-. destruct (lookup s7 d "annotations"); [discriminate|reflexivity].
    + rewrite (annotations_step_frame _ _ _ _ _ _ _ _ _ _ F4) by notW.
      rewrite (run_frame _ _ _ _ _ _ _ (proposals_step_frame m L d _ tr) F2) by notW.
      rewrite (run_frame _ _ _ _ _ _ _ (store_image_frame d img sem') F1) by notW.
      exact S3.
  - destruct (finish_infer _ _ _ _ _ _ _ _ _ Ht H10)
      as (-> & s6 & s7 & s8 & v1 & v2 & F1 & F2 & F3 & F4).
    destruct (pop_default_run _ _ _ _ _ _ F3) as (G3 & _).
    destruct (pop_default_run _ _ _ _ _ _ F4) as (G4 & _ & _ & K4).
    split; [rewrite K4 by (right; discriminate); exact G3|exact G4].
Qed.

(** [sorted(set(xs))]: strictly increasing, with exactly the elements of
    [xs]. *)
Theorem sorted_set_spec xs :
  Sorted Z.lt (sorted_set xs) /\ forall x, In x (sorted_set xs) <-> In x xs.
Proof.
  unfold sorted_set. induction xs as [|x xs [IHs IHi]]; simpl.
  - split; [constructor|tauto].
  - split; [apply insert_uniq_sorted, IHs|].
    intros y. rewrite insert_uniq_In, IHi. tauto.
Qed.

(** In training mode, when the input has ["annotations"], the output's
    ["instances"] keep only non-empty boxes (and non-empty masks when masks
    are present), and all its columns have the same length. *)
Theorem call_instances_nonempty m L r s out s' v :
  is_train m = true -> call m L r s = (Ok out, s') ->
  lookup s r "annotations" = Some v ->
  exists i, lookup s' out "instances" = Some (VInstances i) /\
    Forall (fun bx => box_nonempty L bx = true) (gt_boxes i) /\
    (forall ms, gt_masks i = Some ms -> Forall (fun mk => mask_nonempty L mk = true) ms) /\
    length (gt_classes i) = length (gt_boxes i) /\
    (forall ms, gt_masks i = Some ms -> length ms = length (gt_boxes i)) /\
    (forall ks, gt_keypoints i = Some ks -> length ks = length (gt_boxes i)).
Proof.
  intros Ht H Ha.
  destruct (call_train_ok _ _ _ _ _ _ Ht H)
    as (-> & p & tr & img & s7 & b & s8 & s9 & T7 & F7 & D7 & C7 & P8 & A9 & D10).
  set (d := (r + next s)%nat) in *.
  assert (Ha7 : lookup s7 d "annotations" = Some (shift_value (next s) v)).
  { rewrite F7 by notW. unfold d. rewrite lookup_copied, Ha. reflexivity. }
  destruct (contains_run _ _ _ _ _ C7) as [_ Eb]. rewrite Ha7 in Eb. subst b.
  destruct (process_annotations_refs _ _ _ _ _ _ _ _ Ha7 P8) as (ls & Hv).
  rewrite Hv in Ha7.
  destruct (process_annotations_run _ _ _ _ _ _ _ _ Ha7 P8)
    as (annos & inst' & _ & _ & Hb & Hi).
  destruct (filter_empty_instances_ok L inst' (built_aligned _ _ _ _ _ Hb))
    as (Hbx & (Hc & Hm & Hk) & Hmn).
  exists (filter_empty_instances L inst').
  split; [|tauto].
  frame_at D10 (debug_pos_frame m d). frame_at A9 (attach_ann_type_frame m d).
  exact Hi.
Qed.

(** ** Sample runs of the further properties *)

Ltac run_ok H m r st :=
  assert (H : call m lib0 r st = (Ok 3%nat, snd (call m lib0 r st)))
    by (vm_compute; reflexivity).

(** Two scales and three sizes give two pipelines. *)
Lemma from_config_efficientdet_witness :
  USE_DIFF_BS_SIZE cfg_eff = true /\ CUSTOM_AUG cfg_eff = "EfficientDetResizeCrop" /\
  exists kw, from_config base0 build0 cfg_eff true = Ok kw /\
    length (kw_dataset_augs kw) = 2%nat /\ nth_error (kw_dataset_augs kw) 1 = Some [896%nat].
Proof.
  split; [reflexivity|]. split; [reflexivity|].
  destruct (from_config_efficientdet base0 build0 cfg_eff eq_refl eq_refl)
    as (kw & H1 & H2 & H3).
  exists kw. split; [exact H1|]. split; [rewrite H2; reflexivity|]. rewrite H3. reflexivity.
Defined.

(** Three minimum and two maximum sizes give two pipelines. *)
Lemma from_config_resize_shortest_edge_witness :
  USE_DIFF_BS_SIZE cfg_rse = true /\ CUSTOM_AUG cfg_rse = "ResizeShortestEdge" /\
  exists kw, from_config base0 build0 cfg_rse true = Ok kw /\
    length (kw_dataset_augs kw) = 2%nat /\ nth_error (kw_dataset_augs kw) 0 = Some [1333%nat].
Proof.
  split; [reflexivity|]. split; [reflexivity|].
  destruct (from_config_resize_shortest_edge base0 build0 cfg_rse eq_refl eq_refl)
    as (kw & H1 & H2 & H3).
  exists kw. split; [exact H1|]. split; [rewrite H2; reflexivity|]. rewrite H3. reflexivity.
Defined.

(** A mapper built from [cfg_rse] in training mode. *)
Lemma from_cfg_dataset_augs_witness :
  exists m, from_cfg base0 build0 cfg_rse true = Ok m /\ use_tar_dataset m = false /\
    exists augs, dataset_augs m = Some augs /\ length augs = 2%nat.
Proof.
  assert (H : exists m, from_cfg base0 build0 cfg_rse true = Ok m)
    by (eexists; reflexivity).
  destruct H as [m H]. exists m. split; [exact H|].
  destruct (from_cfg_dataset_augs base0 build0 cfg_rse true m H) as (_ & Ht & Ha & _).
  split; [exact Ht|].
  destruct (Ha eq_refl) as (augs & E1 & E2). exists augs. split; [exact E1|].
  rewrite E2. reflexivity.
Defined.

(** ["file_name"] is carried over. *)
Lemma call_keeps_other_keys_witness :
  exists out s', call m_plain lib0 0%nat st0 = (Ok out, s') /\
    ~ In "file_name" written_keys /\ ~ In "file_name" anno_keys /\
    lookup s' out "file_name" = Some (VStr "a.jpg").
Proof.
  run_ok H m_plain 0%nat st0.
  assert (Hw : ~ In "file_name" written_keys)
    by (unfold written_keys, pre_keys; simpl; intuition discriminate).
  assert (Ha : ~ In "file_name" anno_keys) by (unfold anno_keys; simpl; intuition discriminate).
  exists 3%nat, (snd (call m_plain lib0 0%nat st0)).
  split; [exact H|]. split; [exact Hw|]. split; [exact Ha|].
  rewrite (call_keeps_other_keys _ _ _ _ _ _ _ H Hw Ha). reflexivity.
Defined.

(** The 2 x 3 image of [lib0]. *)
Lemma call_image_and_size_witness :
  exists out s', call m_plain lib0 0%nat st0 = (Ok out, s') /\
    lookup s' out "width" = Some (VInt 3) /\ lookup s' out "height" = Some (VInt 2).
Proof.
  run_ok H m_plain 0%nat st0.
  exists 3%nat, (snd (call m_plain lib0 0%nat st0)). split; [exact H|].
  destruct (call_image_and_size _ _ _ _ _ _ H)
    as (fn & ori & p & sem & tr & img & sem' & Hf & Hr & _ & _ & _ & Hw & Hh).
  simpl in Hf. injection Hf as <-. simpl in Hr. injection Hr as <-.
  split; [exact Hw|exact Hh].
Defined.

(** The source [1] of [rec0] indexes [dataset_ann]. *)
Lemma call_dataset_ann_index_witness :
  with_ann_type m_plain = true /\
  exists out s', call m_plain lib0 0%nat st0 = (Ok out, s') /\
    exists a, py_index (dataset_ann m_plain) (VInt 1) = Ok a.
Proof.
  split; [reflexivity|].
  run_ok H m_plain 0%nat st0.
  exists 3%nat, (snd (call m_plain lib0 0%nat st0)). split; [exact H|].
  exact (call_dataset_ann_index m_plain lib0 0%nat st0 _ _ eq_refl H (VInt 1) eq_refl).
Defined.

(** A wrong width, and a width without height. *)
Lemma call_size_errors_witness :
  fst (call m_plain lib0 0%nat st_bad_size) = Err SizeMismatchError /\
  fst (call m_plain lib0 0%nat st_width_only) = Err KeyError.
Proof.
  split.
  - apply (proj2 (call_size_errors m_plain lib0 0%nat st_bad_size _ "a.jpg" (mkImage 2 3 [])
                    eq_refl eq_refl eq_refl) (VInt 4) (VInt 2) eq_refl eq_refl).
    reflexivity.
  - apply (proj1 (call_size_errors m_plain lib0 0%nat st_width_only _ "a.jpg" (mkImage 2 3 [])
                    eq_refl eq_refl eq_refl)).
    discriminate.
Defined.

(** The source [-3] with two pipelines. *)
Lemma call_source_out_of_range_witness :
  fst (call m_plain lib0 0%nat st_bad_source) = Err IndexError.
Proof.
  apply (call_source_out_of_range m_plain lib0 0%nat st_bad_source _ "a.jpg"
           (mkImage 2 3 []) [AugmentationList [1%nat]; AugmentationList [2%nat]] (-3)
           eq_refl eq_refl eq_refl eq_refl eq_refl eq_refl eq_refl eq_refl eq_refl
           eq_refl eq_refl).
  left. simpl. lia.
Defined.

(** The source [-1] selects the last pipeline. *)
Lemma call_source_index_witness :
  exists out s', call m_plain lib0 0%nat st_last_source = (Ok out, s') /\
    exists evs, trace s' = app (trace st_last_source)
                            (EvAugment (AugmentationList [2%nat]) :: evs).
Proof.
  run_ok H m_plain 0%nat st_last_source.
  exists 3%nat, (snd (call m_plain lib0 0%nat st_last_source)). split; [exact H|].
  destruct (call_source_index m_plain lib0 0%nat st_last_source _ _
              [AugmentationList [1%nat]; AugmentationList [2%nat]] (-1)
              eq_refl eq_refl eq_refl eq_refl eq_refl H) as (_ & p & Hp & T).
  simpl in Hp. injection Hp as <-. exact T.
Defined.

(** A record with neither annotations nor instances under [is_debug]. *)
Lemma debug_requires_instances_witness :
  exists e, fst (call m_debug lib0 0%nat st_no_ann) = Err e.
Proof.
  destruct (call m_debug lib0 0%nat st_no_ann) as [[out|e] s'] eqn:E.
  - exfalso. exact (debug_requires_instances m_debug lib0 0%nat st_no_ann _
                      eq_refl eq_refl eq_refl eq_refl eq_refl eq_refl out s' E).
  - exists e. reflexivity.
Defined.

(** A record with precomputed proposals. *)
Lemma call_proposals_witness :
  exists out s', call m_proposals lib0 0%nat st_proposals = (Ok out, s') /\
    lookup s' out "proposal_boxes" = None /\
    lookup s' out "proposals" =
      Some (VProposals (proposal_boxes lib0 (VArr [0; 0; 1; 1]) (VInt 0) (VArr [1])
                          (2, 3) [0%nat] 5)).
Proof.
  run_ok H m_proposals 0%nat st_proposals.
  exists 3%nat, (snd (call m_proposals lib0 0%nat st_proposals)). split; [exact H|].
  destruct (call_proposals m_proposals lib0 0%nat st_proposals _ _ _ _ eq_refl H eq_refl)
    as (pm & pl & fn & ori & p & sem & tr & img & sem' & Em & El & Ef & Hr & Hs & Ea & T
        & _ & Ep & Gb & _).
  simpl in Em, El, Ef, Hs. injection Em as <-. injection El as <-. injection Ef as <-.
  simpl in Hr. injection Hr as <-. subst sem.
  destruct T as (evs & T). vm_compute in T. injection T as <- _.
  simpl in Ea. injection Ea as <- <- _.
  split; [exact Gb|exact Ep].
Defined.

(** Training on [rec0], which has both keys. *)
Lemma call_drops_raw_fields_witness :
  exists out s', call m_plain lib0 0%nat st0 = (Ok out, s') /\
    lookup s' out "annotations" = None /\ lookup s' out "sem_seg_file_name" = None.
Proof.
  run_ok H m_plain 0%nat st0.
  exists 3%nat, (snd (call m_plain lib0 0%nat st0)). split; [exact H|].
  exact (call_drops_raw_fields _ _ _ _ _ _ H).
Defined.

(** Training on [rec0]. *)
Lemma call_instances_nonempty_witness :
  exists out s', call m_debug lib0 0%nat st0 = (Ok out, s') /\
    exists i, lookup s' out "instances" = Some (VInstances i) /\
      Forall (fun bx => box_nonempty lib0 bx = true) (gt_boxes i).
Proof.
  run_ok H m_debug 0%nat st0.
  exists 3%nat, (snd (call m_debug lib0 0%nat st0)). split; [exact H|].
  destruct (call_instances_nonempty m_debug lib0 0%nat st0 _ _ _ eq_refl H eq_refl)
    as (i & Hi & Hb & _).
  exists i. split; [exact Hi|exact Hb].
Defined.
